(** * Cross-frame message bus of the Pearson MyLab AI Solver extension

    A shallow embedding of the messaging code of [src/js/content.js]
    ([setupCrossDomainCommunication], [setupFallbackCommunication]) and of the
    diagnostics collector of [src/js/debugUtils.js], with the properties of
    the bus stated and proved over it; and of three functions around the
    bus: [debugLog] as far as it feeds the collector, [detectPearsonDomain]
    and [cleanText].

    Conventions of the embedding.
    - [Date.now()] is the argument [now : Z] of every operation, and each use
      of [Math.random()] is a field of the argument [rand : Rand].
    - Objects used as dictionaries ([window.messageThrottleTimestamps],
      [window.sentMessageHashes], [window.pendingPings], ...) are finite maps
      of their own entries.  Where the code reads such an object at a key
      that may be any string and the outcome depends on it, the names every
      object inherits from [Object.prototype] are told apart ([inherited]):
      in the throttle tables of the primary send and of the 'storage'
      listener, and in the objects of the diagnostics collector.
      [Object.prototype] itself is as the language defines it, up to the one
      property the collector can add to it ([Debug.prototype_count]).
    - Arrays and the insertion-ordered [Set] are lists.
    - Calls into the rest of the extension ([analyzeCurrentPage],
      [updateStatusIndicator], [postMessage], [localStorage.setItem], a ping
      callback) are recorded as [Effect]s in the order they happen; callbacks
      are assumed to return normally.
    - [setTimeout] appends a task with its due time to the timer queue of the
      [World]; [fire] runs one task.
    - [state.enabled] and [state.analyzing] are also written by code outside
      the bus ([analyzeCurrentPage], the runtime message handlers); those
      writes are not events of this model, whose properties hold from every
      state.
    - Console logging is not recorded.  The calls that the log lines of the
      bus make into the diagnostics collector are [debugLog], modelled on
      its own; the bus is modelled as on a page where they return normally,
      as they do when the collector is not loaded.  Hypotheses on the action
      name ([inherited], [unquoted]) mark the properties that are stated
      for a page with the collector loaded as well. *)

From Stdlib Require Import Ascii String ZArith QArith.
From stdpp Require Import base gmap list strings pretty.

Open Scope string_scope.
Open Scope list_scope.
Open Scope Z_scope.

(** ** Strings *)

(** [hay.includes(needle)] *)
Fixpoint includes (needle hay : string) : bool :=
  String.prefix needle hay ||
  match hay with
  | EmptyString => false
  | String _ rest => includes needle rest
  end.

(** [s.startsWith(p)] *)
Definition startsWith (p s : string) : bool := String.prefix p s.

Definition drop_string (n : nat) (s : string) : string :=
  String.substring n (String.length s - n) s.

Definition take_string (n : nat) (s : string) : string :=
  String.substring 0 n s.

(** [s] ends with [suffix] *)
Definition endsWith (suffix s : string) : bool :=
  (String.length suffix <=? String.length s)%nat &&
  String.eqb (drop_string (String.length s - String.length suffix) s) suffix.

(** The characters the regular-expression atom [.] does not match
    (line feed and carriage return; origins are ASCII). *)
Definition line_terminator (c : ascii) : bool :=
  Ascii.eqb c "010"%char || Ascii.eqb c "013"%char.

Fixpoint no_line_terminator (s : string) : bool :=
  match s with
  | EmptyString => true
  | String c rest => negb (line_terminator c) && no_line_terminator rest
  end.

(** A JavaScript string is truthy when it is not empty. *)
Definition truthy_string (o : option string) : option string :=
  match o with
  | Some s => if String.eqb s "" then None else Some s
  | None => None
  end.

(** ** Names every object inherits *)

(** The property names of [Object.prototype]: eleven functions and the
    accessor [__proto__].  Read on a plain object that has no own entry of
    that name, each of them gives a truthy value that is not a number. *)
Definition OBJECT_PROTOTYPE : list string :=
  ["constructor"; "hasOwnProperty"; "isPrototypeOf"; "propertyIsEnumerable";
   "toLocaleString"; "toString"; "valueOf";
   "__defineGetter__"; "__defineSetter__"; "__lookupGetter__"; "__lookupSetter__";
   "__proto__"].

Definition inherited (k : string) : bool := bool_decide (k ∈ OBJECT_PROTOTYPE).
Arguments inherited : simpl never.

(** [table[key] = v] for a number [v]: an own entry, which also hides an
    inherited function of that name; at [__proto__] the assignment goes to
    the inherited setter, which ignores a number. *)
Definition assign {V} (key : string) (v : V) (table : gmap string V) : gmap string V :=
  if String.eqb key "__proto__" then table else <[key := v]> table.

(** [now - (table[key] || 0) < interval] on a table of times.  Without an
    own entry an inherited name gives a function (or, at [__proto__], the
    prototype itself), the difference is [NaN] and the comparison is
    false. *)
Definition too_soon (interval now : Z) (key : string) (table : gmap string Z) : bool :=
  match table !! key with
  | Some last => now - last <? interval
  | None => if inherited key then false else now - 0 <? interval
  end.

(** ** Origin validator ([content.js], lines 1000-1023) *)

(** [PEARSON_DOMAIN_PATTERNS]: the three patterns are
    [/^https?:\/\/.*?\.?D$/] for the domains [D] listed here. *)
Definition PEARSON_DOMAINS : list string :=
  ["pearson.com"; "pearsoncmg.com"; "pearsonmylabandmastering.com"].

(** The prefix [^https?:\/\/] of a pattern: what is left of the origin after
    the scheme, when the origin starts with one. *)
Definition strip_scheme (origin : string) : option string :=
  if startsWith "https://" origin then Some (drop_string 8 origin)
  else if startsWith "http://" origin then Some (drop_string 7 origin)
  else None.

(** [pattern.test(origin)] for [/^https?:\/\/.*?\.?D$/]: after the scheme
    comes any run of characters other than line terminators ([.*?] and the
    optional [\.]), then [D], then the end of the input. *)
Definition pattern_test (D origin : string) : bool :=
  match strip_scheme origin with
  | Some rest =>
      endsWith D rest &&
      no_line_terminator (take_string (String.length rest - String.length D) rest)
  | None => false
  end.

(** [isPearsonOrigin(origin)]; [own] is [window.location.origin]. *)
Definition isPearsonOrigin (own origin : string) : bool :=
  if includes "mylab.pearson.com" origin
     || includes "mylabmastering.pearson.com" origin
     || String.eqb origin own
  then true
  else existsb (fun D => pattern_test D origin) PEARSON_DOMAINS.

(** ** Data model *)

(** A message object: the [data] handed to [sendCrossDomainMessage], the
    envelope built from it, and what [JSON.parse] gives a listener.  A field
    is [None] when the key is absent.  Keys the bus never reads
    ([discoveryPing], [success], ...) are left out. *)
Record Message := mkMessage {
  source : option string;
  action : option string;
  messageId : option string;
  from : option string;
  timestamp : option Z;
  path : option (list string);
  replyTo : option string;
  enabled : option bool;
  hasQuestions : option bool;
  fallback : bool
}.

(** A function value passed as [options.callback], by name. *)
Definition Callback := nat.

(** The [options] object.  The destructuring at lines 1312-1320 reads the
    six keys [retry], [retryCount], [retryDelay], [callback],
    [skipDuplicateCheck], [skipRateLimiting]; any other key a caller puts in
    the object is ignored.  [timeoutMs] stands for such a key: no operation
    below reads it. *)
Record Options := mkOptions {
  retry : bool;
  retryCount : Z;
  retryDelay : Z;
  callback : option Callback;
  skipDuplicateCheck : bool;
  skipRateLimiting : bool;
  timeoutMs : option Z
}.

(** [options = {}] with the defaults of the destructuring. *)
Definition default_options : Options :=
  {| retry := false; retryCount := 1; retryDelay := 500; callback := None;
     skipDuplicateCheck := false; skipRateLimiting := false; timeoutMs := None |}.

(** An entry of [window.pendingPings]. *)
Record PendingPing := mkPendingPing {
  pp_timestamp : Z;
  pp_callback : option Callback
}.

(** The object given to [JSON.stringify] for [messageHash]: [action], and
    [enabled] and [hasQuestions] when they are defined.  [JSON.stringify] is
    injective on these objects, so the triple stands for the string. *)
Definition Fingerprint : Type := option string * option bool * option bool.

(** What a listener finds in [event.data] / [event.newValue]. *)
Inductive Wire :=
| WGarbage                (* a string that [JSON.parse] rejects *)
| WOther                  (* [null], or JSON that is not an object *)
| WObject (m : Message).

(** Calls that leave the bus. *)
Inductive Effect :=
| PostToParent (m : Message)              (* [window.parent.postMessage] *)
| PostToChild (i : nat) (m : Message)     (* [iframe.contentWindow.postMessage], i-th iframe *)
| StorageSetItem (key : string) (m : Message)
| StorageRemoveItem (key : string)
| AnalyzeCurrentPage
| UpdateStatusIndicator
| InvokeCallback (cb : Callback) (reply : Message).

(** Bodies of the [setTimeout] callbacks. *)
Inductive Task :=
| PingCleanup (id : string)                       (* lines 1403-1408 *)
| RetrySend (data : Message) (opts : Options)     (* lines 1460-1475 *)
| RemoveStorageItem (key : string)                (* lines 1684-1686 *)
| DeferredAnalyze                                 (* lines 1238-1242 *)
| FallbackAnalyze.                                (* line 1621 *)

(** What the hosting document fixes for the life of the bus. *)
Record Env := mkEnv {
  currentDomain : string;       (* [detectPearsonDomain()] *)
  locationOrigin : string;      (* [window.location.origin] *)
  hasParent : bool;             (* [window.parent && window.parent !== window] *)
  iframes : list bool;          (* per [iframe] of the document: has a [contentWindow] *)
  pageHasQuestions : bool       (* [checkForQuestions()] *)
}.

(** The random draws of one event. *)
Record Rand := mkRand {
  rand_id : string;             (* [Math.random().toString(36).substr(2, 9)] of the messageId *)
  rand_key : string;            (* the same expression in the localStorage key *)
  rand_jitter : Z               (* [Math.random() * 500] (line 1242), [* 300] (line 1621) *)
}.

(** The mutable state of one bus instance. *)
Record World := mkWorld {
  messageThrottleTimestamps : gmap string Z;
  sentMessageHashes : gmap Fingerprint Z;
  sentMessageIds : list string;
  pendingPings : gmap string PendingPing;
  receivedMessageIds : list string;
  storageLastSentTimes : gmap string Z;
  processedStorageMessages : list string;
  lastStorageMessageTimes : gmap string Z;
  state_enabled : option bool;
  state_analyzing : bool;
  timers : list (Z * Task)
}.

(** Fields of [World]:
    - [messageThrottleTimestamps] is [window.messageThrottleTimestamps]: for
      an action key, the time of the last send that passed the rate limiter
      (its own entries);
    - [sentMessageHashes] is [window.sentMessageHashes]: for a content
      fingerprint, the time of the last accepted send;
    - [sentMessageIds] is [window.sentMessageIds], oldest first;
    - [pendingPings] is [window.pendingPings];
    - [receivedMessageIds] is [window.receivedMessageIds], the record of the
      'message' listener, oldest first;
    - [storageLastSentTimes] is [window.storageLastSentTimes] of the fallback
      send;
    - [processedStorageMessages] is the [Set] of that name in the closure of
      the 'storage' listener, in insertion order;
    - [lastStorageMessageTimes] is the object of that name in the same
      closure;
    - [state_enabled] is [state.enabled] ([None] is [undefined]) and
      [state_analyzing] is [state.analyzing];
    - [timers] holds the pending [setTimeout] tasks with their due times, in
      the order they were set. *)

(** Field updates. *)
Definition set_messageThrottleTimestamps (v : gmap string Z) (w : World) : World :=
  {| messageThrottleTimestamps := v;
     sentMessageHashes := sentMessageHashes w;
     sentMessageIds := sentMessageIds w;
     pendingPings := pendingPings w;
     receivedMessageIds := receivedMessageIds w;
     storageLastSentTimes := storageLastSentTimes w;
     processedStorageMessages := processedStorageMessages w;
     lastStorageMessageTimes := lastStorageMessageTimes w;
     state_enabled := state_enabled w;
     state_analyzing := state_analyzing w;
     timers := timers w |}.
Definition set_sentMessageHashes (v : gmap Fingerprint Z) (w : World) : World :=
  {| messageThrottleTimestamps := messageThrottleTimestamps w;
     sentMessageHashes := v;
     sentMessageIds := sentMessageIds w;
     pendingPings := pendingPings w;
     receivedMessageIds := receivedMessageIds w;
     storageLastSentTimes := storageLastSentTimes w;
     processedStorageMessages := processedStorageMessages w;
     lastStorageMessageTimes := lastStorageMessageTimes w;
     state_enabled := state_enabled w;
     state_analyzing := state_analyzing w;
     timers := timers w |}.
Definition set_sentMessageIds (v : list string) (w : World) : World :=
  {| messageThrottleTimestamps := messageThrottleTimestamps w;
     sentMessageHashes := sentMessageHashes w;
     sentMessageIds := v;
     pendingPings := pendingPings w;
     receivedMessageIds := receivedMessageIds w;
     storageLastSentTimes := storageLastSentTimes w;
     processedStorageMessages := processedStorageMessages w;
     lastStorageMessageTimes := lastStorageMessageTimes w;
     state_enabled := state_enabled w;
     state_analyzing := state_analyzing w;
     timers := timers w |}.
Definition set_pendingPings (v : gmap string PendingPing) (w : World) : World :=
  {| messageThrottleTimestamps := messageThrottleTimestamps w;
     sentMessageHashes := sentMessageHashes w;
     sentMessageIds := sentMessageIds w;
     pendingPings := v;
     receivedMessageIds := receivedMessageIds w;
     storageLastSentTimes := storageLastSentTimes w;
     processedStorageMessages := processedStorageMessages w;
     lastStorageMessageTimes := lastStorageMessageTimes w;
     state_enabled := state_enabled w;
     state_analyzing := state_analyzing w;
     timers := timers w |}.
Definition set_receivedMessageIds (v : list string) (w : World) : World :=
  {| messageThrottleTimestamps := messageThrottleTimestamps w;
     sentMessageHashes := sentMessageHashes w;
     sentMessageIds := sentMessageIds w;
     pendingPings := pendingPings w;
     receivedMessageIds := v;
     storageLastSentTimes := storageLastSentTimes w;
     processedStorageMessages := processedStorageMessages w;
     lastStorageMessageTimes := lastStorageMessageTimes w;
     state_enabled := state_enabled w;
     state_analyzing := state_analyzing w;
     timers := timers w |}.
Definition set_storageLastSentTimes (v : gmap string Z) (w : World) : World :=
  {| messageThrottleTimestamps := messageThrottleTimestamps w;
     sentMessageHashes := sentMessageHashes w;
     sentMessageIds := sentMessageIds w;
     pendingPings := pendingPings w;
     receivedMessageIds := receivedMessageIds w;
     storageLastSentTimes := v;
     processedStorageMessages := processedStorageMessages w;
     lastStorageMessageTimes := lastStorageMessageTimes w;
     state_enabled := state_enabled w;
     state_analyzing := state_analyzing w;
     timers := timers w |}.
Definition set_processedStorageMessages (v : list string) (w : World) : World :=
  {| messageThrottleTimestamps := messageThrottleTimestamps w;
     sentMessageHashes := sentMessageHashes w;
     sentMessageIds := sentMessageIds w;
     pendingPings := pendingPings w;
     receivedMessageIds := receivedMessageIds w;
     storageLastSentTimes := storageLastSentTimes w;
     processedStorageMessages := v;
     lastStorageMessageTimes := lastStorageMessageTimes w;
     state_enabled := state_enabled w;
     state_analyzing := state_analyzing w;
     timers := timers w |}.
Definition set_lastStorageMessageTimes (v : gmap string Z) (w : World) : World :=
  {| messageThrottleTimestamps := messageThrottleTimestamps w;
     sentMessageHashes := sentMessageHashes w;
     sentMessageIds := sentMessageIds w;
     pendingPings := pendingPings w;
     receivedMessageIds := receivedMessageIds w;
     storageLastSentTimes := storageLastSentTimes w;
     processedStorageMessages := processedStorageMessages w;
     lastStorageMessageTimes := v;
     state_enabled := state_enabled w;
     state_analyzing := state_analyzing w;
     timers := timers w |}.
Definition set_state_enabled (v : option bool) (w : World) : World :=
  {| messageThrottleTimestamps := messageThrottleTimestamps w;
     sentMessageHashes := sentMessageHashes w;
     sentMessageIds := sentMessageIds w;
     pendingPings := pendingPings w;
     receivedMessageIds := receivedMessageIds w;
     storageLastSentTimes := storageLastSentTimes w;
     processedStorageMessages := processedStorageMessages w;
     lastStorageMessageTimes := lastStorageMessageTimes w;
     state_enabled := v;
     state_analyzing := state_analyzing w;
     timers := timers w |}.
Definition set_state_analyzing (v : bool) (w : World) : World :=
  {| messageThrottleTimestamps := messageThrottleTimestamps w;
     sentMessageHashes := sentMessageHashes w;
     sentMessageIds := sentMessageIds w;
     pendingPings := pendingPings w;
     receivedMessageIds := receivedMessageIds w;
     storageLastSentTimes := storageLastSentTimes w;
     processedStorageMessages := processedStorageMessages w;
     lastStorageMessageTimes := lastStorageMessageTimes w;
     state_enabled := state_enabled w;
     state_analyzing := v;
     timers := timers w |}.
Definition set_timers (v : list (Z * Task)) (w : World) : World :=
  {| messageThrottleTimestamps := messageThrottleTimestamps w;
     sentMessageHashes := sentMessageHashes w;
     sentMessageIds := sentMessageIds w;
     pendingPings := pendingPings w;
     receivedMessageIds := receivedMessageIds w;
     storageLastSentTimes := storageLastSentTimes w;
     processedStorageMessages := processedStorageMessages w;
     lastStorageMessageTimes := lastStorageMessageTimes w;
     state_enabled := state_enabled w;
     state_analyzing := state_analyzing w;
     timers := v |}.

(** A bus on which nothing has been sent or received yet (lines 1298-1299
    and the initial [state]); the timer of the start-up ping (lines
    1519-1521) is left out. *)
Definition initial_world : World :=
  {| messageThrottleTimestamps := ∅; sentMessageHashes := ∅; sentMessageIds := [];
     pendingPings := ∅; receivedMessageIds := []; storageLastSentTimes := ∅;
     processedStorageMessages := []; lastStorageMessageTimes := ∅;
     state_enabled := Some false; state_analyzing := false; timers := [] |}.

(** [setTimeout(task, delay)] at time [now]; a negative delay counts as 0. *)
Definition setTimeout (now delay : Z) (task : Task) (w : World) : World :=
  set_timers (timers w ++ [(now + Z.max 0 delay, task)]) w.

(** [list.slice(-100)] *)
Definition slice_last (n : nat) {A} (l : list A) : list A :=
  drop (length l - n) l.

(** [list.push(x); if (list.length > 100) list = list.slice(-100)] *)
Definition push_bounded {A} (x : A) (l : list A) : list A :=
  let l' := l ++ [x] in
  if (100 <? length l')%nat then slice_last 100 l' else l'.

(** ** Primary send ([content.js], lines 1311-1483) *)

(** [`msg_${Date.now()}_${Math.random().toString(36).substr(2, 9)}`] *)
Definition genMessageId (now : Z) (rnd : string) : string :=
  "msg_" +:+ pretty now +:+ "_" +:+ rnd.

(** [data.action || 'unknown'] *)
Definition action_key (data : Message) : string :=
  match truthy_string (action data) with
  | Some a => a
  | None => "unknown"
  end.

(** [data.action === a] *)
Definition is_action (a : string) (data : Message) : bool :=
  bool_decide (action data = Some a).

(** [messageHash] (lines 1352-1357) *)
Definition messageHash (data : Message) : Fingerprint :=
  (action data, enabled data, hasQuestions data).

(** The test of line 1336, with [lastSentTime] of line 1333. *)
Definition rate_limited (now : Z) (data : Message) (opts : Options) (w : World) : bool :=
  negb (skipRateLimiting opts) &&
  too_soon 500 now (action_key data) (messageThrottleTimestamps w).

(** The tests of lines 1360-1363, on the state after line 1342. *)
Definition duplicate_suppressed (now : Z) (data : Message) (opts : Options) (w : World) : bool :=
  negb (skipDuplicateCheck opts) &&
  match sentMessageHashes w !! messageHash data with
  | Some lastSentTimeForHash =>
      negb (lastSentTimeForHash =? 0) && (now - lastSentTimeForHash <? 2000)
  | None => false
  end.

(** The envelope of lines 1414-1422. *)
Definition envelope (env : Env) (now : Z) (id : string) (data : Message) : Message :=
  {| source := Some "pearson_ai_solver";
     action := action data;
     messageId := Some id;
     from := Some (currentDomain env);
     timestamp := Some now;
     path := Some (match path data with
                   | Some p => p ++ [currentDomain env]
                   | None => [currentDomain env]
                   end);
     replyTo := replyTo data;
     enabled := enabled data;
     hasQuestions := hasQuestions data;
     fallback := fallback data |}.

(** The posts of lines 1431-1454: the parent when there is one, then every
    iframe that has a [contentWindow]. *)
Definition post_all (env : Env) (m : Message) : list Effect :=
  (if hasParent env then [PostToParent m] else []) ++
  mjoin (imap (fun i has_window => if has_window : bool then [PostToChild i m] else [])
              (iframes env)).

(** The options of the retry call (lines 1464-1471). *)
Definition retry_options (opts : Options) : Options :=
  {| retry := true;
     retryCount := retryCount opts - 1;
     retryDelay := retryDelay opts;
     callback := callback opts;
     skipDuplicateCheck := true;
     skipRateLimiting := true;
     timeoutMs := None |}.

(** The function assigned to [window.sendCrossDomainMessage] at line 1311,
    called [originalSend] at line 1635.  The result is the returned
    messageId ([None] is [null]), the new state and the effects. *)
Definition originalSend (env : Env) (now : Z) (rand : Rand)
    (data : Message) (opts : Options) (w : World) : option string * World * list Effect :=
  let messageId := genMessageId now (rand_id rand) in
  let actionKey := action_key data in
  if rate_limited now data opts w then (None, w, [])
  else
    let w := set_messageThrottleTimestamps
               (assign actionKey now (messageThrottleTimestamps w)) w in
    if duplicate_suppressed now data opts w then (None, w, [])
    else
      let w := set_sentMessageHashes
                 (<[messageHash data := now]> (sentMessageHashes w)) w in
      let w := set_sentMessageIds (push_bounded messageId (sentMessageIds w)) w in
      let w := set_sentMessageHashes
                 (filter (fun kt => now - kt.2 <= 10000) (sentMessageHashes w)) w in
      let w :=
        match callback opts with
        | Some cb =>
            if is_action "ping" data then
              setTimeout now 5000 (PingCleanup messageId)
                (set_pendingPings
                   (<[messageId := {| pp_timestamp := now; pp_callback := Some cb |}]>
                      (pendingPings w)) w)
            else w
        | None => w
        end in
      let message := envelope env now messageId data in
      let out := post_all env message in
      let w :=
        if retry opts && (0 <? retryCount opts)
        then setTimeout now (retryDelay opts) (RetrySend data (retry_options opts)) w
        else w in
      (Some messageId, w, out).

(** ** Fallback send ([content.js], lines 1635-1694) *)

Inductive Exn := ReferenceError | SyntaxError.

(** How a call that may throw ends. *)
Inductive Completion (A : Type) :=
| Normal (a : A)
| Abrupt (e : Exn).
Arguments Normal {A} a.
Arguments Abrupt {A} e.

(** [debugLog] is declared inside [setupCrossDomainCommunication] (line
    1033).  [setupFallbackCommunication] is a separate top-level function, so
    the identifier is not bound in its body and no script of the repository
    defines a global of that name: evaluating a call [debugLog(...)] at lines
    1561, 1586, 1595, 1599, 1659, 1688 or 1690 throws a ReferenceError. *)
Definition debugLog_unbound : Completion unit := Abrupt ReferenceError.

Definition PREFIX : string := "pearson_ai_solver_msg_".

Definition FALLBACK_ACTIONS : list string :=
  ["analyzeQuestion"; "updateStatus"; "requestQuestionCheck"].

(** [[...].includes(data.action)] of line 1638 *)
Definition shouldUseFallback (data : Message) : bool :=
  match action data with
  | Some a => bool_decide (a ∈ FALLBACK_ACTIONS)
  | None => false
  end.

(** The object written to localStorage (lines 1671-1678). *)
Definition fallback_message (env : Env) (now : Z) (id : string) (data : Message) : Message :=
  {| source := Some "pearson_ai_solver";
     action := action data;
     messageId := Some id;
     from := Some (currentDomain env);
     timestamp := Some now;
     path := path data;
     replyTo := replyTo data;
     enabled := enabled data;
     hasQuestions := hasQuestions data;
     fallback := true |}.

(** The function assigned to [window.sendCrossDomainMessage] at line 1636:
    what every caller of the bus, the retry timer and the 'message' listener
    invoke. *)
Definition sendCrossDomainMessage (env : Env) (now : Z) (rand : Rand)
    (data : Message) (opts : Options) (w : World)
    : Completion (option string) * World * list Effect :=
  let '(messageId, w, out) := originalSend env now rand data opts w in
  match messageId with
  | None => (Normal None, w, out)
  | Some id =>
      if negb (shouldUseFallback data) then (Normal (Some id), w, out)
      else
        (* [actionKey] is one of the three names of the list *)
        let actionKey := action_key data in
        let lastTime := default 0 (storageLastSentTimes w !! actionKey) in
        if now - lastTime <? 2000 then
          match debugLog_unbound with                         (* line 1659 *)
          | Normal _ => (Normal (Some id), w, out)
          | Abrupt e => (Abrupt e, w, out)
          end
        else
          let w := set_storageLastSentTimes
                     (<[actionKey := now]> (storageLastSentTimes w)) w in
          (* try *)
          let key := PREFIX +:+ pretty now +:+ "_" +:+ rand_key rand in
          let out := out ++ [StorageSetItem key (fallback_message env now id data)] in
          let w := setTimeout now 1000 (RemoveStorageItem key) w in
          match debugLog_unbound with                         (* line 1688 *)
          | Normal _ => (Normal (Some id), w, out)
          | Abrupt _ =>
              (* catch (error) *)
              match debugLog_unbound with                     (* line 1690 *)
              | Normal _ => (Normal (Some id), w, out)
              | Abrupt e => (Abrupt e, w, out)
              end
          end
  end.

(** ** The 'message' listener ([content.js], lines 1109-1295) *)

(** [domainCounts] of lines 1174-1177 (and [counts] of [detectMessageLoop]). *)
Definition count_domains (p : list string) : gmap string nat :=
  foldl (fun counts domain =>
           <[domain := (default 0 (counts !! domain) + 1)%nat]> counts) ∅ p.

(** Lines 1171-1184: only a path longer than 5 is examined, and only the
    count of the receiving context's own domain is compared with 3. *)
Definition loop_blocked (env : Env) (data : Message) : bool :=
  match path data with
  | Some p =>
      (5 <? length p)%nat &&
      (3 <=? default 0 (count_domains p !! currentDomain env))%nat
  | None => false
  end.

(** Lines 1187-1191. *)
Definition is_echo (env : Env) (now : Z) (data : Message) (w : World) : bool :=
  let isSameOrigin :=
    bool_decide (from data = Some (currentDomain env)) &&
    match timestamp data with
    | Some t => negb (t =? 0) && (now - t <? 1000)
    | None => false
    end in
  isSameOrigin &&
  match truthy_string (messageId data) with
  | Some id => bool_decide (id ∈ sentMessageIds w)
  | None => false
  end.

(** How the listener disposes of an event. *)
Inductive Verdict :=
| Untrusted        (* origin rejected, line 1116 *)
| NotJson          (* [JSON.parse] failed, line 1132 *)
| NotOurs          (* no [source: 'pearson_ai_solver'], line 1137 *)
| Duplicate        (* messageId already in [receivedMessageIds], line 1155 *)
| LoopBlocked      (* line 1182 *)
| Echo             (* line 1193 *)
| Dispatched.      (* the [switch] of line 1199 is entered *)

(** An object with no keys. *)
Definition blank : Message :=
  {| source := None; action := None; messageId := None; from := None;
     timestamp := None; path := None; replyTo := None; enabled := None;
     hasQuestions := None; fallback := false |}.

(** The [switch (data.action)] of lines 1199-1290.  A send that throws is
    caught by the listener's [catch] (line 1292); what it did before
    throwing stays done. *)
Definition handle_action (env : Env) (now : Z) (rand : Rand)
    (data : Message) (w : World) : World * list Effect :=
  if is_action "analyzeQuestion" data then
    if state_analyzing w then (w, []) else (w, [AnalyzeCurrentPage])
  else if is_action "updateStatus" data then
    if bool_decide (state_enabled w = enabled data) then (w, [])
    else
      let w := set_state_enabled (enabled data) w in
      let forward :=
        bool_decide (from data ≠ Some (currentDomain env)) &&
        match path data with
        | Some p => (length p <? 3)%nat
        | None => false
        end in
      if forward then
        let '(_, w, out) :=
          sendCrossDomainMessage env now rand
            {| source := None; action := Some "updateStatus"; messageId := None;
               from := None; timestamp := None;
               path := Some (default [] (path data));
               replyTo := None; enabled := enabled data; hasQuestions := None;
               fallback := false |}
            default_options w in
        (w, UpdateStatusIndicator :: out)
      else (w, [UpdateStatusIndicator])
  else if is_action "requestQuestionCheck" data then
    if pageHasQuestions env && bool_decide (state_enabled w = Some true)
    then (setTimeout now (rand_jitter rand) DeferredAnalyze w, [])
    else (w, [])
  else if is_action "questionAnalyzed" data then
    if state_analyzing w
    then (set_state_analyzing false w, [UpdateStatusIndicator])
    else (w, [])
  else if is_action "ping" data then
    let '(_, w, out) :=
      sendCrossDomainMessage env now rand
        {| source := None; action := Some "pong"; messageId := None;
           from := None; timestamp := None; path := None;
           replyTo := messageId data; enabled := None;
           hasQuestions := Some (pageHasQuestions env); fallback := false |}
        {| retry := false; retryCount := 1; retryDelay := 500; callback := None;
           skipDuplicateCheck := true; skipRateLimiting := true; timeoutMs := None |}
        w in
    (w, out)
  else if is_action "pong" data then
    match truthy_string (replyTo data) with
    | Some r =>
        match pendingPings w !! r with
        | Some pendingPing =>
            (set_pendingPings (delete r (pendingPings w)) w,
             match pp_callback pendingPing with
             | Some cb => [InvokeCallback cb data]
             | None => []
             end)
        | None => (w, [])
        end
    | None => (w, [])
    end
  else (w, []).

(** Lines 1147-1194: deduplication, loop detection and echo suppression.
    Nothing here can throw. *)
Definition accept_message (env : Env) (now : Z) (data : Message) (w : World)
    : Verdict * World :=
  let seen :=
    match truthy_string (messageId data) with
    | Some id => bool_decide (id ∈ receivedMessageIds w)
    | None => false
    end in
  if seen then (Duplicate, w)
  else
    let w :=
      match truthy_string (messageId data) with
      | Some id => set_receivedMessageIds (push_bounded id (receivedMessageIds w)) w
      | None => w
      end in
    if loop_blocked env data then (LoopBlocked, w)
    else if is_echo env now data w then (Echo, w)
    else (Dispatched, w).

(** The listener registered at line 1109. *)
Definition onWindowMessage (env : Env) (now : Z) (rand : Rand)
    (origin : string) (data : Wire) (w : World) : Verdict * World * list Effect :=
  if negb (isPearsonOrigin (locationOrigin env) origin) then (Untrusted, w, [])
  else
    match data with
    | WGarbage => (NotJson, w, [])
    | WOther => (NotOurs, w, [])
    | WObject data =>
        if negb (bool_decide (source data = Some "pearson_ai_solver"))
        then (NotOurs, w, [])
        else
          match accept_message env now data w with
          | (Dispatched, w) =>
              let '(w, out) := handle_action env now rand data w in
              (Dispatched, w, out)
          | (verdict, w) => (verdict, w, [])
          end
    end.

(** ** The 'storage' listener ([content.js], lines 1546-1632) *)

Inductive StorageVerdict :=
| SIgnored                 (* not a key or an object of the protocol *)
| SFailed (e : Exn)        (* an exception reached the [catch] of line 1628 *)
| SDuplicate               (* line 1562 *)
| SRateLimited             (* line 1587 *)
| STooManyHops             (* line 1600 *)
| SDispatched.             (* the [switch] of line 1604 is entered *)

(** [`${data.action}_${data.messageId || event.key}`] *)
Definition messageSignature (key : string) (data : Message) : string :=
  default "undefined" (action data) +:+ "_" +:+
  default key (truthy_string (messageId data)).

(** The [switch] of lines 1604-1626. *)
Definition handle_storage_action (env : Env) (now : Z) (rand : Rand)
    (data : Message) (w : World) : World * list Effect :=
  if is_action "analyzeQuestion" data then
    if state_analyzing w then (w, []) else (w, [AnalyzeCurrentPage])
  else if is_action "updateStatus" data then
    if bool_decide (state_enabled w = enabled data) then (w, [])
    else (set_state_enabled (enabled data) w, [UpdateStatusIndicator])
  else if is_action "requestQuestionCheck" data then
    if pageHasQuestions env && bool_decide (state_enabled w = Some true)
       && negb (state_analyzing w)
    then (setTimeout now (rand_jitter rand) FallbackAnalyze w, [])
    else (w, [])
  else (w, []).

(** The listener registered at line 1546; [key] is [event.key] and
    [newValue] what [JSON.parse(event.newValue)] meets. *)
Definition onStorage (env : Env) (now : Z) (rand : Rand)
    (key : option string) (newValue : Wire) (w : World)
    : StorageVerdict * World * list Effect :=
  match truthy_string key with
  | None => (SIgnored, w, [])
  | Some k =>
      if negb (startsWith PREFIX k) then (SIgnored, w, [])
      else
        (* try *)
        match newValue with
        | WGarbage => (SFailed SyntaxError, w, [])
        | WOther => (SIgnored, w, [])
        | WObject data =>
            if negb (bool_decide (source data = Some "pearson_ai_solver"))
            then (SIgnored, w, [])
            else
              let signature := messageSignature k data in
              if bool_decide (signature ∈ processedStorageMessages w) then
                match debugLog_unbound with                   (* line 1561 *)
                | Normal _ => (SDuplicate, w, [])
                | Abrupt e => (SFailed e, w, [])
                end
              else
                let w := set_processedStorageMessages
                           (push_bounded signature (processedStorageMessages w)) w in
                let actionKey := action_key data in
                if too_soon 1000 now actionKey (lastStorageMessageTimes w) then
                  match debugLog_unbound with                 (* line 1586 *)
                  | Normal _ => (SRateLimited, w, [])
                  | Abrupt e => (SFailed e, w, [])
                  end
                else
                  let w := set_lastStorageMessageTimes
                             (assign actionKey now (lastStorageMessageTimes w)) w in
                  match debugLog_unbound with                 (* line 1595 *)
                  | Abrupt e => (SFailed e, w, [])
                  | Normal _ =>
                      let too_many_hops :=
                        match path data with
                        | Some p => (3 <? length p)%nat
                        | None => false
                        end in
                      if too_many_hops then
                        match debugLog_unbound with           (* line 1599 *)
                        | Normal _ => (STooManyHops, w, [])
                        | Abrupt e => (SFailed e, w, [])
                        end
                      else
                        let '(w, out) := handle_storage_action env now rand data w in
                        (SDispatched, w, out)
                  end
        end
  end.

(** ** Timers and events *)

(** The body of a [setTimeout] callback, run at time [now]. *)
Definition fire (env : Env) (now : Z) (rand : Rand) (task : Task) (w : World)
    : World * list Effect :=
  match task with
  | PingCleanup id =>
      match pendingPings w !! id with
      | Some _ => (set_pendingPings (delete id (pendingPings w)) w, [])
      | None => (w, [])
      end
  | RetrySend data opts =>
      (* try { sendCrossDomainMessage(data, ...) } catch (error) { } *)
      let '(_, w, out) := sendCrossDomainMessage env now rand data opts w in
      (w, out)
  | RemoveStorageItem key => (w, [StorageRemoveItem key])
  | DeferredAnalyze =>
      if state_analyzing w then (w, []) else (w, [AnalyzeCurrentPage])
  | FallbackAnalyze => (w, [AnalyzeCurrentPage])
  end.

(** What can happen to a bus. *)
Inductive Event :=
| SendCall (data : Message) (opts : Options)
    (* a caller invokes [window.sendCrossDomainMessage] *)
| WindowMessage (origin : string) (data : Wire)
    (* a 'message' event *)
| StorageChange (key : option string) (newValue : Wire)
    (* a 'storage' event *)
| TimerFires (i : nat).
    (* the i-th pending timer runs, if it is due *)

Definition step (env : Env) (now : Z) (rand : Rand) (ev : Event) (w : World)
    : World * list Effect :=
  match ev with
  | SendCall data opts =>
      let '(_, w, out) := sendCrossDomainMessage env now rand data opts w in (w, out)
  | WindowMessage origin data =>
      let '(_, w, out) := onWindowMessage env now rand origin data w in (w, out)
  | StorageChange key newValue =>
      let '(_, w, out) := onStorage env now rand key newValue w in (w, out)
  | TimerFires i =>
      match timers w !! i with
      | Some (due, task) =>
          if due <=? now
          then fire env now rand task (set_timers (delete i (timers w)) w)
          else (w, [])
      | None => (w, [])
      end
  end.

(** A run: the events in order, each with its time and random draws. *)
Fixpoint run (env : Env) (trace : list (Z * Rand * Event)) (w : World)
    : World * list Effect :=
  match trace with
  | [] => (w, [])
  | (now, rand, ev) :: rest =>
      let '(w, out) := step env now rand ev w in
      let '(w, out') := run env rest w in
      (w, out ++ out')
  end.

(** ** Diagnostics collector ([debugUtils.js]) *)

Module Debug.

(** An object whose keys are enumerated with [for ... in]: the association
    list of its own entries in insertion order (keys are not integer-like). *)
Fixpoint get {V} (k : string) (o : list (string * V)) : option V :=
  match o with
  | [] => None
  | (k', v) :: rest => if String.eqb k k' then Some v else get k rest
  end.

(** [o[k] = v]: an existing key keeps its place, a new one goes last. *)
Fixpoint set {V} (k : string) (v : V) (o : list (string * V)) : list (string * V) :=
  match o with
  | [] => [(k, v)]
  | (k', v') :: rest =>
      if String.eqb k k' then (k, v) :: rest else (k', v') :: set k v rest
  end.

(** A data sample: [{timestamp: Date.now(), ...data}], the keys of [data]
    as a list. *)
Definition Sample : Type := Z * list (string * string).

(** [{count, timestamps, data}] *)
Record Stat := mkStat {
  count : nat;
  timestamps : list Z;
  data : list Sample
}.

(** The objects of one category, by action.  [None] is an object without
    the three fields: the literal [{}] under [localStorage.sent] and
    [localStorage.received]. *)
Definition Bucket : Type := list (string * option Stat).

Record CircularPath := mkCircularPath {
  cp_timestamp : Z;
  cp_path : list string;
  cp_counts : gmap string nat
}.

(** The state of the collector.  [prototype_count] tells whether
    [Object.prototype] has the property [count]: [recordMessageStat] creates
    it, enumerable and with the value [NaN], when it is called with the
    action [__proto__], and nothing removes it.  From then on every object
    without an own entry [count] inherits one, and [for ... in] visits it. *)
Record Stats := mkStats {
  messageStats : list (string * Bucket);
  circularPaths : list CircularPath;
  prototype_count : bool
}.

(** Lines 10-21. *)
Definition initial : Stats :=
  {| messageStats :=
       [("sent", []); ("received", []); ("throttled", []);
        ("localStorage", [("sent", None); ("received", None)])];
     circularPaths := [];
     prototype_count := false |}.

(** [list.push(x); if (list.length > n) list.shift()] *)
Definition push_shift {A} (n : nat) (x : A) (l : list A) : list A :=
  let l' := l ++ [x] in
  if (n <? length l')%nat then drop 1 l' else l'.

(** [recordMessageStat(category, action, data)] at time [now], for a
    [category] that is not a name of [OBJECT_PROTOTYPE]; [None] when the call
    throws a TypeError.  It throws when [messageStats] has no bucket of that
    name, and when what it finds under [action] has no [timestamps]: the
    literal [{}], or, for an action without an own entry that every object
    inherits ([constructor], [valueOf], [__proto__], ...), the inherited
    member, which is truthy, so that lines 32-36 create nothing.  ([count++]
    has by then set a [count] of [NaN] on what it found; on the literal [{}]
    and on an inherited function nothing observes it; on [Object.prototype]
    it is what [recordMessageStat_throw] records.) *)
Definition recordMessageStat (now : Z) (category action : string)
    (sample : list (string * string)) (s : Stats) : option Stats :=
  match get category (messageStats s) with
  | None => None
  | Some bucket =>
      let entry :=
        match get action bucket with
        | None =>
            if inherited action then None
            else Some {| count := 0; timestamps := []; data := [] |}
        | Some e => e
        end in
      match entry with
      | None => None
      | Some st =>
          let st' :=
            {| count := S (count st);
               timestamps := push_shift 50 now (timestamps st);
               data := match sample with
                       | [] => data st
                       | _ => push_shift 20 (now, sample) (data st)
                       end |} in
          Some {| messageStats := set category (set action (Some st') bucket) (messageStats s);
                  circularPaths := circularPaths s;
                  prototype_count := prototype_count s |}
      end
  end.

(** The state a call of [recordMessageStat] that throws leaves behind.  With
    the action [__proto__] in an existing bucket that has no own entry of
    that name, [messageStats[category][action]] is [Object.prototype], and
    line 40 has given it the property [count] before line 41 throws. *)
Definition recordMessageStat_throw (category action : string) (s : Stats) : Stats :=
  match get category (messageStats s) with
  | Some bucket =>
      match get action bucket with
      | None =>
          if String.eqb action "__proto__"
          then {| messageStats := messageStats s; circularPaths := circularPaths s;
                  prototype_count := true |}
          else s
      | Some _ => s
      end
  | None => s
  end.

(** [detectMessageLoop(path)] at time [now].  For a name of
    [OBJECT_PROTOTYPE], [counts[domain] || 0] starts from the inherited
    member, the sums are strings, and [>= 3] is false of them (at
    [__proto__] nothing is stored at all); so only the other names are
    counted, and [cp_counts] keeps their counts. *)
Definition detectMessageLoop (now : Z) (path : option (list string)) (s : Stats)
    : bool * Stats :=
  match path with
  | None => (false, s)
  | Some p =>
      if (length p <? 3)%nat then (false, s)
      else
        let counts :=
          filter (fun dc => inherited dc.1 = false) (count_domains p) in
        if existsb (fun dc => (3 <=? dc.2)%nat) (map_to_list counts) then
          (true,
           {| messageStats := messageStats s;
              circularPaths :=
                push_shift 20 {| cp_timestamp := now; cp_path := p; cp_counts := counts |}
                           (circularPaths s);
              prototype_count := prototype_count s |})
        else (false, s)
  end.

Record Report := mkReport {
  summary : list (string * nat);
  byAction : list (string * list (string * nat));
  messageRate : list (string * list (string * Q));
  loops : nat;
  lastCircularPath : option CircularPath
}.

(** [o[a][c] = v], creating [o[a] = {}] first when it is missing. *)
Definition set2 {V} (a c : string) (v : V) (o : list (string * list (string * V)))
    : list (string * list (string * V)) :=
  set a (set c v (default [] (get a o))) o.

(** The body of the inner loop of [getMessageStatsReport] (lines 116-134)
    for one action of one category; [None] when [.timestamps.filter] is
    called on [undefined]. *)
Definition report_action (now : Z) (category : string)
    (acc : option Report) (entry : string * option Stat) : option Report :=
  match acc, entry with
  | Some r, (action, Some st) =>
      let recentMessages := filter (fun t => now - t < 5000) (timestamps st) in
      Some {| summary :=
                set category (default 0 (get category (summary r)) + count st)%nat
                    (summary r);
              byAction := set2 action category (count st) (byAction r);
              messageRate :=
                set2 action category (Z.of_nat (length recentMessages) # 5)
                     (messageRate r);
              loops := loops r;
              lastCircularPath := lastCircularPath r |}
  | _, _ => None
  end.

(** The entries a [for ... in] over an object visits: the own entries in
    order and then, once [Object.prototype.count] exists, the name [count]
    when no own entry hides it; [nan] is what the loop body then finds under
    that name. *)
Definition for_in {V} (prototype_count : bool) (nan : V) (o : list (string * V))
    : list (string * V) :=
  if prototype_count && negb (bool_decide ("count" ∈ o.*1))
  then o ++ [("count", nan)]
  else o.

(** The body of the outer loop (lines 113-135).  Under an inherited [count]
    the inner loop finds [NaN], which has no [timestamps], like the literal
    [{}]. *)
Definition report_category (now : Z) (prototype_count : bool) (acc : option Report)
    (entry : string * Bucket) : option Report :=
  match acc with
  | Some r =>
      foldl (report_action now entry.1)
            (Some {| summary := set entry.1 0%nat (summary r);
                     byAction := byAction r; messageRate := messageRate r;
                     loops := loops r; lastCircularPath := lastCircularPath r |})
            (for_in prototype_count None entry.2)
  | None => None
  end.

(** [getMessageStatsReport()] at time [now]; [None] when it throws.  Under
    an inherited [count] the outer loop finds [NaN], whose only enumerable
    name is the inherited [count] again: a bucket without own entries. *)
Definition getMessageStatsReport (now : Z) (s : Stats) : option Report :=
  foldl (report_category now (prototype_count s))
        (Some {| summary := []; byAction := []; messageRate := [];
                 loops := length (circularPaths s);
                 lastCircularPath := last (circularPaths s) |})
        (for_in (prototype_count s) [] (messageStats s)).

Inductive FlowRating := normal | concerning | problematic.

Inductive Note :=
| HighRate (action category : string) (rate : Q)
| StormDetected (action category : string)
| IncreaseThrottling (action : string)
| ConsiderRateLimiting (action : string)
| SentNoneReceived (action : string)
| CheckProcessed (action : string)
| ReceivingManyMore (action : string)
| CheckDuplication (action : string)
| CircularPathsDetected (n : nat)
| ReviewForwarding
| MultipleLoops.

Record Analysis := mkAnalysis {
  patterns : list Note;
  recommendations : list Note;
  urgentIssues : list Note;
  flowRating : FlowRating
}.

(** [x > y] on rates.  The JavaScript quotient [n / 5] of a count [n] is
    above 5 (above 10) exactly when the rational [n / 5] is. *)
Definition Qgtb (x y : Q) : bool := negb (Qle_bool x y).

(** Lines 156-170 for one rate. *)
Definition check_rate (action : string) (a : Analysis) (entry : string * Q) : Analysis :=
  let '(category, rate) := entry in
  if Qgtb rate 5 then
    if Qgtb rate 10 then
      {| patterns := patterns a ++ [HighRate action category rate];
         recommendations := recommendations a ++ [IncreaseThrottling action];
         urgentIssues := urgentIssues a ++ [StormDetected action category];
         flowRating := problematic |}
    else
      {| patterns := patterns a ++ [HighRate action category rate];
         recommendations := recommendations a ++ [ConsiderRateLimiting action];
         urgentIssues := urgentIssues a;
         flowRating := concerning |}
  else a.

(** Lines 175-190 for one action. *)
Definition check_balance (a : Analysis) (entry : string * list (string * nat)) : Analysis :=
  let '(action, counts) := entry in
  let sent := default 0%nat (get "sent" counts) in
  let received := default 0%nat (get "received" counts) in
  let a :=
    if (0 <? sent)%nat && (received =? 0)%nat then
      {| patterns := patterns a ++ [SentNoneReceived action];
         recommendations := recommendations a ++ [CheckProcessed action];
         urgentIssues := urgentIssues a; flowRating := flowRating a |}
    else a in
  if (sent * 3 <? received)%nat && (10 <? received)%nat then
    {| patterns := patterns a ++ [ReceivingManyMore action];
       recommendations := recommendations a ++ [CheckDuplication action];
       urgentIssues := urgentIssues a; flowRating := flowRating a |}
  else a.

(** Lines 193-201. *)
Definition check_loops (n : nat) (a : Analysis) : Analysis :=
  if (0 <? n)%nat then
    {| patterns := patterns a ++ [CircularPathsDetected n];
       recommendations := recommendations a ++ [ReviewForwarding];
       urgentIssues := if (5 <? n)%nat then urgentIssues a ++ [MultipleLoops]
                       else urgentIssues a;
       flowRating := if (5 <? n)%nat then problematic else flowRating a |}
  else a.

(** [analyzeMessageFlow()] at time [now]; [None] when the report throws.
    (An inherited [count] met by the loops of lines 154-190 holds [NaN],
    which passes none of their tests.) *)
Definition analyzeMessageFlow (now : Z) (s : Stats) : option Analysis :=
  match getMessageStatsReport now s with
  | None => None
  | Some stats =>
      let a := {| patterns := []; recommendations := []; urgentIssues := [];
                  flowRating := normal |} in
      let a := foldl (fun a entry => foldl (check_rate entry.1) a entry.2)
                     a (messageRate stats) in
      let a := foldl check_balance a (byAction stats) in
      Some (check_loops (length (circularPaths s)) a)
  end.

(** [resetDebugStats()]: every object of every category gets the three
    fields, and the circular paths are dropped.  (Under an inherited [count]
    the assignments of lines 213-215 are made to [NaN] and have no effect;
    [Object.prototype.count] stays.) *)
Definition resetDebugStats (s : Stats) : Stats :=
  {| messageStats :=
       map (fun cb : string * Bucket =>
              (cb.1, map (fun e : string * option Stat =>
                            (e.1, Some {| count := 0; timestamps := []; data := [] |}))
                         cb.2))
           (messageStats s);
     circularPaths := [];
     prototype_count := prototype_count s |}.

(** One call [recordMessageStat(category, action)] at each of the given
    times, in order. *)
Definition record_all (category action : string) (times : list Z) (s : Stats) : option Stats :=
  foldl (fun acc t => s ← acc; recordMessageStat t category action [] s) (Some s) times.

End Debug.

(** ** Logging into the collector ([content.js], lines 1033-1083) *)

(** The [data] argument of [debugLog]: absent, a string, or an object (not
    [null], not an array) given by its string-valued keys in order and by
    its [path] when that key holds an array. *)
Inductive LogData :=
| LUndefined
| LString (s : string)
| LObject (fields : list (string * string)) (path : option (list string)).

(** The longest run of characters other than ['] at the start of a string,
    and what follows it. *)
Fixpoint span_unquoted (s : string) : string * string :=
  match s with
  | EmptyString => (EmptyString, EmptyString)
  | String c rest =>
      if Ascii.eqb c "'"%char then (EmptyString, s)
      else let '(group, after) := span_unquoted rest in (String c group, after)
  end.

(** [/Rate limiting message '([^']+)'/] matched at the start of [s]: the
    group. *)
Definition match_here (s : string) : option string :=
  if startsWith "Rate limiting message '" s then
    match span_unquoted (drop_string 23 s) with
    | (String c group, String _ _) => Some (String c group)
    | _ => None
    end
  else None.

(** [message.match(/Rate limiting message '([^']+)'/)]: the group of the
    leftmost match. *)
Fixpoint action_match (s : string) : option string :=
  match match_here s with
  | Some group => Some group
  | None =>
      match s with
      | EmptyString => None
      | String _ rest => action_match rest
      end
  end.

(** [data.action] when [data && data.action] holds. *)
Definition data_action (data : LogData) : option string :=
  match data with
  | LObject fields _ => truthy_string (Debug.get "action" fields)
  | _ => None
  end.

(** [data] when [typeof data === 'string']. *)
Definition data_text (data : LogData) : option string :=
  match data with
  | LString s => Some s
  | _ => None
  end.

(** Lines 1039-1072: the category and the action read off a log line. *)
Definition classify (message : string) (data : LogData) : option string * option string :=
  if includes "Sending" message && includes "message" message then
    (Some "sent", data_action data)
  else if includes "Received" message && includes "message" message then
    (Some "received", data_action data)
  else if includes "Rate limiting" message then
    (Some "throttled", action_match message)
  else if includes "localStorage" message && includes "message" message then
    if includes "Sent" message then (Some "localStorage.sent", data_text data)
    else if includes "Received" message then (Some "localStorage.received", data_text data)
    else (None, None)
  else (None, None).

(** [typeof data === 'object' ? data : { message }] as the keys the
    collector stores; an array value is shown as [toString] gives it. *)
Definition log_sample (message : string) (data : LogData) : list (string * string) :=
  match data with
  | LObject fields path =>
      fields ++ match path with
                | Some p => [("path", String.concat "," p)]
                | None => []
                end
  | _ => [("message", message)]
  end.

(** What [debugLog(level, message, data)] does to the collector at time
    [now] (lines 1074-1083) on a page that has [window.PearsonAiDebug];
    [None] when [recordMessageStat] throws (the collector is then left as
    [Debug.recordMessageStat_throw] says).  The console output and the
    report to the background script are not recorded. *)
Definition debugLog (now : Z) (message : string) (data : LogData) (s : Debug.Stats)
    : option Debug.Stats :=
  match classify message data with
  | (Some category, action) =>
      match truthy_string action with
      | Some action =>
          s ← Debug.recordMessageStat now category action (log_sample message data) s;
          match data with
          | LObject _ (Some p) =>
              if String.eqb category "sent"
              then Some (Debug.detectMessageLoop now (Some p) s).2
              else Some s
          | _ => Some s
          end
      | None => Some s
      end
  | (None, _) => Some s
  end.

(** ** Text normalisation ([content.js], lines 662-665) *)

(** The characters that [\s] matches and [trim] removes, among the code
    units below 256 that a string of this model is made of: tab, line
    feed, vertical tab, form feed, carriage return, space and no-break
    space. *)
Definition is_space (c : ascii) : bool :=
  Ascii.eqb c "009"%char || Ascii.eqb c "010"%char || Ascii.eqb c "011"%char ||
  Ascii.eqb c "012"%char || Ascii.eqb c "013"%char || Ascii.eqb c " "%char ||
  Ascii.eqb c "160"%char.

(** [s.replace(/\s+/g, ' ')]; [in_run] tells that the character before [s]
    was matched by [\s]. *)
Fixpoint collapse (in_run : bool) (s : string) : string :=
  match s with
  | EmptyString => EmptyString
  | String c rest =>
      if is_space c then
        if in_run then collapse true rest else String " " (collapse true rest)
      else String c (collapse false rest)
  end.

Fixpoint trimStart (s : string) : string :=
  match s with
  | EmptyString => EmptyString
  | String c rest => if is_space c then trimStart rest else s
  end.

Fixpoint trimEnd (s : string) : string :=
  match s with
  | EmptyString => EmptyString
  | String c rest =>
      match trimEnd rest with
      | EmptyString => if is_space c then EmptyString else String c EmptyString
      | kept => String c kept
      end
  end.

(** [s.trim()] *)
Definition trim (s : string) : string := trimEnd (trimStart s).

(** [cleanText(text)]; [None] is [null] or [undefined]. *)
Definition cleanText (text : option string) : string :=
  match truthy_string text with
  | None => EmptyString
  | Some s => trim (collapse false s)
  end.

(** ** Peer identifier ([content.js], lines 960-989) *)

(** A letter of [A-Z] as the letter of [a-z]; any other character as it is. *)
Definition lower (c : ascii) : ascii :=
  let n := nat_of_ascii c in
  if (65 <=? n)%nat && (n <=? 90)%nat then ascii_of_nat (n + 32) else c.

Fixpoint lowercase (s : string) : string :=
  match s with
  | EmptyString => EmptyString
  | String c rest => String (lower c) (lowercase rest)
  end.

(** [/literal/i.test(s)] for a literal in lower case: letters of the input
    match whatever their case, and a character outside ASCII matches no
    letter of the literal. *)
Definition test_i (literal s : string) : bool := includes literal (lowercase s).

(** [domainPatterns]: the text each pattern looks for, and its identifier. *)
Definition domainPatterns : list (string * string) :=
  [("mylab.pearson.com", "mylab");
   ("mylabmastering.pearson.com", "mylabmastering");
   ("pearsonmylabandmastering.com", "mylabandmastering");
   ("mathxl.com", "mathxl");
   ("pearsoncmg.com", "pearsoncmg");
   ("pearson.com", "pearson")].

(** [detectPearsonDomain()]; [url] is [window.location.href] and [hostname]
    is [window.location.hostname]. *)
Definition detectPearsonDomain (url hostname : string) : string :=
  match find (fun p => test_i p.1 url || test_i p.1 hostname) domainPatterns with
  | Some p => p.2
  | None => if includes "pearson" hostname then "pearson-other" else "unknown"
  end.

(** ** Vocabulary of the properties *)

(** The callbacks invoked by a list of effects, in order. *)
Definition invocations (out : list Effect) : list (Callback * Message) :=
  omap (fun e => match e with
                 | InvokeCallback cb reply => Some (cb, reply)
                 | _ => None
                 end) out.

(** No 'message' event occurs in a run: nothing answers. *)
Definition no_responder (trace : list (Z * Rand * Event)) : Prop :=
  Forall (fun e => match e.2 with WindowMessage _ _ => False | _ => True end) trace.


(** The allow list as the specification words it: the host of the origin is
    one of the listed domains (exact host) or ends with a dot and a listed
    domain (suffix wildcard). *)
Definition host_allowed (origin : string) : bool :=
  match strip_scheme origin with
  | Some host =>
      existsb (fun D => String.eqb host D || endsWith ("." +:+ D) host) PEARSON_DOMAINS
  | None => false
  end.

(** The validator as the specification words it. *)
Definition trusted_as_specified (own origin : string) : bool :=
  String.eqb origin own || host_allowed origin.

(** ** Scenario of the examples: a frame of mylab.pearson.com with a parent
    and one child frame. *)

Definition frame : Env :=
  {| currentDomain := "mylab"; locationOrigin := "https://mylab.pearson.com";
     hasParent := true; iframes := [true]; pageHasQuestions := false |}.

Definition draw (id : string) : Rand :=
  {| rand_id := id; rand_key := id; rand_jitter := 0 |}.

Definition ping : Message :=
  {| source := None; action := Some "ping"; messageId := None; from := None;
     timestamp := None; path := None; replyTo := None; enabled := None;
     hasQuestions := None; fallback := false |}.

Definition skipping_duplicate_check : Options :=
  {| retry := false; retryCount := 1; retryDelay := 500; callback := None;
     skipDuplicateCheck := true; skipRateLimiting := false; timeoutMs := None |}.

(** A ping whose options carry a callback and a key [timeoutMs: 100]. *)
Definition ping_options : Options :=
  {| retry := false; retryCount := 1; retryDelay := 500; callback := Some 7%nat;
     skipDuplicateCheck := false; skipRateLimiting := false; timeoutMs := Some 100 |}.

(** A second frame, of mylabmastering.pearson.com, and its reply to the ping
    ["msg_1700000001000_a"] of the first. *)
Definition other_frame : Env :=
  {| currentDomain := "mylabmastering";
     locationOrigin := "https://mylabmastering.pearson.com";
     hasParent := true; iframes := []; pageHasQuestions := true |}.

Definition pong_reply (id : string) : Message :=
  envelope other_frame 1700000001200 id
    {| source := None; action := Some "pong"; messageId := None; from := None;
       timestamp := None; path := None; replyTo := Some "msg_1700000001000_a"; enabled := None;
       hasQuestions := Some true; fallback := false |}.

(** Whether a string contains an underscore. *)
Fixpoint has_underscore (s : string) : bool :=
  match s with
  | EmptyString => false
  | String c rest => Ascii.eqb c "_"%char || has_underscore rest
  end.

(** The request of lines 77-82: [analyzeQuestion] with two retries. *)
Definition analyze_request : Message :=
  {| source := None; action := Some "analyzeQuestion"; messageId := None; from := None;
     timestamp := None; path := None; replyTo := None; enabled := None;
     hasQuestions := None; fallback := false |}.

Definition retry_twice : Options :=
  {| retry := true; retryCount := 2; retryDelay := 500; callback := None;
     skipDuplicateCheck := false; skipRateLimiting := false; timeoutMs := None |}.

(** Peer identifiers for the paths of the examples: [peer_A] is the frame's own
    identifier. *)
Definition peer_A : string := "mylab".
Definition peer_B : string := "mylabmastering".
Definition peer_C : string := "pearsoncmg".

(** A message that comes from [peer_B] and has visited the peers of [p]. *)
Definition routed (id : string) (p : list string) : Message :=
  {| source := Some "pearson_ai_solver"; action := Some "analyzeQuestion";
     messageId := Some id; from := Some peer_B; timestamp := Some 1700000004000;
     path := Some p; replyTo := None; enabled := None; hasQuestions := None;
     fallback := false |}.



(** A property of every value of an object. *)
Definition all_values {V} (P : V -> Prop) (o : list (string * V)) : Prop :=
  Forall (fun e => P e.2) o.

(** ** Vocabulary of the properties of the whole bus *)

(** The message an effect posts to another window. *)
Definition posted (e : Effect) : option Message :=
  match e with
  | PostToParent m => Some m
  | PostToChild _ m => Some m
  | _ => None
  end.

(** The localStorage writes of a list of effects, in order. *)
Definition storage_writes (out : list Effect) : list (string * Message) :=
  omap (fun e => match e with
                 | StorageSetItem key m => Some (key, m)
                 | _ => None
                 end) out.

(** The three records of message ids hold at most 100 entries each. *)
Definition records_bounded (w : World) : Prop :=
  (length (sentMessageIds w) <= 100 /\
   length (receivedMessageIds w) <= 100 /\
   length (processedStorageMessages w) <= 100)%nat.

(** Every pending ping has a callback and a clean-up timer waiting for it. *)
Definition pings_covered (w : World) : Prop :=
  forall id pending,
    pendingPings w !! id = Some pending ->
    is_Some (pp_callback pending) /\
    exists due, (due, PingCleanup id) ∈ timers w.

(** The sends that the retry timers in a queue can still cause: a timer
    with [retryCount] [n] stands for its own send and at most [n] more. *)
Definition retry_weight (t : Z * Task) : nat :=
  match t.2 with
  | RetrySend _ opts => S (Z.to_nat (retryCount opts))
  | _ => 0
  end.

Definition retry_budget (w : World) : nat :=
  sum_list_with retry_weight (timers w).

(** What a send may add to the retry budget. *)
Definition retry_allowance (opts : Options) : nat :=
  if retry opts then Z.to_nat (retryCount opts) else 0%nat.

(** Whether an event runs a retry timer that is due. *)
Definition is_retry_firing (now : Z) (ev : Event) (w : World) : bool :=
  match ev with
  | TimerFires i =>
      match timers w !! i with
      | Some (due, RetrySend _ _) => due <=? now
      | _ => false
      end
  | _ => false
  end.

(** How many times a retry timer re-sends in a run. *)
Fixpoint retries_fired (env : Env) (trace : list (Z * Rand * Event)) (w : World) : nat :=
  match trace with
  | [] => 0
  | (now, rand, ev) :: rest =>
      ((if is_retry_firing now ev w then 1 else 0) +
       retries_fired env rest (step env now rand ev w).1)%nat
  end.

(** No caller sends during a run: only listeners and timers act. *)
Definition no_caller (trace : list (Z * Rand * Event)) : Prop :=
  Forall (fun e => match e.2 with SendCall _ _ => False | _ => True end) trace.

(** Every message an effect list posts has a path of at most three
    entries. *)
Definition short_paths (out : list Effect) : Prop :=
  forall e m, e ∈ out -> posted e = Some m ->
              exists p, path m = Some p /\ (length p <= 3)%nat.

(** The callers of a run send objects without a [path], as every call site
    outside the listener does. *)
Definition pathless_callers (trace : list (Z * Rand * Event)) : Prop :=
  Forall (fun e => match e.2 with
                   | SendCall data _ => path data = None
                   | _ => True
                   end) trace.

(** The retry timers in the queue re-send objects without a [path]. *)
Definition pathless_retries (w : World) : Prop :=
  forall due data opts, (due, RetrySend data opts) ∈ timers w -> path data = None.

(** The object a ping is answered with (lines 1262-1266), before the send
    wraps it in an envelope. *)
Definition pong_to (env : Env) (data : Message) : Message :=
  {| source := None; action := Some "pong"; messageId := None;
     from := None; timestamp := None; path := None;
     replyTo := messageId data; enabled := None;
     hasQuestions := Some (pageHasQuestions env); fallback := false |}.

(** ** Vocabulary of the properties of the diagnostics collector *)

(** An object of a category keeps at most 50 timestamps and 20 samples. *)
Definition stat_bounded (e : option Debug.Stat) : Prop :=
  match e with
  | Some st =>
      (length (Debug.timestamps st) <= 50 /\ length (Debug.data st) <= 20)%nat
  | None => True
  end.

Definition stats_bounded (s : Debug.Stats) : Prop :=
  all_values (all_values stat_bounded) (Debug.messageStats s) /\
  (length (Debug.circularPaths s) <= 20)%nat.

(** An object without the three fields. *)
Definition is_bare (e : string * option Debug.Stat) : bool :=
  match e.2 with
  | None => true
  | Some _ => false
  end.

(** Some object of some category lacks the three fields. *)
Definition has_bare (s : Debug.Stats) : bool :=
  existsb (fun cb : string * Debug.Bucket => existsb is_bare cb.2) (Debug.messageStats s).

(** The calls a page makes into [window.PearsonAiDebug]. *)
Inductive DebugCall :=
| RecordMessageStat (category action : string) (sample : list (string * string))
| DetectMessageLoop (path : option (list string))
| ResetDebugStats.

(** One call at time [now]; a [recordMessageStat] that throws leaves what
    [Debug.recordMessageStat_throw] says. *)
Definition debug_call (now : Z) (c : DebugCall) (s : Debug.Stats) : Debug.Stats :=
  match c with
  | RecordMessageStat category action sample =>
      default (Debug.recordMessageStat_throw category action s)
              (Debug.recordMessageStat now category action sample s)
  | DetectMessageLoop path => (Debug.detectMessageLoop now path s).2
  | ResetDebugStats => Debug.resetDebugStats s
  end.

(** A sequence of calls, each with its time. *)
Definition debug_calls (cs : list (Z * DebugCall)) (s : Debug.Stats) : Debug.Stats :=
  foldl (fun s c => debug_call c.1 c.2 s) s cs.

Definition is_reset (c : Z * DebugCall) : bool :=
  match c.2 with
  | ResetDebugStats => true
  | _ => false
  end.

(** The analysis that finds nothing. *)
Definition clean_analysis : Debug.Analysis :=
  {| Debug.patterns := []; Debug.recommendations := []; Debug.urgentIssues := [];
     Debug.flowRating := Debug.normal |}.

(** No rate of a report is above 10 per second. *)
Definition rates_capped (r : Debug.Report) : Prop :=
  all_values (all_values (fun q => Debug.Qgtb q 10 = false)) (Debug.messageRate r).

(** A report of a collector that has recorded nothing. *)
Definition report_empty (r : Debug.Report) : Prop :=
  all_values (fun n => n = 0%nat) (Debug.summary r) /\
  all_values (all_values (fun n => n = 0%nat)) (Debug.byAction r) /\
  all_values (all_values (fun q => Debug.Qgtb q 5 = false)) (Debug.messageRate r) /\
  Debug.loops r = 0%nat /\
  Debug.lastCircularPath r = None.

(** The object [recordMessageStat] updates: the one stored under the action
    or, when there is none, a fresh one (lines 31-37); none when the action
    has no entry and is a name every object inherits, for which line 31
    finds the inherited member. *)
Definition stat_entry (action : string) (bucket : Debug.Bucket) : option Debug.Stat :=
  match Debug.get action bucket with
  | None =>
      if inherited action then None
      else Some {| Debug.count := 0; Debug.timestamps := []; Debug.data := [] |}
  | Some e => e
  end.

(** [messageStats[category][action]] *)
Definition stat_of (category action : string) (s : Debug.Stats) : option (option Debug.Stat) :=
  Debug.get category (Debug.messageStats s) ≫= Debug.get action.

(** The categories of the collector are the four of its initial state. *)
Definition categories_fixed (s : Debug.Stats) : Prop :=
  (Debug.messageStats s).*1 = ["sent"; "received"; "throttled"; "localStorage"].

(** No object of a category has an own entry [__proto__]. *)
Definition proto_free (s : Debug.Stats) : Prop :=
  all_values (fun bucket : Debug.Bucket => Debug.get "__proto__" bucket = None)
             (Debug.messageStats s).

(** A call that records under a category which is not itself a name every
    object inherits.  ([debugLog] passes no other; under such a category
    [recordMessageStat] writes to a built-in object, which
    [Debug.recordMessageStat] does not follow.) *)
Definition own_category (c : Z * DebugCall) : Prop :=
  match c.2 with
  | RecordMessageStat category _ _ => inherited category = false
  | _ => True
  end.

(** A call that gives [Object.prototype] the property [count]: a record
    with the action [__proto__] under one of the four categories. *)
Definition pollutes (c : Z * DebugCall) : bool :=
  match c.2 with
  | RecordMessageStat category action _ =>
      String.eqb action "__proto__" &&
      bool_decide (category ∈ ["sent"; "received"; "throttled"; "localStorage"])
  | _ => false
  end.

(** The log line of the rate limiter (line 1337). *)
Definition rate_limit_log (actionKey : string) : string :=
  "Rate limiting message '" +:+ actionKey +:+ "', too many sent recently".

(** A string without [']. *)
Fixpoint unquoted (s : string) : bool :=
  match s with
  | EmptyString => true
  | String c rest => negb (Ascii.eqb c "'"%char) && unquoted rest
  end.

(** ** Vocabulary of the properties of the text normalisation *)

(** Every white-space character of [s] is a space that follows a character
    which is not white space ([after_space] tells what came before [s]). *)
Fixpoint single_spaced (after_space : bool) (s : string) : bool :=
  match s with
  | EmptyString => true
  | String c rest =>
      if is_space c
      then Ascii.eqb c " "%char && negb after_space && single_spaced true rest
      else single_spaced false rest
  end.

(** The last character of [s] is white space. *)
Fixpoint ends_in_space (s : string) : bool :=
  match s with
  | EmptyString => false
  | String c rest =>
      match rest with
      | EmptyString => is_space c
      | _ => ends_in_space rest
      end
  end.

(** Text in normal form: words separated by single spaces, nothing before
    the first word or after the last. *)
Definition tidy (s : string) : bool :=
  single_spaced true s && negb (ends_in_space s).

(** The characters of a text that are not white space. *)
Fixpoint visible (s : string) : string :=
  match s with
  | EmptyString => EmptyString
  | String c rest => if is_space c then visible rest else String c (visible rest)
  end.

(** ** Further scenarios *)

(** An [updateStatus] as a neighbouring frame of [frame] forwards it. *)
Definition status_update (id : string) (on : bool) (p : list string) : Message :=
  {| source := Some "pearson_ai_solver"; action := Some "updateStatus";
     messageId := Some id; from := Some peer_B; timestamp := Some 1700000004000;
     path := Some p; replyTo := None; enabled := Some on; hasQuestions := None;
     fallback := false |}.

(** A ping as [other_frame] posts it. *)
Definition ping_from_other (id : string) : Message :=
  envelope other_frame 1700000001200 id ping.

(** The status broadcast of lines 53-56 and 110-113:
    [{action: 'updateStatus', enabled}]. *)
Definition status_broadcast (on : bool) : Message :=
  {| source := None; action := Some "updateStatus"; messageId := None; from := None;
     timestamp := None; path := None; replyTo := None; enabled := Some on;
     hasQuestions := None; fallback := false |}.

(** A frame that has received a hundred messages: the ids
    ["msg_1700000000000_r"], ..., ["msg_1700000000099_r"], oldest first. *)
Definition hundred_ids : list string :=
  (fun n => "msg_" +:+ pretty (1700000000000 + Z.of_nat n) +:+ "_r") <$> seq 0 100.

Definition busy_world : World :=
  set_receivedMessageIds hundred_ids initial_world.

(** Ten sends of a ping, one every 50 ms, after a reset. *)
Definition ten_pings : list (Z * DebugCall) :=
  (1700000000500, ResetDebugStats) ::
  ((fun n => (1700000001000 + 50 * Z.of_nat n, RecordMessageStat "sent" "ping" []))
     <$> seq 0 10).

(** Sixty sends, one every 10 ms. *)
Definition times60 : list Z :=
  (fun n => 1700000001000 + 10 * Z.of_nat n) <$> seq 0 60.

(** The options of the ping of [discoverFrames] (lines 1497-1503): two
    retries and a callback. *)
Definition discovery_options : Options :=
  {| retry := true; retryCount := 2; retryDelay := 500; callback := Some 7%nat;
     skipDuplicateCheck := false; skipRateLimiting := false; timeoutMs := None |}.

(** * Properties *)

(** ** Bounded lists *)

Lemma push_bounded_last {A} (x : A) (l : list A) :
  last (push_bounded x l) = Some x.
Proof.
  unfold push_bounded, slice_last.
  destruct (100 <? length (l ++ [x]))%nat eqn:Hlen.
  - rewrite length_app in *. simpl in *.
    apply Nat.ltb_lt in Hlen.
    rewrite drop_app_le by lia.
    apply last_snoc.
  - apply last_snoc.
Qed.

Lemma push_bounded_elem {A} (x : A) (l : list A) : x ∈ push_bounded x l.
Proof.
  pose proof (push_bounded_last x l) as Hlast.
  apply last_Some in Hlast as [l' ->]. set_solver.
Qed.

Lemma push_bounded_length {A} (x : A) (l : list A) :
  (length l <= 100 -> length (push_bounded x l) <= 100)%nat.
Proof.
  intros Hl. unfold push_bounded, slice_last.
  destruct (100 <? length (l ++ [x]))%nat eqn:Hlen.
  - rewrite length_drop. rewrite length_app in *. simpl in *. lia.
  - apply Nat.ltb_ge in Hlen. lia.
Qed.

(** ** Tables keyed by any string *)

Lemma inherited_not_proto k : inherited k = false -> k <> "__proto__".
Proof. intros H ->. discriminate H. Qed.

Lemma assign_lookup {V} key (v : V) table :
  key <> "__proto__" -> assign key v table !! key = Some v.
Proof.
  intros Hkey. unfold assign.
  destruct (String.eqb_spec key "__proto__") as [Heq|_]; [done|].
  apply lookup_insert_eq.
Qed.

Lemma assign_lookup_ne {V} key key' (v : V) table :
  key <> key' -> assign key v table !! key' = table !! key'.
Proof.
  intros Hne. unfold assign.
  destruct (String.eqb key "__proto__"); [done|].
  by apply lookup_insert_ne.
Qed.

(** After an assignment that took effect, the test compares with the time
    assigned. *)
Lemma too_soon_assign interval now now' key table :
  key <> "__proto__" ->
  too_soon interval now' key (assign key now table) = (now' - now <? interval).
Proof. intros Hkey. unfold too_soon. by rewrite assign_lookup. Qed.

Lemma too_soon_assign_ne interval now now' key key' table :
  key <> key' ->
  too_soon interval now' key' (assign key now table) = too_soon interval now' key' table.
Proof. intros Hne. unfold too_soon. by rewrite assign_lookup_ne. Qed.

(** ** The primary send *)

Lemma duplicate_suppressed_throttle v now data opts w :
  duplicate_suppressed now data opts (set_messageThrottleTimestamps v w)
  = duplicate_suppressed now data opts w.
Proof. reflexivity. Qed.

Lemma originalSend_result env now rand data opts w :
  (originalSend env now rand data opts w).1.1 =
  if rate_limited now data opts w then None
  else if duplicate_suppressed now data opts w then None
  else Some (genMessageId now (rand_id rand)).
Proof.
  unfold originalSend. rewrite duplicate_suppressed_throttle.
  destruct (rate_limited now data opts w); [done|].
  destruct (duplicate_suppressed now data opts w); done.
Qed.

Lemma originalSend_limited env now rand data opts w :
  rate_limited now data opts w = true ->
  originalSend env now rand data opts w = (None, w, []).
Proof. intros H. unfold originalSend. by rewrite H. Qed.

Lemma originalSend_throttle env now rand data opts w :
  rate_limited now data opts w = false ->
  messageThrottleTimestamps (originalSend env now rand data opts w).1.2
  = assign (action_key data) now (messageThrottleTimestamps w).
Proof.
  intros H. unfold originalSend. rewrite H.
  repeat match goal with
         | |- context [if ?b then _ else _] => destruct b
         | |- context [match callback ?o with _ => _ end] => destruct (callback o)
         end; reflexivity.
Qed.

Lemma originalSend_null env now rand data opts w :
  (originalSend env now rand data opts w).1.1 = None ->
  (originalSend env now rand data opts w).2 = [] /\
  sentMessageIds (originalSend env now rand data opts w).1.2 = sentMessageIds w /\
  pendingPings (originalSend env now rand data opts w).1.2 = pendingPings w /\
  timers (originalSend env now rand data opts w).1.2 = timers w.
Proof.
  unfold originalSend.
  destruct (rate_limited now data opts w); [done|].
  destruct (duplicate_suppressed _ _ _ _); [done|]. by simpl.
Qed.

Lemma originalSend_accepted env now rand data opts w :
  rate_limited now data opts w = false ->
  duplicate_suppressed now data opts w = false ->
  let r := originalSend env now rand data opts w in
  r.1.1 = Some (genMessageId now (rand_id rand)) /\
  r.2 = post_all env (envelope env now (genMessageId now (rand_id rand)) data) /\
  sentMessageIds r.1.2 = push_bounded (genMessageId now (rand_id rand)) (sentMessageIds w) /\
  sentMessageHashes r.1.2 !! messageHash data = Some now.
Proof.
  intros Hrate Hdup. unfold originalSend.
  rewrite Hrate, duplicate_suppressed_throttle, Hdup.
  assert (Hhash : forall (m : gmap Fingerprint Z),
             filter (fun kt => now - kt.2 <= 10000) (<[messageHash data := now]> m)
               !! messageHash data = Some now).
  { intros m. apply map_lookup_filter_Some. split; [apply lookup_insert_eq|simpl; lia]. }
  repeat match goal with
         | |- context [if ?b then _ else _] => destruct b
         | |- context [match callback ?o with _ => _ end] => destruct (callback o)
         end; simpl; repeat split; apply Hhash.
Qed.

(** The fallback wrapper changes nothing when the primary send returns
    [null]. *)
Lemma sendCrossDomainMessage_null env now rand data opts w w1 out :
  originalSend env now rand data opts w = (None, w1, out) ->
  sendCrossDomainMessage env now rand data opts w = (Normal None, w1, out).
Proof. intros H. unfold sendCrossDomainMessage. by rewrite H. Qed.

(** For an action outside the fallback list the wrapper returns what the
    primary send returns. *)
Lemma sendCrossDomainMessage_primary env now rand data opts w :
  shouldUseFallback data = false ->
  sendCrossDomainMessage env now rand data opts w =
  (Normal (originalSend env now rand data opts w).1.1,
   (originalSend env now rand data opts w).1.2,
   (originalSend env now rand data opts w).2).
Proof.
  intros H. unfold sendCrossDomainMessage.
  destruct (originalSend env now rand data opts w) as [[[id|] w1] out]; [|done].
  by rewrite H.
Qed.

(** The wrapper touches only [storageLastSentTimes] and the timers. *)
Lemma sendCrossDomainMessage_bus env now rand data opts w :
  let w1 := (originalSend env now rand data opts w).1.2 in
  let w2 := (sendCrossDomainMessage env now rand data opts w).1.2 in
  messageThrottleTimestamps w2 = messageThrottleTimestamps w1 /\
  sentMessageHashes w2 = sentMessageHashes w1 /\
  sentMessageIds w2 = sentMessageIds w1 /\
  pendingPings w2 = pendingPings w1 /\
  receivedMessageIds w2 = receivedMessageIds w1 /\
  processedStorageMessages w2 = processedStorageMessages w1 /\
  lastStorageMessageTimes w2 = lastStorageMessageTimes w1 /\
  state_enabled w2 = state_enabled w1 /\
  state_analyzing w2 = state_analyzing w1.
Proof.
  unfold sendCrossDomainMessage.
  destruct (originalSend env now rand data opts w) as [[[id|] w1] out]; [|done].
  simpl. destruct (negb (shouldUseFallback data)); [done|].
  destruct (_ <? 2000); done.
Qed.

(** The wrapper adds no [postMessage] and no callback: its effects are those
    of the primary send, then at most one [localStorage.setItem]. *)
Lemma sendCrossDomainMessage_effects env now rand data opts w :
  exists key,
    let out := (originalSend env now rand data opts w).2 in
    (sendCrossDomainMessage env now rand data opts w).2 = out \/
    exists id,
      (sendCrossDomainMessage env now rand data opts w).2
      = out ++ [StorageSetItem key (fallback_message env now id data)].
Proof.
  exists (PREFIX +:+ pretty now +:+ "_" +:+ rand_key rand).
  unfold sendCrossDomainMessage.
  destruct (originalSend env now rand data opts w) as [[[id|] w1] out]; [|by left].
  simpl. destruct (negb (shouldUseFallback data)); [by left|].
  destruct (_ <? 2000); [by left|]. right. by exists id.
Qed.

(** ** Rate limiting *)

(** The action [__proto__] is never rate-limited: no send gives the
    throttle table an own entry of that name, and what the test reads
    without one is [Object.prototype]. *)
Lemma rate_limited_proto env now rand data opts w :
  action_key data = "__proto__" ->
  messageThrottleTimestamps w !! "__proto__" = None ->
  rate_limited now data opts w = false /\
  messageThrottleTimestamps (originalSend env now rand data opts w).1.2 !! "__proto__" = None.
Proof.
  intros Hkey Hnone.
  assert (rate_limited now data opts w = false) as Hrate.
  { unfold rate_limited, too_soon. rewrite Hkey, Hnone.
    change (inherited "__proto__") with true. apply andb_false_r. }
  split; [done|].
  rewrite originalSend_throttle, Hkey by done. done.
Qed.

(** How the wrapper ends, from how the primary send ends. *)
Lemma sendCrossDomainMessage_ends env now rand data opts w :
  (sendCrossDomainMessage env now rand data opts w).1.1 =
  match (originalSend env now rand data opts w).1.1 with
  | None => Normal None
  | Some id => if shouldUseFallback data then Abrupt ReferenceError else Normal (Some id)
  end.
Proof.
  unfold sendCrossDomainMessage, debugLog_unbound.
  destruct (originalSend env now rand data opts w) as [[[id|] w1] out]; [|done].
  simpl. destruct (shouldUseFallback data); [|done].
  simpl. by destruct (_ <? 2000).
Qed.

(** C3, as the code has it, for [window.sendCrossDomainMessage] as every
    call site reaches it (the wrapper of line 1636) and for the function of
    line 1311 inside it.  The action key is a name that is not inherited
    from [Object.prototype] and holds no quote: for such a name the log
    lines of a send (1337, 1364, 1389) return normally also on a page that
    has loaded the diagnostics collector.  After a call with that key that
    passed the rate limiter at [now1], a call with the same key less than
    500 ms later without [skipRateLimiting] returns [null], transmits
    nothing and leaves the state as it was.  A call 500 ms or more later
    passes the rate limiter; it returns [null] when content-duplicate
    suppression rejects it; when not, the function of line 1311 returns a
    messageId, which the caller receives for every action outside the
    fallback list, while for the three actions of that list the wrapper ends
    in the ReferenceError of its unbound [debugLog]. *)
Theorem C3_rate_limit env now1 now2 rand1 rand2 data1 data2 opts1 opts2 w :
  action_key data1 = action_key data2 ->
  inherited (action_key data1) = false ->
  unquoted (action_key data1) = true ->
  rate_limited now1 data1 opts1 w = false ->
  let w1 := (sendCrossDomainMessage env now1 rand1 data1 opts1 w).1.2 in
  (now2 - now1 < 500 -> skipRateLimiting opts2 = false ->
     originalSend env now2 rand2 data2 opts2 w1 = (None, w1, []) /\
     sendCrossDomainMessage env now2 rand2 data2 opts2 w1 = (Normal None, w1, [])) /\
  (500 <= now2 - now1 ->
     rate_limited now2 data2 opts2 w1 = false /\
     (originalSend env now2 rand2 data2 opts2 w1).1.1 =
       (if duplicate_suppressed now2 data2 opts2 w1 then None
        else Some (genMessageId now2 (rand_id rand2))) /\
     (sendCrossDomainMessage env now2 rand2 data2 opts2 w1).1.1 =
       if duplicate_suppressed now2 data2 opts2 w1 then Normal None
       else if shouldUseFallback data2 then Abrupt ReferenceError
       else Normal (Some (genMessageId now2 (rand_id rand2)))).
Proof.
  intros Hkey Hname _ Hfirst w1.
  apply inherited_not_proto in Hname.
  assert (Htable : messageThrottleTimestamps w1
                   = assign (action_key data1) now1 (messageThrottleTimestamps w)).
  { subst w1.
    destruct (sendCrossDomainMessage_bus env now1 rand1 data1 opts1 w) as (-> & _).
    by apply originalSend_throttle. }
  assert (Hsoon : forall opts,
             rate_limited now2 data2 opts w1
             = negb (skipRateLimiting opts) && (now2 - now1 <? 500)).
  { intros opts. unfold rate_limited.
    by rewrite Htable, <- Hkey, too_soon_assign. }
  split.
  - intros Hnear Hskip.
    assert (Hlim : rate_limited now2 data2 opts2 w1 = true).
    { rewrite Hsoon, Hskip. simpl. by apply Z.ltb_lt. }
    pose proof (originalSend_limited env now2 rand2 data2 opts2 w1 Hlim) as Hnull.
    split; [done|]. by apply sendCrossDomainMessage_null.
  - intros Hfar.
    assert (Hlim : rate_limited now2 data2 opts2 w1 = false).
    { rewrite Hsoon.
      replace (now2 - now1 <? 500) with false by (symmetry; apply Z.ltb_ge; lia).
      apply andb_false_r. }
    split; [done|].
    rewrite sendCrossDomainMessage_ends, originalSend_result, Hlim.
    split; [done|].
    by destruct (duplicate_suppressed now2 data2 opts2 w1).
Qed.

(** C3 at a concrete input: two pings 400 ms apart; and a status broadcast
    600 ms after another one with the other value of [enabled]. *)
Lemma C3_rate_limit_witness :
  (action_key ping = action_key ping /\
   inherited (action_key ping) = false /\ unquoted (action_key ping) = true /\
   rate_limited 1700000001000 ping default_options initial_world = false) /\
  (let w1 := (sendCrossDomainMessage frame 1700000001000 (draw "a") ping
                default_options initial_world).1.2 in
   sendCrossDomainMessage frame 1700000001400 (draw "b") ping default_options w1
   = (Normal None, w1, [])) /\
  (let w1 := (sendCrossDomainMessage frame 1700000001000 (draw "a") (status_broadcast true)
                default_options initial_world).1.2 in
   (originalSend frame 1700000001600 (draw "b") (status_broadcast false)
      default_options w1).1.1 = Some "msg_1700000001600_b" /\
   (sendCrossDomainMessage frame 1700000001600 (draw "b") (status_broadcast false)
      default_options w1).1.1 = Abrupt ReferenceError).
Proof.
  split; [repeat split; vm_compute; reflexivity|].
  split.
  - intros w1.
    apply (C3_rate_limit frame 1700000001000 1700000001400 (draw "a") (draw "b") ping ping
             default_options default_options initial_world);
      [reflexivity | reflexivity | reflexivity | vm_compute; reflexivity | lia | reflexivity].
  - intros w1.
    apply (C3_rate_limit frame 1700000001000 1700000001600 (draw "a") (draw "b")
             (status_broadcast true) (status_broadcast false)
             default_options default_options initial_world);
      [reflexivity | reflexivity | reflexivity | vm_compute; reflexivity | lia].
Defined.

(** C3 as stated fails: a ping sent 600 ms after an accepted ping passes the
    rate limiter and is still refused, by content-duplicate suppression. *)
Lemma C3_counterexample :
  let first := sendCrossDomainMessage frame 1700000001000 (draw "a") ping
                 default_options initial_world in
  let second := sendCrossDomainMessage frame 1700000001600 (draw "b") ping
                  default_options first.1.2 in
  first.1.1 = Normal (Some "msg_1700000001000_a") /\
  500 < 1700000001600 - 1700000001000 /\
  rate_limited 1700000001600 ping default_options first.1.2 = false /\
  second.1.1 = Normal None /\ second.2 = [].
Proof. vm_compute. repeat split; congruence. Qed.

(** ** Content-duplicate suppression *)

(** C4, for [window.sendCrossDomainMessage] as every call site reaches it.
    The data is sent at [now1] by a call that is accepted (it passes the
    rate limiter and is no duplicate itself), and again less than 2000 ms
    later by a call that reaches the content check ([skipRateLimiting], or
    500 ms or more after the first).  The second call returns [null] unless
    [skipDuplicateCheck] is set on it.  The first call returns its messageId
    for every action outside the fallback list; for [analyzeQuestion],
    [updateStatus] and [requestQuestionCheck] the function of line 1311 has
    returned the messageId and the wrapper then ends in the ReferenceError of
    its unbound [debugLog] (lines 1659, 1688, 1690) instead of reaching
    [return messageId] at line 1693.  The action key is a name that is not
    inherited from [Object.prototype] and holds no quote, for which the log
    lines of a send return normally also on a page that has loaded the
    diagnostics collector; timestamps are those of [Date.now()], never 0. *)
Theorem C4_content_duplicate env now1 now2 rand1 rand2 data opts1 opts2 w :
  now1 <> 0 ->
  inherited (action_key data) = false ->
  unquoted (action_key data) = true ->
  rate_limited now1 data opts1 w = false ->
  duplicate_suppressed now1 data opts1 w = false ->
  now2 - now1 < 2000 ->
  skipRateLimiting opts2 = true \/ 500 <= now2 - now1 ->
  let first := sendCrossDomainMessage env now1 rand1 data opts1 w in
  let second := sendCrossDomainMessage env now2 rand2 data opts2 first.1.2 in
  first.1.1 = (if shouldUseFallback data then Abrupt ReferenceError
               else Normal (Some (genMessageId now1 (rand_id rand1)))) /\
  second.1.1 = if skipDuplicateCheck opts2
               then (if shouldUseFallback data then Abrupt ReferenceError
                     else Normal (Some (genMessageId now2 (rand_id rand2))))
               else Normal None.
Proof.
  intros Hnow Hname _ Hrate Hdup Hnear Hreach first second.
  apply inherited_not_proto in Hname.
  destruct (originalSend_accepted env now1 rand1 data opts1 w Hrate Hdup)
    as (Hid & _ & _ & Hhash).
  destruct (sendCrossDomainMessage_bus env now1 rand1 data opts1 w)
    as (Hthrottle & Hhashes & _).
  fold first in Hthrottle, Hhashes.
  split.
  { subst first. by rewrite sendCrossDomainMessage_ends, Hid. }
  subst second. rewrite sendCrossDomainMessage_ends, originalSend_result.
  assert (Hlim : rate_limited now2 data opts2 first.1.2 = false).
  { unfold rate_limited. rewrite Hthrottle, originalSend_throttle by done.
    rewrite too_soon_assign by done.
    destruct Hreach as [->|Hfar]; [done|].
    replace (now2 - now1 <? 500) with false by (symmetry; apply Z.ltb_ge; lia).
    apply andb_false_r. }
  rewrite Hlim. unfold duplicate_suppressed. rewrite Hhashes, Hhash.
  replace (now1 =? 0) with false by (symmetry; by apply Z.eqb_neq).
  replace (now2 - now1 <? 2000) with true by (symmetry; by apply Z.ltb_lt).
  by destruct (skipDuplicateCheck opts2).
Qed.

(** C4 at concrete inputs: the same ping at 1700000001000 and at
    1700000001600, without and with [skipDuplicateCheck]; and the status
    broadcast of lines 53-56 on a fresh bus, whose first send already ends
    in the ReferenceError. *)
Lemma C4_content_duplicate_witness :
  (1700000001000 <> 0 /\
   inherited (action_key ping) = false /\ unquoted (action_key ping) = true /\
   rate_limited 1700000001000 ping default_options initial_world = false /\
   duplicate_suppressed 1700000001000 ping default_options initial_world = false /\
   1700000001600 - 1700000001000 < 2000 /\ 500 <= 1700000001600 - 1700000001000) /\
  (let first := sendCrossDomainMessage frame 1700000001000 (draw "a") ping
                  default_options initial_world in
   first.1.1 = Normal (Some "msg_1700000001000_a") /\
   (sendCrossDomainMessage frame 1700000001600 (draw "b") ping
      default_options first.1.2).1.1 = Normal None) /\
  (let first := sendCrossDomainMessage frame 1700000001000 (draw "a") ping
                  default_options initial_world in
   (sendCrossDomainMessage frame 1700000001600 (draw "b") ping
      skipping_duplicate_check first.1.2).1.1 = Normal (Some "msg_1700000001600_b")) /\
  (let first := sendCrossDomainMessage frame 1700000001000 (draw "a") (status_broadcast true)
                  default_options initial_world in
   first.1.1 = Abrupt ReferenceError /\
   (sendCrossDomainMessage frame 1700000001600 (draw "b") (status_broadcast true)
      default_options first.1.2).1.1 = Normal None).
Proof.
  split; [repeat split; (lia || (vm_compute; reflexivity))|].
  split; [|split].
  - apply (C4_content_duplicate frame 1700000001000 1700000001600 (draw "a") (draw "b") ping
             default_options default_options initial_world);
      [lia | reflexivity | reflexivity | reflexivity | reflexivity | lia | right; lia].
  - apply (C4_content_duplicate frame 1700000001000 1700000001600 (draw "a") (draw "b") ping
             default_options skipping_duplicate_check initial_world);
      [lia | reflexivity | reflexivity | reflexivity | reflexivity | lia | right; lia].
  - apply (C4_content_duplicate frame 1700000001000 1700000001600 (draw "a") (draw "b")
             (status_broadcast true) default_options default_options initial_world);
      [lia | reflexivity | reflexivity | reflexivity | reflexivity | lia | right; lia].
Defined.

(** ** The outgoing sent-ID list *)

(** C5, as the code has it.  A send that returns a messageId has recorded
    that id as the newest entry of [sentMessageIds]; a send that returns
    [null], by rate limiting or by content-duplicate suppression, leaves
    [sentMessageIds] as it was and transmits nothing.  The fallback wrapper
    leaves the list as the primary send made it. *)
Theorem C5_sent_ids env now rand data opts w :
  let r := originalSend env now rand data opts w in
  match r.1.1 with
  | Some id =>
      id = genMessageId now (rand_id rand) /\
      last (sentMessageIds r.1.2) = Some id
  | None => sentMessageIds r.1.2 = sentMessageIds w /\ r.2 = []
  end /\
  sentMessageIds (sendCrossDomainMessage env now rand data opts w).1.2
  = sentMessageIds r.1.2.
Proof.
  intros r. split; [|apply sendCrossDomainMessage_bus].
  destruct (r.1.1) as [id|] eqn:Hr.
  - subst r. rewrite originalSend_result in Hr.
    destruct (rate_limited now data opts w) eqn:Hrate; [done|].
    destruct (duplicate_suppressed now data opts w) eqn:Hdup; [done|].
    injection Hr as <-. split; [done|].
    destruct (originalSend_accepted env now rand data opts w Hrate Hdup)
      as (_ & _ & -> & _).
    apply push_bounded_last.
  - destruct (originalSend_null env now rand data opts w Hr) as (? & ? & _). done.
Qed.

(** C5 as stated fails: the second of two pings, refused by content-duplicate
    suppression, returns [null] and its messageId is not in
    [sentMessageIds]. *)
Lemma C5_counterexample :
  let first := sendCrossDomainMessage frame 1700000001000 (draw "a") ping
                 default_options initial_world in
  let second := sendCrossDomainMessage frame 1700000001600 (draw "b") ping
                  default_options first.1.2 in
  rate_limited 1700000001600 ping default_options first.1.2 = false /\
  duplicate_suppressed 1700000001600 ping default_options first.1.2 = true /\
  second.1.1 = Normal None /\
  genMessageId 1700000001600 (rand_id (draw "b")) = "msg_1700000001600_b" /\
  sentMessageIds second.1.2 = ["msg_1700000001000_a"] /\
  "msg_1700000001600_b" ∉ sentMessageIds second.1.2.
Proof.
  vm_compute. repeat split; try congruence.
  intros H. apply list_elem_of_In in H. simpl in H. destruct H as [H|[]]. discriminate.
Qed.

(** ** Origin validation *)

(** C6 at the failing inputs.  Whatever the document's own origin,
    [isPearsonOrigin] accepts an origin that merely contains
    [mylab.pearson.com], and one whose host merely ends in [pearson.com];
    neither is the own origin of the scenario's frame nor a listed domain or
    a sub-domain of one.  A message from the first origin is dispatched.
    (A message whose origin the validator does reject is dropped before
    anything is read from it.) *)
Theorem C6_foreign_origin_accepted :
  (forall env now rand origin data w,
     isPearsonOrigin (locationOrigin env) origin = false ->
     onWindowMessage env now rand origin data w = (Untrusted, w, [])) /\
  (forall own, isPearsonOrigin own "https://mylab.pearson.com.evil.example" = true) /\
  (forall own, isPearsonOrigin own "https://evilpearson.com" = true) /\
  trusted_as_specified (locationOrigin frame) "https://mylab.pearson.com.evil.example" = false /\
  trusted_as_specified (locationOrigin frame) "https://evilpearson.com" = false /\
  (onWindowMessage frame 1700000002000 (draw "r") "https://mylab.pearson.com.evil.example"
     (WObject (envelope frame 1700000001990 "msg_1700000001990_x"
                 {| source := None; action := Some "analyzeQuestion"; messageId := None;
                    from := None; timestamp := None; path := None; replyTo := None;
                    enabled := None; hasQuestions := None; fallback := false |}))
     initial_world).1.1 = Dispatched.
Proof.
  split.
  { intros env now rand origin data w H. unfold onWindowMessage. by rewrite H. }
  split; [intros own; reflexivity|].
  split.
  { intros own. unfold isPearsonOrigin.
    destruct (_ || _ || String.eqb _ own); [reflexivity|]. vm_compute. reflexivity. }
  repeat split; vm_compute; reflexivity.
Qed.

(** ** Effects that are not callbacks *)

Lemma invocations_app out1 out2 :
  invocations (out1 ++ out2) = invocations out1 ++ invocations out2.
Proof. apply omap_app. Qed.

Lemma invocations_imap {A} (g : nat -> A -> list Effect) (l : list A) :
  (forall i x, invocations (g i x) = []) ->
  invocations (mjoin (imap g l)) = [].
Proof.
  revert g. induction l as [|x l IH]; intros g Hg; [done|].
  simpl. rewrite invocations_app, Hg. simpl.
  apply IH. intros i y. apply Hg.
Qed.

Lemma invocations_post_all env m : invocations (post_all env m) = [].
Proof.
  unfold post_all. rewrite invocations_app.
  rewrite invocations_imap by (by intros i []).
  by destruct (hasParent env).
Qed.

Lemma invocations_originalSend env now rand data opts w :
  invocations (originalSend env now rand data opts w).2 = [].
Proof.
  unfold originalSend.
  destruct (rate_limited now data opts w); [done|].
  destruct (duplicate_suppressed _ _ _ _); [done|].
  simpl. apply invocations_post_all.
Qed.

Lemma invocations_sendCrossDomainMessage env now rand data opts w :
  invocations (sendCrossDomainMessage env now rand data opts w).2 = [].
Proof.
  destruct (sendCrossDomainMessage_effects env now rand data opts w) as [key [H|[id H]]];
    rewrite H.
  - apply invocations_originalSend.
  - rewrite invocations_app, invocations_originalSend. done.
Qed.

(** The storage listener produces no effect at all: every path through it
    ends at a return or at a call of the unbound [debugLog] before the
    [switch]. *)
Lemma onStorage_no_effect env now rand key newValue w :
  (onStorage env now rand key newValue w).2 = [] /\
  (onStorage env now rand key newValue w).1.1 <> SDispatched.
Proof.
  unfold onStorage, debugLog_unbound.
  repeat case_match; simpl; done.
Qed.

Lemma invocations_fire env now rand task w :
  invocations (fire env now rand task w).2 = [].
Proof.
  destruct task; simpl.
  - by destruct (pendingPings w !! id).
  - pose proof (invocations_sendCrossDomainMessage env now rand data opts w) as H.
    by destruct (sendCrossDomainMessage env now rand data opts w) as [[? ?] ?].
  - done.
  - by destruct (state_analyzing w).
  - done.
Qed.

Lemma invocations_step env now rand ev w :
  match ev with WindowMessage _ _ => False | _ => True end ->
  invocations (step env now rand ev w).2 = [].
Proof.
  destruct ev; simpl; [|done| |]; intros _.
  - pose proof (invocations_sendCrossDomainMessage env now rand data opts w) as H.
    by destruct (sendCrossDomainMessage env now rand data opts w) as [[? ?] ?].
  - pose proof (onStorage_no_effect env now rand key newValue w) as [H _].
    destruct (onStorage env now rand key newValue w) as [[? ?] ?]. simpl in *. by subst.
  - destruct (timers w !! i) as [[due task]|]; [|done].
    destruct (due <=? now); [|done]. apply invocations_fire.
Qed.

Lemma invocations_run env trace w :
  no_responder trace -> invocations (run env trace w).2 = [].
Proof.
  revert w. induction trace as [|[[now rand] ev] trace IH]; intros w Hno; [done|].
  apply Forall_cons in Hno as [Hev Hno]. simpl in *.
  pose proof (invocations_step env now rand ev w Hev) as Hstep.
  destruct (step env now rand ev w) as [w1 out1].
  specialize (IH w1 Hno).
  destruct (run env trace w1) as [w2 out2]. simpl in *.
  by rewrite invocations_app, Hstep, IH.
Qed.

(** ** Pings and their replies *)

Lemma is_action_eq a data : is_action a data = true -> action data = Some a.
Proof. unfold is_action. intros H. by apply bool_decide_eq_true in H. Qed.

Lemma ping_not_fallback data :
  is_action "ping" data = true -> shouldUseFallback data = false.
Proof.
  intros H. apply is_action_eq in H. unfold shouldUseFallback. rewrite H.
  vm_compute. reflexivity.
Qed.

Lemma originalSend_ping env now rand data opts cb w :
  is_action "ping" data = true ->
  callback opts = Some cb ->
  rate_limited now data opts w = false ->
  duplicate_suppressed now data opts w = false ->
  let id := genMessageId now (rand_id rand) in
  let w1 := (originalSend env now rand data opts w).1.2 in
  pendingPings w1 = <[id := {| pp_timestamp := now; pp_callback := Some cb |}]> (pendingPings w) /\
  exists after, timers w1 = timers w ++ [(now + 5000, PingCleanup id)] ++ after.
Proof.
  intros Hping Hcb Hrate Hdup id w1. subst w1. unfold originalSend.
  rewrite Hrate, duplicate_suppressed_throttle, Hdup, Hcb, Hping.
  destruct (retry opts && (0 <? retryCount opts)); simpl; (split; [done|]).
  - eexists. rewrite <- app_assoc. reflexivity.
  - exists []. reflexivity.
Qed.

Lemma cleanup_timer_step env now' rand' due id i w :
  timers w !! i = Some (due, PingCleanup id) ->
  (now' < due -> step env now' rand' (TimerFires i) w = (w, [])) /\
  (due <= now' ->
     pendingPings (step env now' rand' (TimerFires i) w).1 !! id = None /\
     (step env now' rand' (TimerFires i) w).2 = []).
Proof.
  intros Hi. simpl. rewrite Hi. split.
  - intros Hearly.
    by replace (due <=? now') with false by (symmetry; apply Z.leb_gt; lia).
  - intros Hdue.
    replace (due <=? now') with true by (symmetry; apply Z.leb_le; lia).
    simpl. destruct (pendingPings w !! id) eqn:Hp; simpl; [|done].
    split; [apply lookup_delete_eq|done].
Qed.

(** C7, as the code has it.  A ping that is sent with a callback is entered
    in [pendingPings] under its messageId and a clean-up timer is set for
    5000 ms later, whatever the options say.  Run before that time the timer
    does nothing; run at or after it, it removes the entry and calls
    nothing.  In a run without any 'message' event no callback is ever
    invoked. *)
Theorem C7_ping_cleanup env now rand data opts cb w :
  is_action "ping" data = true ->
  callback opts = Some cb ->
  rate_limited now data opts w = false ->
  duplicate_suppressed now data opts w = false ->
  let id := genMessageId now (rand_id rand) in
  let sent := sendCrossDomainMessage env now rand data opts w in
  sent.1.1 = Normal (Some id) /\
  pendingPings sent.1.2 !! id = Some {| pp_timestamp := now; pp_callback := Some cb |} /\
  (now + 5000, PingCleanup id) ∈ timers sent.1.2 /\
  (forall w' i now' rand',
     timers w' !! i = Some (now + 5000, PingCleanup id) ->
     (now' < now + 5000 -> step env now' rand' (TimerFires i) w' = (w', [])) /\
     (now + 5000 <= now' ->
        pendingPings (step env now' rand' (TimerFires i) w').1 !! id = None /\
        (step env now' rand' (TimerFires i) w').2 = [])) /\
  (forall trace w', no_responder trace -> invocations (run env trace w').2 = []).
Proof.
  intros Hping Hcb Hrate Hdup id sent. subst sent.
  rewrite (sendCrossDomainMessage_primary env now rand data opts w (ping_not_fallback _ Hping)).
  simpl.
  destruct (originalSend_ping env now rand data opts cb w Hping Hcb Hrate Hdup)
    as [Hpending [after Htimers]].
  destruct (originalSend_accepted env now rand data opts w Hrate Hdup) as (Hid & _).
  split; [by rewrite Hid|].
  split; [rewrite Hpending; apply lookup_insert_eq|].
  split; [rewrite Htimers; set_solver|].
  split.
  - intros w' i now' rand' Hi. by apply cleanup_timer_step.
  - intros trace w'. apply invocations_run.
Qed.

(** C7 at a concrete input: a ping with callback 7 sent at 1700000001000; the timer
    is due at 1700000006000, and run then it empties [pendingPings]. *)
Lemma C7_ping_cleanup_witness :
  (is_action "ping" ping = true /\
   callback ping_options = Some 7%nat /\
   rate_limited 1700000001000 ping ping_options initial_world = false /\
   duplicate_suppressed 1700000001000 ping ping_options initial_world = false) /\
  let sent := sendCrossDomainMessage frame 1700000001000 (draw "a") ping
                ping_options initial_world in
  (1700000006000, PingCleanup "msg_1700000001000_a") ∈ timers sent.1.2 /\
  pendingPings (step frame 1700000006000 (draw "b") (TimerFires 0) sent.1.2).1
    !! "msg_1700000001000_a" = None.
Proof.
  split; [repeat split; vm_compute; reflexivity|].
  pose proof (C7_ping_cleanup frame 1700000001000 (draw "a") ping ping_options 7%nat initial_world
                eq_refl eq_refl eq_refl eq_refl) as (_ & _ & Htimer & Hstep & _).
  split; [exact Htimer|].
  apply (Hstep _ 0%nat 1700000006000 (draw "b")); [reflexivity|lia].
Defined.

(** C7 as stated fails: the caller's [timeoutMs: 100] is not read; 150 ms
    after the ping the clean-up timer is not due, running it changes
    nothing, and the entry is still in [pendingPings]. *)
Lemma C7_counterexample :
  timeoutMs ping_options = Some 100 /\
  let after :=
    run frame [(1700000001000, draw "a", SendCall ping ping_options);
               (1700000001150, draw "b", TimerFires 0)] initial_world in
  pendingPings after.1 !! "msg_1700000001000_a"
    = Some {| pp_timestamp := 1700000001000; pp_callback := Some 7%nat |} /\
  pendingPings after.1 <> ∅ /\
  timers after.1 = [(1700000006000, PingCleanup "msg_1700000001000_a")].
Proof.
  split; [reflexivity|]. intros after.
  assert (H : pendingPings after.1 !! "msg_1700000001000_a"
              = Some {| pp_timestamp := 1700000001000; pp_callback := Some 7%nat |})
    by (vm_compute; reflexivity).
  split; [exact H|]. split; [|vm_compute; reflexivity].
  intros Hempty. rewrite Hempty, lookup_empty in H. discriminate.
Qed.

(** ** The 'message' listener *)

Lemma accept_message_world env now data w :
  (accept_message env now data w).2 =
  match truthy_string (messageId data) with
  | Some id =>
      if bool_decide (id ∈ receivedMessageIds w) then w
      else set_receivedMessageIds (push_bounded id (receivedMessageIds w)) w
  | None => w
  end.
Proof.
  unfold accept_message.
  destruct (truthy_string (messageId data)) as [id|].
  - destruct (bool_decide (id ∈ receivedMessageIds w)); [done|].
    by repeat case_match.
  - by repeat case_match.
Qed.

Lemma accept_message_pending env now data w v w' :
  accept_message env now data w = (v, w') ->
  pendingPings w' = pendingPings w /\ sentMessageIds w' = sentMessageIds w.
Proof.
  intros H. pose proof (accept_message_world env now data w) as Hw.
  rewrite H in Hw. simpl in Hw. subst w'. by repeat case_match.
Qed.

(** What a dispatch by the listener amounts to. *)
Lemma onWindowMessage_dispatched env now rand origin data w w1 out :
  onWindowMessage env now rand origin (WObject data) w = (Dispatched, w1, out) ->
  isPearsonOrigin (locationOrigin env) origin = true /\
  source data = Some "pearson_ai_solver" /\
  exists wa, accept_message env now data w = (Dispatched, wa) /\
             handle_action env now rand data wa = (w1, out).
Proof.
  unfold onWindowMessage.
  destruct (isPearsonOrigin (locationOrigin env) origin); simpl; [|done].
  destruct (bool_decide (source data = Some "pearson_ai_solver")) eqn:Hsrc; simpl; [|done].
  apply bool_decide_eq_true in Hsrc.
  destruct (accept_message env now data w) as [v wa] eqn:Hadmit.
  destruct v; try done.
  destruct (handle_action env now rand data wa) as [w2 out2] eqn:Hh.
  intros [= <- <-]. eauto.
Qed.

Lemma handle_action_pong env now rand data w :
  is_action "pong" data = true ->
  handle_action env now rand data w =
  match truthy_string (replyTo data) with
  | Some r =>
      match pendingPings w !! r with
      | Some pendingPing =>
          (set_pendingPings (delete r (pendingPings w)) w,
           match pp_callback pendingPing with
           | Some cb => [InvokeCallback cb data]
           | None => []
           end)
      | None => (w, [])
      end
  | None => (w, [])
  end.
Proof.
  intros H. apply is_action_eq in H.
  unfold handle_action, is_action. rewrite H.
  rewrite !bool_decide_eq_false_2 by (intros [=]).
  rewrite bool_decide_eq_true_2 by done. done.
Qed.

(** A message that names in [replyTo] an id without a pending entry invokes
    no callback, whatever its action. *)
Lemma handle_action_no_pending env now rand data id w :
  truthy_string (replyTo data) = Some id ->
  pendingPings w !! id = None ->
  invocations (handle_action env now rand data w).2 = [].
Proof.
  intros Hreply Hnone. unfold handle_action.
  repeat match goal with
         | |- context [if ?b then _ else _] => destruct b
         end;
    try done;
    try match goal with
        | |- context [sendCrossDomainMessage ?e ?n ?r ?d ?o ?w'] =>
            pose proof (invocations_sendCrossDomainMessage e n r d o w') as H;
            destruct (sendCrossDomainMessage e n r d o w') as [[? ?] ?];
            simpl in *; by rewrite ?H
        end.
  by rewrite Hreply, Hnone.
Qed.

Lemma onWindowMessage_no_pending env now rand origin data id w :
  truthy_string (replyTo data) = Some id ->
  pendingPings w !! id = None ->
  invocations (onWindowMessage env now rand origin (WObject data) w).2 = [].
Proof.
  intros Hreply Hnone. unfold onWindowMessage.
  destruct (negb _); [done|].
  destruct (negb _); [done|].
  destruct (accept_message env now data w) as [v wa] eqn:Hadmit.
  apply accept_message_pending in Hadmit as [Hp _].
  destruct v; try done.
  pose proof (handle_action_no_pending env now rand data id wa Hreply) as H.
  rewrite Hp in H. specialize (H Hnone).
  by destruct (handle_action env now rand data wa).
Qed.

(** C8.  When a reply (a 'pong' whose [replyTo] is the messageId of a
    pending ping) is dispatched, the ping's callback is invoked exactly once
    with that reply and the pending entry is removed; any message that
    arrives afterwards with the same [replyTo], while no ping is pending
    under that id, invokes no callback. *)
Theorem C8_reply_invokes_once env now rand origin reply w w1 out id pending cb :
  pendingPings w !! id = Some pending ->
  pp_callback pending = Some cb ->
  is_action "pong" reply = true ->
  truthy_string (replyTo reply) = Some id ->
  onWindowMessage env now rand origin (WObject reply) w = (Dispatched, w1, out) ->
  out = [InvokeCallback cb reply] /\
  invocations out = [(cb, reply)] /\
  pendingPings w1 !! id = None /\
  (forall now' rand' origin' reply',
     truthy_string (replyTo reply') = Some id ->
     invocations (onWindowMessage env now' rand' origin' (WObject reply') w1).2 = []) /\
  (forall now' rand' origin' reply' w2,
     pendingPings w2 !! id = None ->
     truthy_string (replyTo reply') = Some id ->
     invocations (onWindowMessage env now' rand' origin' (WObject reply') w2).2 = []).
Proof.
  intros Hpending Hcb Hpong Hreply Hdispatch.
  apply onWindowMessage_dispatched in Hdispatch as (_ & _ & wa & Hadmit & Hhandle).
  apply accept_message_pending in Hadmit as [Hp _].
  rewrite handle_action_pong in Hhandle by done.
  rewrite Hreply, Hp, Hpending, Hcb in Hhandle.
  injection Hhandle as <- <-.
  assert (Hgone : pendingPings (set_pendingPings (delete id (pendingPings w)) wa) !! id = None)
    by apply lookup_delete_eq.
  split; [done|]. split; [done|]. split; [done|]. split.
  - intros now' rand' origin' reply' Hreply'.
    by apply (onWindowMessage_no_pending _ _ _ _ _ id).
  - intros now' rand' origin' reply' w2 Hnone Hreply'.
    by apply (onWindowMessage_no_pending _ _ _ _ _ id).
Qed.

(** C8 at a concrete input: the frame pinged at 1700000001000 with callback 7; the
    reply of the other frame arrives at 1700000001250, and again under another
    messageId at 1700000001300. *)
Lemma C8_reply_invokes_once_witness :
  let w := (sendCrossDomainMessage frame 1700000001000 (draw "a") ping
              ping_options initial_world).1.2 in
  let first := onWindowMessage frame 1700000001250 (draw "b") "https://mylabmastering.pearson.com"
                 (WObject (pong_reply "msg_1700000001200_p")) w in
  (is_action "pong" (pong_reply "msg_1700000001200_p") = true /\
   truthy_string (replyTo (pong_reply "msg_1700000001200_p")) = Some "msg_1700000001000_a" /\
   first.1.1 = Dispatched /\
   pendingPings w !! "msg_1700000001000_a"
   = Some {| pp_timestamp := 1700000001000; pp_callback := Some 7%nat |}) /\
  first.2 = [InvokeCallback 7%nat (pong_reply "msg_1700000001200_p")] /\
  pendingPings first.1.2 !! "msg_1700000001000_a" = None /\
  invocations
    (onWindowMessage frame 1700000001300 (draw "c") "https://mylabmastering.pearson.com"
       (WObject (pong_reply "msg_1700000001201_q")) first.1.2).2 = [].
Proof.
  intros w first.
  assert (Hdispatch : first = (Dispatched, first.1.2, first.2)) by (vm_compute; reflexivity).
  split; [repeat split; vm_compute; reflexivity|].
  destruct (C8_reply_invokes_once frame 1700000001250 (draw "b")
              "https://mylabmastering.pearson.com"
              (pong_reply "msg_1700000001200_p") w first.1.2 first.2 "msg_1700000001000_a"
              {| pp_timestamp := 1700000001000; pp_callback := Some 7%nat |} 7%nat
              eq_refl eq_refl eq_refl eq_refl Hdispatch) as (Hout & _ & Hgone & Hagain & _).
  split; [exact Hout|]. split; [exact Hgone|].
  apply Hagain. reflexivity.
Defined.

(** ** Message identifiers *)

Lemma pretty_N_go_underscore x s :
  has_underscore (pretty_N_go x s) = has_underscore s.
Proof.
  revert s. induction (N.lt_wf_0 x) as [x _ IH]; intros s.
  assert (x = 0 \/ 0 < x)%N as [->|Hpos] by lia.
  - by rewrite pretty_N_go_0.
  - rewrite pretty_N_go_step by done.
    rewrite IH by (by apply N.div_lt).
    simpl. unfold pretty_N_char. by repeat case_match.
Qed.

Lemma pretty_Z_underscore (x : Z) : has_underscore (pretty x) = false.
Proof.
  assert (HN : forall n : N, has_underscore (pretty n) = false).
  { intros n. unfold pretty, pretty_N. case_decide; [done|].
    by rewrite pretty_N_go_underscore. }
  destruct x as [|p|p]; [done|apply (HN (N.pos p))|].
  unfold pretty, pretty_Z. simpl. apply (HN (N.pos p)).
Qed.

(** Two strings that agree after an underscore-free prefix and an underscore
    have the same prefix and the same rest. *)
Lemma underscore_split a b r1 r2 :
  has_underscore a = false -> has_underscore b = false ->
  a +:+ "_" +:+ r1 = b +:+ "_" +:+ r2 -> a = b /\ r1 = r2.
Proof.
  revert b. induction a as [|c a IH]; intros [|d b] Ha Hb Heq; simpl in *.
  - by injection Heq.
  - injection Heq as <- _. simpl in Hb. done.
  - injection Heq as -> _. simpl in Ha. done.
  - injection Heq as -> Heq.
    apply orb_false_iff in Ha as [_ Ha]. apply orb_false_iff in Hb as [_ Hb].
    destruct (IH b Ha Hb Heq) as [-> ->]. done.
Qed.

(** Distinct (time, random draw) pairs give distinct messageIds. *)
Lemma genMessageId_inj now1 rnd1 now2 rnd2 :
  genMessageId now1 rnd1 = genMessageId now2 rnd2 -> now1 = now2 /\ rnd1 = rnd2.
Proof.
  unfold genMessageId. intros H.
  apply (inj (String.append "msg_")) in H.
  apply underscore_split in H as [Hnow ->]; [|apply pretty_Z_underscore..].
  by apply (inj pretty) in Hnow.
Qed.

Lemma push_bounded_subseteq {A} (x y : A) (l : list A) :
  y ∈ push_bounded x l -> y = x \/ y ∈ l.
Proof.
  unfold push_bounded, slice_last. intros H.
  assert (Hin : y ∈ l ++ [x]).
  { destruct (100 <? length (l ++ [x]))%nat; [|done].
    by apply (subseteq_drop _ (l ++ [x])) in H. }
  apply elem_of_app in Hin as [Hin|Hin]; [by right|].
  left. by apply list_elem_of_singleton in Hin.
Qed.

(** ** Admission of a received message *)

Lemma accept_message_verdict env now data w :
  (accept_message env now data w).1 =
  if match truthy_string (messageId data) with
     | Some id => bool_decide (id ∈ receivedMessageIds w)
     | None => false
     end
  then Duplicate
  else if loop_blocked env data then LoopBlocked
  else if is_echo env now data w then Echo
  else Dispatched.
Proof.
  unfold accept_message.
  destruct (truthy_string (messageId data)) as [id|].
  - destruct (bool_decide (id ∈ receivedMessageIds w)); [done|].
    destruct (loop_blocked env data); [done|].
    change (is_echo env now data
              (set_receivedMessageIds (push_bounded id (receivedMessageIds w)) w))
      with (is_echo env now data w).
    by destruct (is_echo env now data w).
  - destruct (loop_blocked env data); [done|]. by destruct (is_echo env now data w).
Qed.

Lemma onWindowMessage_verdict env now rand origin data w :
  isPearsonOrigin (locationOrigin env) origin = true ->
  source data = Some "pearson_ai_solver" ->
  (onWindowMessage env now rand origin (WObject data) w).1.1
  = (accept_message env now data w).1.
Proof.
  intros Horigin Hsrc. unfold onWindowMessage.
  rewrite Horigin, bool_decide_eq_true_2 by done. simpl.
  destruct (accept_message env now data w) as [[] wa]; try done.
  by destruct (handle_action env now rand data wa).
Qed.

Lemma originalSend_received env now rand data opts w :
  receivedMessageIds (originalSend env now rand data opts w).1.2 = receivedMessageIds w.
Proof.
  unfold originalSend.
  repeat match goal with
         | |- context [if ?b then _ else _] => destruct b
         | |- context [match callback ?o with _ => _ end] => destruct (callback o)
         end; reflexivity.
Qed.

Lemma sendCrossDomainMessage_received env now rand data opts w :
  receivedMessageIds (sendCrossDomainMessage env now rand data opts w).1.2
  = receivedMessageIds w.
Proof.
  destruct (sendCrossDomainMessage_bus env now rand data opts w) as (_ & _ & _ & _ & -> & _).
  apply originalSend_received.
Qed.

(** The handlers leave [receivedMessageIds] alone. *)
Lemma handle_action_received env now rand data w :
  receivedMessageIds (handle_action env now rand data w).1 = receivedMessageIds w.
Proof.
  unfold handle_action.
  repeat match goal with
         | |- context [if ?b then _ else _] => destruct b
         | |- context [match truthy_string ?o with _ => _ end] => destruct (truthy_string o)
         | |- context [match pendingPings ?m !! ?k with _ => _ end] =>
             destruct (pendingPings m !! k)
         end;
    try done;
    match goal with
    | |- context [sendCrossDomainMessage ?e ?n ?r ?d ?o ?w'] =>
        pose proof (sendCrossDomainMessage_received e n r d o w') as H;
        destruct (sendCrossDomainMessage e n r d o w') as [[? ?] ?];
        simpl in *; by rewrite H
    end.
Qed.

(** After a dispatch the messageId of the message, if it has one, is in
    [receivedMessageIds], and nothing else was added. *)
Lemma onWindowMessage_received env now rand origin data w w1 out :
  onWindowMessage env now rand origin (WObject data) w = (Dispatched, w1, out) ->
  loop_blocked env data = false /\
  (forall id, truthy_string (messageId data) = Some id -> id ∈ receivedMessageIds w1) /\
  (forall id, id ∈ receivedMessageIds w1 ->
              Some id = truthy_string (messageId data) \/ id ∈ receivedMessageIds w).
Proof.
  intros H. apply onWindowMessage_dispatched in H as (_ & _ & wa & Hadmit & Hhandle).
  pose proof (handle_action_received env now rand data wa) as Hrecv.
  rewrite Hhandle in Hrecv. simpl in Hrecv. rewrite Hrecv.
  pose proof (accept_message_verdict env now data w) as Hv.
  pose proof (accept_message_world env now data w) as Hw.
  rewrite Hadmit in Hv, Hw. simpl in Hv, Hw. subst wa.
  split; [by repeat case_match|].
  destruct (truthy_string (messageId data)) as [id'|]; [|split; [done|auto]].
  destruct (bool_decide (id' ∈ receivedMessageIds w)); [done|]. simpl.
  split.
  - intros id [= <-]. apply push_bounded_elem.
  - intros id Hin. apply push_bounded_subseteq in Hin as [->|Hin]; auto.
Qed.

(** ** Retries *)

Lemma originalSend_retry_timer env now rand data opts w :
  retry opts = true -> 0 < retryCount opts ->
  rate_limited now data opts w = false ->
  duplicate_suppressed now data opts w = false ->
  (now + Z.max 0 (retryDelay opts), RetrySend data (retry_options opts))
    ∈ timers (originalSend env now rand data opts w).1.2.
Proof.
  intros Hretry Hcount Hrate Hdup. unfold originalSend.
  rewrite Hrate, duplicate_suppressed_throttle, Hdup, Hretry.
  replace (0 <? retryCount opts) with true by (symmetry; by apply Z.ltb_lt).
  simpl. unfold setTimeout at 1. simpl. set_solver.
Qed.

(** A send with both skip flags is never refused. *)
Lemma originalSend_skipping now data opts w :
  skipDuplicateCheck opts = true -> skipRateLimiting opts = true ->
  rate_limited now data opts w = false /\ duplicate_suppressed now data opts w = false.
Proof.
  intros Hdup Hrate. unfold rate_limited, duplicate_suppressed.
  by rewrite Hdup, Hrate.
Qed.

(** C10.  A send with [retry] and a positive [retryCount], once accepted,
    sets a timer that calls send again with the same data, with
    [skipDuplicateCheck] and [skipRateLimiting] set and one retry less.
    Whenever that timer runs, in whatever state, the send is accepted and
    posts an envelope whose messageId is generated anew from the clock and
    the random draw of that moment; it differs from the original id as soon
    as the time or the draw differs.  A receiver that dispatched the
    original envelope and has not met the new id dispatches the retry's
    envelope too: its messageId record does not relate the two. *)
Theorem C10_retry_fresh_id env now rand data opts w :
  retry opts = true ->
  0 < retryCount opts ->
  rate_limited now data opts w = false ->
  duplicate_suppressed now data opts w = false ->
  let id := genMessageId now (rand_id rand) in
  let sent := originalSend env now rand data opts w in
  sent.1.1 = Some id /\
  sent.2 = post_all env (envelope env now id data) /\
  (now + Z.max 0 (retryDelay opts), RetrySend data (retry_options opts)) ∈ timers sent.1.2 /\
  skipDuplicateCheck (retry_options opts) = true /\
  skipRateLimiting (retry_options opts) = true /\
  retryCount (retry_options opts) = retryCount opts - 1 /\
  forall now' rand' w',
    let id' := genMessageId now' (rand_id rand') in
    (originalSend env now' rand' data (retry_options opts) w').1.1 = Some id' /\
    (exists extra,
       (fire env now' rand' (RetrySend data (retry_options opts)) w').2
       = post_all env (envelope env now' id' data) ++ extra) /\
    (now' <> now \/ rand_id rand' <> rand_id rand -> id' <> id) /\
    forall renv origin rnow1 rnow2 rrand1 rrand2 rw rw1 out1,
      id' <> id ->
      id' ∉ receivedMessageIds rw ->
      id' ∉ sentMessageIds rw1 ->
      onWindowMessage renv rnow1 rrand1 origin (WObject (envelope env now id data)) rw
        = (Dispatched, rw1, out1) ->
      (onWindowMessage renv rnow2 rrand2 origin (WObject (envelope env now' id' data)) rw1).1.1
        = Dispatched.
Proof.
  intros Hretry Hcount Hrate Hdup id sent. subst sent.
  destruct (originalSend_accepted env now rand data opts w Hrate Hdup) as (Hid & Hout & _).
  split; [done|]. split; [done|].
  split; [by apply originalSend_retry_timer|].
  split; [done|]. split; [done|]. split; [done|].
  intros now' rand' w' id'.
  destruct (originalSend_skipping now' data (retry_options opts) w' eq_refl eq_refl)
    as [Hrate' Hdup'].
  destruct (originalSend_accepted env now' rand' data (retry_options opts) w' Hrate' Hdup')
    as (Hid' & Hout' & _).
  split; [done|]. split.
  { simpl.
    destruct (sendCrossDomainMessage_effects env now' rand' data (retry_options opts) w')
      as [key [H|[i H]]];
      destruct (sendCrossDomainMessage env now' rand' data (retry_options opts) w')
        as [[r w2] out2]; simpl in *; subst out2.
    - exists []. by rewrite app_nil_r.
    - eexists. reflexivity. }
  split.
  { intros Hne Heq. apply genMessageId_inj in Heq as [? ?]. destruct Hne; done. }
  intros renv origin rnow1 rnow2 rrand1 rrand2 rw rw1 out1 Hneq Hnew Hnotsent Hfirst.
  pose proof Hfirst as Hd.
  apply onWindowMessage_dispatched in Hd as (Horigin & Hsrc & wa & Hadmit & Hhandle).
  apply onWindowMessage_received in Hfirst as (Hloop & _ & Hrecv).
  rewrite onWindowMessage_verdict by done.
  rewrite accept_message_verdict. simpl. fold id'.
  rewrite bool_decide_eq_false_2.
  2:{ intros Hin. apply Hrecv in Hin as [Heq|Hin]; [|done].
      simpl in Heq. apply Hneq. by apply (inj Some). }
  change (loop_blocked renv (envelope env now' id' data))
    with (loop_blocked renv (envelope env now id data)).
  rewrite Hloop.
  replace (is_echo renv rnow2 (envelope env now' id' data) rw1) with false; [done|].
  unfold is_echo. simpl. fold id'.
  rewrite (bool_decide_eq_false_2 (id' ∈ sentMessageIds rw1)) by done.
  by rewrite andb_false_r.
Qed.

(** C10 at a concrete input: the frame sends [analyzeQuestion] with two
    retries at 1700000001000; the retry runs at 1700000001500; the other frame dispatches the
    original envelope and the retry's envelope, and calls
    [analyzeCurrentPage] both times. *)
Lemma C10_retry_fresh_id_witness :
  (retry retry_twice = true /\ 0 < retryCount retry_twice /\
   rate_limited 1700000001000 analyze_request retry_twice initial_world = false /\
   duplicate_suppressed 1700000001000 analyze_request retry_twice initial_world = false) /\
  let original := envelope frame 1700000001000 (genMessageId 1700000001000 "a") analyze_request in
  let retried := envelope frame 1700000001500 (genMessageId 1700000001500 "b") analyze_request in
  let first := onWindowMessage other_frame 1700000001010 (draw "x") "https://mylab.pearson.com"
                 (WObject original) initial_world in
  let second := onWindowMessage other_frame 1700000001510 (draw "y") "https://mylab.pearson.com"
                  (WObject retried) first.1.2 in
  first.1.1 = Dispatched /\ first.2 = [AnalyzeCurrentPage] /\
  second.1.1 = Dispatched /\ second.2 = [AnalyzeCurrentPage].
Proof.
  split; [repeat split; vm_compute; reflexivity|].
  intros original retried first second.
  split; [vm_compute; reflexivity|]. split; [vm_compute; reflexivity|].
  split; [|vm_compute; reflexivity].
  destruct (C10_retry_fresh_id frame 1700000001000 (draw "a") analyze_request retry_twice
              initial_world
              eq_refl eq_refl eq_refl eq_refl) as (_ & _ & _ & _ & _ & _ & Hretry).
  destruct (Hretry 1700000001500 (draw "b") initial_world) as (_ & _ & Hfresh & Hreceiver).
  apply (Hreceiver other_frame "https://mylab.pearson.com" 1700000001010 1700000001510
           (draw "x") (draw "y")
           initial_world first.1.2 first.2).
  - apply Hfresh. left. lia.
  - apply not_elem_of_nil.
  - replace (sentMessageIds first.1.2) with (@nil string) by (vm_compute; reflexivity).
    apply not_elem_of_nil.
  - vm_compute. reflexivity.
Defined.

(** ** Deduplication on receive *)

(** The 'storage' listener never reads [receivedMessageIds]. *)
Lemma onStorage_ignores_received env now rand key newValue ids w :
  (onStorage env now rand key newValue (set_receivedMessageIds ids w)).1.1
  = (onStorage env now rand key newValue w).1.1 /\
  processedStorageMessages (onStorage env now rand key newValue (set_receivedMessageIds ids w)).1.2
  = processedStorageMessages (onStorage env now rand key newValue w).1.2.
Proof.
  unfold onStorage, debugLog_unbound. simpl.
  repeat case_match; simpl; done.
Qed.

(** The verdict of the 'message' listener never depends on
    [processedStorageMessages]. *)
Lemma onWindowMessage_ignores_processed env now rand origin data sigs w :
  (onWindowMessage env now rand origin data (set_processedStorageMessages sigs w)).1.1
  = (onWindowMessage env now rand origin data w).1.1.
Proof.
  unfold onWindowMessage.
  destruct (negb (isPearsonOrigin (locationOrigin env) origin)) eqn:Horigin; [done|].
  destruct data as [| |data]; [done..|].
  destruct (negb (bool_decide (source data = Some "pearson_ai_solver"))) eqn:Hsrc; [done|].
  apply negb_false_iff in Horigin, Hsrc. apply bool_decide_eq_true in Hsrc.
  pose proof (onWindowMessage_verdict env now rand origin data w Horigin Hsrc) as H1.
  pose proof (onWindowMessage_verdict env now rand origin data
                (set_processedStorageMessages sigs w) Horigin Hsrc) as H2.
  unfold onWindowMessage in H1, H2.
  rewrite Horigin, bool_decide_eq_true_2 in H1, H2 by done. simpl in H1, H2.
  rewrite H1, H2, !accept_message_verdict. done.
Qed.

(** C1, as the code has it.  Each inbound channel keeps a record of its own.
    Once the 'message' listener has dispatched an envelope that carries a
    messageId, another arrival of that envelope by [postMessage] is dropped
    as a duplicate and changes nothing, as it is in any state whose
    [receivedMessageIds] still holds the id.  The 'storage' listener decides
    from [processedStorageMessages] alone, whatever [receivedMessageIds]
    holds, and the 'message' listener decides whatever
    [processedStorageMessages] holds. *)
Theorem C1_dedup_per_channel env now rand origin data w w1 out id :
  truthy_string (messageId data) = Some id ->
  onWindowMessage env now rand origin (WObject data) w = (Dispatched, w1, out) ->
  (forall now' rand',
     onWindowMessage env now' rand' origin (WObject data) w1 = (Duplicate, w1, [])) /\
  (forall now' rand' w2,
     id ∈ receivedMessageIds w2 ->
     onWindowMessage env now' rand' origin (WObject data) w2 = (Duplicate, w2, [])) /\
  (forall now' rand' key newValue ids w',
     (onStorage env now' rand' key newValue (set_receivedMessageIds ids w')).1.1
     = (onStorage env now' rand' key newValue w').1.1 /\
     processedStorageMessages
       (onStorage env now' rand' key newValue (set_receivedMessageIds ids w')).1.2
     = processedStorageMessages (onStorage env now' rand' key newValue w').1.2) /\
  (forall now' rand' origin' data' sigs w',
     (onWindowMessage env now' rand' origin' data' (set_processedStorageMessages sigs w')).1.1
     = (onWindowMessage env now' rand' origin' data' w').1.1).
Proof.
  intros Hid Hfirst.
  pose proof Hfirst as Hd.
  apply onWindowMessage_dispatched in Hd as (Horigin & Hsrc & _).
  apply onWindowMessage_received in Hfirst as (_ & Hin & _).
  specialize (Hin id Hid).
  assert (Hdup : forall now' rand' w2,
             id ∈ receivedMessageIds w2 ->
             onWindowMessage env now' rand' origin (WObject data) w2 = (Duplicate, w2, [])).
  { intros now' rand' w2 Hseen. unfold onWindowMessage.
    rewrite Horigin, bool_decide_eq_true_2 by done. simpl.
    unfold accept_message. rewrite Hid, bool_decide_eq_true_2 by done. done. }
  split; [intros now' rand'; by apply Hdup|].
  split; [exact Hdup|].
  split; [intros; apply onStorage_ignores_received
         |intros; apply onWindowMessage_ignores_processed].
Qed.

(** C1 at a concrete input: the other frame dispatches the posted
    [analyzeQuestion] envelope at 1700000001010 and drops it at 1700000001020. *)
Lemma C1_dedup_per_channel_witness :
  let posted := envelope frame 1700000001000 "msg_1700000001000_a" analyze_request in
  let first := onWindowMessage other_frame 1700000001010 (draw "x") "https://mylab.pearson.com"
                 (WObject posted) initial_world in
  (truthy_string (messageId posted) = Some "msg_1700000001000_a" /\ first.1.1 = Dispatched) /\
  onWindowMessage other_frame 1700000001020 (draw "y") "https://mylab.pearson.com"
    (WObject posted) first.1.2 = (Duplicate, first.1.2, []).
Proof.
  intros posted first.
  split; [split; vm_compute; reflexivity|].
  assert (Hfirst : first = (Dispatched, first.1.2, first.2)) by (vm_compute; reflexivity).
  destruct (C1_dedup_per_channel other_frame 1700000001010 (draw "x")
              "https://mylab.pearson.com" posted initial_world first.1.2 first.2
              "msg_1700000001000_a" eq_refl Hfirst) as [Hagain _].
  apply Hagain.
Defined.

(** C1 as stated fails.  One send of [analyzeQuestion] posts an envelope and
    writes the same messageId to localStorage.  A frame of the same origin
    that has dispatched the posted envelope holds the id in
    [receivedMessageIds]; when the storage event arrives, the 'storage'
    listener does not find a duplicate: it enters the signature in its own
    record as new and updates its rate-limit clock (and then stops at the
    unbound [debugLog]).  Taken in the other order, the entry in
    [processedStorageMessages] does not stop the 'message' listener from
    dispatching. *)
Lemma C1_counterexample :
  let posted := envelope frame 1700000005000 "msg_1700000005000_a" analyze_request in
  let stored := fallback_message frame 1700000005000 "msg_1700000005000_a" analyze_request in
  let key := "pearson_ai_solver_msg_1700000005000_k" in
  (sendCrossDomainMessage frame 1700000005000
     {| rand_id := "a"; rand_key := "k"; rand_jitter := 0 |}
     analyze_request default_options initial_world).2
  = [PostToParent posted; PostToChild 0 posted; StorageSetItem key stored] /\
  messageId posted = messageId stored /\
  (let first := onWindowMessage frame 1700000005010 (draw "x") "https://mylab.pearson.com"
                  (WObject posted) initial_world in
   let second := onStorage frame 1700000005020 (draw "y") (Some key) (WObject stored) first.1.2 in
   first.1.1 = Dispatched /\
   receivedMessageIds first.1.2 = ["msg_1700000005000_a"] /\
   second.1.1 <> SDuplicate /\
   processedStorageMessages first.1.2 = [] /\
   processedStorageMessages second.1.2 = ["analyzeQuestion_msg_1700000005000_a"] /\
   lastStorageMessageTimes second.1.2 !! "analyzeQuestion" = Some 1700000005020) /\
  (let first := onStorage frame 1700000005010 (draw "x") (Some key) (WObject stored)
                  initial_world in
   let second := onWindowMessage frame 1700000005020 (draw "y") "https://mylab.pearson.com"
                   (WObject posted) first.1.2 in
   processedStorageMessages first.1.2 = ["analyzeQuestion_msg_1700000005000_a"] /\
   second.1.1 = Dispatched /\ second.1.1 <> Duplicate).
Proof. vm_compute. repeat split; congruence. Qed.

(** ** Loop detection *)







(** Three occurrences of a name every object inherits are not reported. *)
Lemma detectMessageLoop_constructor now s :
  Debug.detectMessageLoop now (Some ["constructor"; "constructor"; "constructor"]) s
  = (false, s) /\
  Debug.detectMessageLoop now (Some ["__proto__"; "__proto__"; "__proto__"]) s
  = (false, s).
Proof. split; reflexivity. Qed.




(** ** Diagnostics *)


(** Until [resetDebugStats] has run, the report cannot be produced: the
    loop reaches [messageStats.localStorage.sent], an object without
    [timestamps]. *)
Lemma report_throws_before_reset now :
  Debug.getMessageStatsReport now Debug.initial = None /\
  Debug.analyzeMessageFlow now Debug.initial = None.
Proof. split; reflexivity. Qed.

(** A rate computed from at most 50 retained timestamps is never above 10. *)
Lemma rate_at_most_ten (n : nat) :
  (n <= 50)%nat -> Debug.Qgtb (Z.of_nat n # 5) 10 = false.
Proof.
  intros Hn. unfold Debug.Qgtb, Qle_bool. simpl.
  apply negb_false_iff, Z.leb_le. lia.
Qed.

(** Reading and writing objects by key. *)
Lemma get_set_eq {V} k (v : V) o : Debug.get k (Debug.set k v o) = Some v.
Proof.
  induction o as [|[k' v'] o IH]; simpl.
  - by rewrite String.eqb_refl.
  - destruct (String.eqb k k') eqn:Hk; simpl; by rewrite ?String.eqb_refl, ?Hk.
Qed.

Lemma get_set_ne {V} k k' (v : V) o :
  k <> k' -> Debug.get k (Debug.set k' v o) = Debug.get k o.
Proof.
  intros Hne. apply String.eqb_neq in Hne.
  induction o as [|[k'' v''] o IH]; simpl.
  - by rewrite Hne.
  - destruct (String.eqb k' k'') eqn:Hk; simpl.
    + apply String.eqb_eq in Hk as <-. by rewrite Hne.
    + by rewrite IH.
Qed.



Lemma all_values_get {V} (P : V -> Prop) k o v :
  all_values P o -> Debug.get k o = Some v -> P v.
Proof.
  induction 1 as [|[k' v'] o Hv _ IH]; simpl; [done|].
  destruct (String.eqb k k'); [by intros [= <-]|done].
Qed.

Lemma all_values_set {V} (P : V -> Prop) k v o :
  P v -> all_values P o -> all_values P (Debug.set k v o).
Proof.
  intros Hv. induction 1 as [|[k' v'] o Hv' Ho IH]; simpl.
  - by repeat constructor.
  - destruct (String.eqb k k'); constructor; done.
Qed.

Lemma all_values_set2 {V} (P : V -> Prop) a c v o :
  P v -> all_values (all_values P) o -> all_values (all_values P) (Debug.set2 a c v o).
Proof.
  intros Hv Ho. unfold Debug.set2. apply all_values_set; [|done].
  apply all_values_set; [done|].
  destruct (Debug.get a o) as [l|] eqn:Hl; simpl; [|constructor].
  by apply (all_values_get _ a o).
Qed.

(** Rates that are not above 5 leave the analysis as it is. *)
Lemma check_rates_low an rates :
  all_values (all_values (fun q => Debug.Qgtb q 5 = false)) rates ->
  foldl (fun an entry => foldl (Debug.check_rate entry.1) an entry.2) an rates = an.
Proof.
  induction 1 as [|[action l] rates Hl _ IH]; simpl; [done|].
  replace (foldl (Debug.check_rate action) an l) with an; [done|].
  clear IH. simpl in Hl. induction Hl as [|[c q] l Hq _ IH]; simpl; [done|].
  simpl in Hq. by rewrite Hq.
Qed.

Lemma check_balance_rating an counts :
  Debug.flowRating (foldl Debug.check_balance an counts) = Debug.flowRating an.
Proof.
  revert an. induction counts as [|[action l] counts IH]; intros an; simpl; [done|].
  rewrite IH. unfold Debug.check_balance.
  repeat case_match; done.
Qed.





(** * Further properties *)

(** ** What a send, a listener and a timer leave alone *)

Lemma push_bounded_le {A} (x : A) (l : list A) :
  (length (push_bounded x l) <= 100)%nat.
Proof.
  unfold push_bounded, slice_last.
  destruct (100 <? length (l ++ [x]))%nat eqn:Hlen.
  - rewrite length_drop. lia.
  - apply Nat.ltb_ge in Hlen. done.
Qed.

(** The primary send touches the throttle table, the hash table, the record
    of sent ids, the pending pings and the timers, and nothing else; it only
    appends to the record and to the timer queue. *)
Lemma originalSend_frame env now rand data opts w :
  let w1 := (originalSend env now rand data opts w).1.2 in
  receivedMessageIds w1 = receivedMessageIds w /\
  storageLastSentTimes w1 = storageLastSentTimes w /\
  processedStorageMessages w1 = processedStorageMessages w /\
  lastStorageMessageTimes w1 = lastStorageMessageTimes w /\
  state_enabled w1 = state_enabled w /\
  state_analyzing w1 = state_analyzing w /\
  (sentMessageIds w1 = sentMessageIds w \/
   sentMessageIds w1 = push_bounded (genMessageId now (rand_id rand)) (sentMessageIds w)) /\
  exists added, timers w1 = timers w ++ added.
Proof.
  unfold originalSend, setTimeout.
  destruct (rate_limited now data opts w).
  { simpl. repeat split; auto. exists []. by rewrite app_nil_r. }
  destruct (duplicate_suppressed now data opts _).
  { simpl. repeat split; auto. exists []. by rewrite app_nil_r. }
  destruct (callback opts) as [cb|]; [destruct (is_action "ping" data)|];
    destruct (retry opts && (0 <? retryCount opts)); simpl;
    repeat split; auto;
    try (by exists []; rewrite app_nil_r);
    try (by eexists; rewrite <- ?app_assoc).
Qed.

Lemma sendCrossDomainMessage_frame env now rand data opts w :
  let w1 := (sendCrossDomainMessage env now rand data opts w).1.2 in
  receivedMessageIds w1 = receivedMessageIds w /\
  processedStorageMessages w1 = processedStorageMessages w /\
  lastStorageMessageTimes w1 = lastStorageMessageTimes w /\
  state_enabled w1 = state_enabled w /\
  state_analyzing w1 = state_analyzing w /\
  (sentMessageIds w1 = sentMessageIds w \/
   sentMessageIds w1 = push_bounded (genMessageId now (rand_id rand)) (sentMessageIds w)) /\
  exists added, timers w1 = timers w ++ added.
Proof.
  pose proof (originalSend_frame env now rand data opts w) as Hf.
  unfold sendCrossDomainMessage, debugLog_unbound, setTimeout.
  destruct (originalSend env now rand data opts w) as [[r w0] out0].
  simpl in Hf. destruct Hf as (H1 & _ & H3 & H4 & H5 & H6 & H7 & added & H8).
  repeat case_match; simpl; repeat split; auto;
    try (by exists added);
    try (by rewrite H8, <- app_assoc; eexists).
Qed.

Lemma handle_action_frame env now rand data w :
  let w1 := (handle_action env now rand data w).1 in
  receivedMessageIds w1 = receivedMessageIds w /\
  processedStorageMessages w1 = processedStorageMessages w /\
  lastStorageMessageTimes w1 = lastStorageMessageTimes w /\
  (sentMessageIds w1 = sentMessageIds w \/
   sentMessageIds w1 = push_bounded (genMessageId now (rand_id rand)) (sentMessageIds w)) /\
  exists added, timers w1 = timers w ++ added.
Proof.
  unfold handle_action, setTimeout.
  repeat match goal with
  | |- context [sendCrossDomainMessage ?e ?n ?r ?d ?o ?w'] =>
      let Hf := fresh "Hf" in
      pose proof (sendCrossDomainMessage_frame e n r d o w') as Hf;
      destruct (sendCrossDomainMessage e n r d o w') as [[? ?] ?];
      simpl in Hf; destruct Hf as (? & ? & ? & ? & ? & ? & ? & ?)
  | |- context [if ?b then _ else _] => destruct b
  | |- context [match ?o with Some _ => _ | None => _ end] => destruct o
  end; simpl in *; repeat split; auto;
    try (by exists []; rewrite app_nil_r);
    try (by eexists).
Qed.

Lemma accept_message_frame env now data w :
  let w1 := (accept_message env now data w).2 in
  messageThrottleTimestamps w1 = messageThrottleTimestamps w /\
  sentMessageHashes w1 = sentMessageHashes w /\
  sentMessageIds w1 = sentMessageIds w /\
  pendingPings w1 = pendingPings w /\
  storageLastSentTimes w1 = storageLastSentTimes w /\
  processedStorageMessages w1 = processedStorageMessages w /\
  lastStorageMessageTimes w1 = lastStorageMessageTimes w /\
  state_enabled w1 = state_enabled w /\
  state_analyzing w1 = state_analyzing w /\
  timers w1 = timers w.
Proof.
  simpl. rewrite accept_message_world. by repeat case_match.
Qed.

(** The 'storage' listener leaves the bus proper alone. *)
Lemma onStorage_frame env now rand key newValue w :
  let w1 := (onStorage env now rand key newValue w).1.2 in
  pendingPings w1 = pendingPings w /\
  timers w1 = timers w /\
  (onStorage env now rand key newValue w).2 = [].
Proof.
  unfold onStorage, debugLog_unbound. by repeat case_match.
Qed.

(** ** The records of message ids stay bounded *)

Lemma sendCrossDomainMessage_records env now rand data opts w :
  records_bounded w ->
  records_bounded (sendCrossDomainMessage env now rand data opts w).1.2.
Proof.
  intros (Hs & Hr & Hp).
  destruct (sendCrossDomainMessage_frame env now rand data opts w)
    as (H1 & H2 & _ & _ & _ & H3 & _).
  unfold records_bounded. rewrite H1, H2.
  split; [|done].
  destruct H3 as [-> | ->]; [done | apply push_bounded_le].
Qed.

Lemma handle_action_records env now rand data w :
  records_bounded w -> records_bounded (handle_action env now rand data w).1.
Proof.
  intros (Hs & Hr & Hp).
  destruct (handle_action_frame env now rand data w) as (H1 & H2 & _ & H3 & _).
  unfold records_bounded. rewrite H1, H2.
  split; [|done].
  destruct H3 as [-> | ->]; [done | apply push_bounded_le].
Qed.

Lemma accept_message_records env now data w :
  records_bounded w -> records_bounded (accept_message env now data w).2.
Proof.
  intros (Hs & Hr & Hp). rewrite accept_message_world.
  repeat case_match; try done.
  split; [done|]. split; [apply push_bounded_le | done].
Qed.

Lemma onWindowMessage_records env now rand origin data w :
  records_bounded w ->
  records_bounded (onWindowMessage env now rand origin data w).1.2.
Proof.
  intros Hb. unfold onWindowMessage.
  destruct (negb _); [done|].
  destruct data as [| |data]; try done.
  destruct (negb _); [done|].
  pose proof (accept_message_records env now data w Hb) as Ha.
  destruct (accept_message env now data w) as [v wa]. simpl in Ha.
  destruct v; try done.
  pose proof (handle_action_records env now rand data wa Ha) as Hh.
  by destruct (handle_action env now rand data wa).
Qed.

Lemma onStorage_records env now rand key newValue w :
  records_bounded w ->
  records_bounded (onStorage env now rand key newValue w).1.2.
Proof.
  intros (Hs & Hr & Hp).
  unfold onStorage, debugLog_unbound.
  repeat case_match; simpl; try done;
    (split; [done|]; split; [done | apply push_bounded_le]).
Qed.

Lemma fire_records env now rand task w :
  records_bounded w -> records_bounded (fire env now rand task w).1.
Proof.
  intros Hb. destruct task; simpl; try done.
  - by destruct (pendingPings w !! id).
  - pose proof (sendCrossDomainMessage_records env now rand data opts w Hb).
    by destruct (sendCrossDomainMessage env now rand data opts w) as [[? ?] ?].
  - by destruct (state_analyzing w).
Qed.

Lemma step_records env now rand ev w :
  records_bounded w -> records_bounded (step env now rand ev w).1.
Proof.
  intros Hb. destruct ev as [data opts|origin data|key newValue|i]; simpl.
  - pose proof (sendCrossDomainMessage_records env now rand data opts w Hb).
    by destruct (sendCrossDomainMessage env now rand data opts w) as [[? ?] ?].
  - pose proof (onWindowMessage_records env now rand origin data w Hb).
    by destruct (onWindowMessage env now rand origin data w) as [[? ?] ?].
  - pose proof (onStorage_records env now rand key newValue w Hb).
    by destruct (onStorage env now rand key newValue w) as [[? ?] ?].
  - destruct (timers w !! i) as [[due task]|]; [|done].
    destruct (due <=? now); [|done].
    by apply fire_records.
Qed.

(** X1: whatever happens to a bus (calls of [sendCrossDomainMessage],
    'message' and 'storage' events, timers, at any times and with any random
    draws), the record of sent ids, the record of received ids and the set of
    processed storage signatures never grow beyond 100 entries once they are
    within that bound; a bus starts within it. *)
Theorem records_stay_bounded env trace w :
  records_bounded w -> records_bounded (run env trace w).1.
Proof.
  revert w. induction trace as [|[[now rand] ev] rest IH]; intros w Hb; [done|].
  simpl.
  pose proof (step_records env now rand ev w Hb) as Hstep.
  destruct (step env now rand ev w) as [w1 out1]. simpl in Hstep.
  specialize (IH w1 Hstep).
  by destruct (run env rest w1).
Qed.

(** At a concrete input: a ping is sent and answered on a fresh bus. *)
Lemma records_stay_bounded_witness :
  records_bounded initial_world /\
  records_bounded
    (run frame [(1700000001000, draw "a", SendCall ping ping_options);
                (1700000001250, draw "b",
                 WindowMessage "https://mylabmastering.pearson.com"
                   (WObject (pong_reply "msg_1700000001200_p")))]
         initial_world).1.
Proof.
  assert (Hinit : records_bounded initial_world).
  { unfold records_bounded. simpl. lia. }
  split; [exact Hinit|].
  apply (records_stay_bounded frame _ initial_world Hinit).
Defined.

(** ** The cases of the 'message' listener *)

Lemma posted_post_all env m e : e ∈ post_all env m -> posted e = Some m.
Proof.
  unfold post_all. rewrite elem_of_app. intros [H|H].
  - destruct (hasParent env); [|by apply elem_of_nil in H].
    by apply list_elem_of_singleton in H as ->.
  - apply list_elem_of_join in H as (l & He & Hl).
    apply elem_of_lookup_imap in Hl as (i & b & -> & _).
    destruct b; [|by apply elem_of_nil in He].
    by apply list_elem_of_singleton in He as ->.
Qed.

Lemma storage_writes_post_all env m : storage_writes (post_all env m) = [].
Proof.
  unfold storage_writes, post_all. rewrite omap_app.
  assert (forall l : list (list Effect),
            Forall (fun o => omap (fun e => match e with
                                            | StorageSetItem key m => Some (key, m)
                                            | _ => None
                                            end) o = []) l ->
            omap (fun e => match e with
                           | StorageSetItem key m => Some (key, m)
                           | _ => None
                           end) (mjoin l) = []) as Hjoin.
  { induction 1 as [|o l Ho _ IH]; [done|].
    simpl. by rewrite omap_app, Ho, IH. }
  rewrite Hjoin.
  - by destruct (hasParent env).
  - apply Forall_forall. intros o Ho.
    apply elem_of_lookup_imap in Ho as (i & b & -> & _).
    by destruct b.
Qed.

(** The posts of a send are those of the primary send: the envelope, to
    every neighbour, or nothing. *)
Lemma sendCrossDomainMessage_posted env now rand data opts w e m :
  e ∈ (sendCrossDomainMessage env now rand data opts w).2 ->
  posted e = Some m ->
  m = envelope env now (genMessageId now (rand_id rand)) data /\
  (originalSend env now rand data opts w).1.1 = Some (genMessageId now (rand_id rand)).
Proof.
  intros He Hm.
  assert (e ∈ (originalSend env now rand data opts w).2) as Ho.
  { destruct (sendCrossDomainMessage_effects env now rand data opts w) as [key [Heq|[id Heq]]];
      simpl in Heq; rewrite Heq in He; [done|].
    apply elem_of_app in He as [He|He]; [done|].
    apply list_elem_of_singleton in He as ->. done. }
  rewrite originalSend_result.
  destruct (rate_limited now data opts w) eqn:Hrate.
  { rewrite originalSend_limited in Ho by done. by apply elem_of_nil in Ho. }
  destruct (duplicate_suppressed now data opts w) eqn:Hdup.
  { pose proof (originalSend_result env now rand data opts w) as Hr.
    rewrite Hrate, Hdup in Hr.
    apply originalSend_null in Hr as [Hr _]. rewrite Hr in Ho.
    by apply elem_of_nil in Ho. }
  destruct (originalSend_accepted env now rand data opts w Hrate Hdup) as (_ & Hout & _).
  rewrite Hout in Ho. apply posted_post_all in Ho.
  split; [congruence|done].
Qed.

(** X2: a ping that reaches the [switch] is always answered.  Whatever the
    throttle and duplicate tables hold, the listener posts to every
    neighbour one 'pong' whose [replyTo] is the ping's messageId and whose
    [hasQuestions] is the page's; the reply is recorded as sent, and no
    pending entry is made for it. *)
Theorem ping_always_answered env now rand origin data w w1 out :
  onWindowMessage env now rand origin (WObject data) w = (Dispatched, w1, out) ->
  is_action "ping" data = true ->
  let id := genMessageId now (rand_id rand) in
  out = post_all env (envelope env now id (pong_to env data)) /\
  last (sentMessageIds w1) = Some id /\
  messageThrottleTimestamps w1 !! "pong" = Some now /\
  pendingPings w1 = pendingPings w /\
  timers w1 = timers w.
Proof.
  intros Hd Hping id.
  apply onWindowMessage_dispatched in Hd as (_ & _ & wa & Ha & Hh).
  pose proof (accept_message_frame env now data w) as Hf.
  rewrite Ha in Hf. simpl in Hf.
  destruct Hf as (_ & _ & _ & Hpend & _ & _ & _ & _ & _ & Htimers).
  apply is_action_eq in Hping.
  unfold handle_action, is_action in Hh. rewrite Hping in Hh.
  rewrite !bool_decide_eq_false_2 in Hh by (intros [=]).
  rewrite bool_decide_eq_true_2 in Hh by done.
  fold (pong_to env data) in Hh.
  rewrite sendCrossDomainMessage_primary in Hh by done.
  injection Hh as <- <-.
  unfold originalSend, rate_limited, duplicate_suppressed. simpl.
  repeat split; auto.
  - apply push_bounded_last.
  - apply lookup_insert_eq.
Qed.

(** At a concrete input: a ping of the neighbouring frame arrives on a fresh bus. *)
Lemma ping_always_answered_witness :
  let r := onWindowMessage frame 1700000001250 (draw "b")
             "https://mylabmastering.pearson.com"
             (WObject (ping_from_other "msg_1700000001200_p")) initial_world in
  (r.1.1 = Dispatched /\ is_action "ping" (ping_from_other "msg_1700000001200_p") = true) /\
  r.2 = post_all frame
          (envelope frame 1700000001250 "msg_1700000001250_b"
             (pong_to frame (ping_from_other "msg_1700000001200_p"))).
Proof.
  intros r.
  assert (Hv : r.1.1 = Dispatched) by (vm_compute; reflexivity).
  assert (Ha : is_action "ping" (ping_from_other "msg_1700000001200_p") = true)
    by (vm_compute; reflexivity).
  assert (Hr : r = (Dispatched, r.1.2, r.2)) by (rewrite <- Hv; by destruct r as [[? ?] ?]).
  split; [by split|].
  exact (proj1 (ping_always_answered _ _ _ _ _ _ _ _ Hr Ha)).
Defined.

(** X3: a 'pong' ends the exchange.  Handling a dispatched 'pong' posts no
    message, writes nothing to localStorage, sets no timer and records no
    send: all it can do is invoke one callback with the reply and drop the
    pending entry. *)
Theorem pong_is_terminal env now rand origin data w w1 out :
  onWindowMessage env now rand origin (WObject data) w = (Dispatched, w1, out) ->
  is_action "pong" data = true ->
  (out = [] \/ exists cb, out = [InvokeCallback cb data]) /\
  (forall e, e ∈ out -> posted e = None) /\
  storage_writes out = [] /\
  timers w1 = timers w /\
  sentMessageIds w1 = sentMessageIds w /\
  messageThrottleTimestamps w1 = messageThrottleTimestamps w /\
  state_enabled w1 = state_enabled w /\
  state_analyzing w1 = state_analyzing w.
Proof.
  intros Hd Hpong.
  apply onWindowMessage_dispatched in Hd as (_ & _ & wa & Ha & Hh).
  pose proof (accept_message_frame env now data w) as Hf.
  rewrite Ha in Hf. simpl in Hf.
  destruct Hf as (Ht & _ & Hs & _ & _ & _ & _ & He & Han & Htimers).
  rewrite handle_action_pong in Hh by done.
  destruct (truthy_string (replyTo data)) as [r|].
  - destruct (pendingPings wa !! r) as [pending|].
    + injection Hh as <- <-. simpl.
      destruct (pp_callback pending) as [cb|]; simpl.
      * split; [right; by exists cb|].
        split; [|done].
        intros e Hin. by apply list_elem_of_singleton in Hin as ->.
      * split; [by left|]. split; [|done].
        intros e Hin. by apply elem_of_nil in Hin.
    + injection Hh as <- <-.
      split; [by left|]. split; [|done].
      intros e Hin. by apply elem_of_nil in Hin.
  - injection Hh as <- <-.
    split; [by left|]. split; [|done].
    intros e Hin. by apply elem_of_nil in Hin.
Qed.

(** At a concrete input: the reply to a pending ping. *)
Lemma pong_is_terminal_witness :
  let w := (sendCrossDomainMessage frame 1700000001000 (draw "a") ping
              ping_options initial_world).1.2 in
  let r := onWindowMessage frame 1700000001250 (draw "b")
             "https://mylabmastering.pearson.com"
             (WObject (pong_reply "msg_1700000001200_p")) w in
  (r.1.1 = Dispatched /\ is_action "pong" (pong_reply "msg_1700000001200_p") = true) /\
  storage_writes r.2 = [] /\ timers r.1.2 = timers w.
Proof.
  intros w r.
  assert (Hv : r.1.1 = Dispatched) by (vm_compute; reflexivity).
  assert (Ha : is_action "pong" (pong_reply "msg_1700000001200_p") = true)
    by (vm_compute; reflexivity).
  assert (Hr : r = (Dispatched, r.1.2, r.2)) by (rewrite <- Hv; by destruct r as [[? ?] ?]).
  split; [by split|].
  destruct (pong_is_terminal _ _ _ _ _ _ _ _ Hr Ha) as (_ & _ & Hw & Ht & _).
  split; [exact Hw | exact Ht].
Defined.

(** X4: an [updateStatus] that reaches the [switch] makes [state.enabled]
    equal to the message's [enabled].  It is posted on only by a context
    that is not its sender and only while its path has fewer than three
    entries; the message posted on is an [updateStatus] with the same
    [enabled] whose path is the received path followed by this context's
    identifier, so no forwarded [updateStatus] carries more than three. *)
Theorem updateStatus_forwarding env now rand origin data w w1 out :
  onWindowMessage env now rand origin (WObject data) w = (Dispatched, w1, out) ->
  is_action "updateStatus" data = true ->
  state_enabled w1 = enabled data /\
  forall e m,
    e ∈ out -> posted e = Some m ->
    state_enabled w <> enabled data /\
    from data <> Some (currentDomain env) /\
    action m = Some "updateStatus" /\
    enabled m = enabled data /\
    exists p, path data = Some p /\
              (length p < 3)%nat /\
              path m = Some (p ++ [currentDomain env]) /\
              (length (p ++ [currentDomain env]) <= 3)%nat.
Proof.
  intros Hd Hupd.
  apply onWindowMessage_dispatched in Hd as (_ & _ & wa & Ha & Hh).
  pose proof (accept_message_frame env now data w) as Hf.
  rewrite Ha in Hf. simpl in Hf.
  destruct Hf as (_ & _ & _ & _ & _ & _ & _ & He & _ & _).
  apply is_action_eq in Hupd.
  unfold handle_action, is_action in Hh. rewrite Hupd in Hh.
  rewrite bool_decide_eq_false_2 in Hh by (intros [=]).
  rewrite bool_decide_eq_true_2 in Hh by done.
  destruct (bool_decide (state_enabled wa = enabled data)) eqn:Hsame.
  { apply bool_decide_eq_true in Hsame. injection Hh as <- <-.
    split; [done|]. intros e m Hin. by apply elem_of_nil in Hin. }
  apply bool_decide_eq_false in Hsame. rewrite He in Hsame.
  destruct (bool_decide (from data ≠ Some (currentDomain env))) eqn:Hfrom; simpl in Hh.
  2:{ injection Hh as <- <-. split; [done|].
      intros e m Hin Hm. apply list_elem_of_singleton in Hin as ->. done. }
  apply bool_decide_eq_true in Hfrom.
  destruct (path data) as [p|] eqn:Hpath.
  2:{ injection Hh as <- <-. split; [done|].
      intros e m Hin Hm. apply list_elem_of_singleton in Hin as ->. done. }
  destruct (length p <? 3)%nat eqn:Hlen.
  2:{ injection Hh as <- <-. split; [done|].
      intros e m Hin Hm. apply list_elem_of_singleton in Hin as ->. done. }
  apply Nat.ltb_lt in Hlen.
  match type of Hh with
  | context [sendCrossDomainMessage ?e ?n ?r ?d ?o ?w'] =>
      pose proof (sendCrossDomainMessage_frame e n r d o w') as Hfr;
      pose proof (fun x m => sendCrossDomainMessage_posted e n r d o w' x m) as Hpo;
      destruct (sendCrossDomainMessage e n r d o w') as [[c w2] out2]
  end.
  simpl in Hfr, Hpo. injection Hh as <- <-.
  destruct Hfr as (_ & _ & _ & Hen & _). simpl in Hen.
  split; [done|].
  intros e m Hin Hm.
  apply elem_of_cons in Hin as [->|Hin]; [done|].
  destruct (Hpo e m Hin Hm) as [-> _].
  simpl. repeat split; auto.
  exists p. repeat split; auto.
  rewrite length_app. simpl. lia.
Qed.

(** At a concrete input: a status update that has made one hop is applied and posted on. *)
Lemma updateStatus_forwarding_witness :
  let r := onWindowMessage frame 1700000004100 (draw "b")
             "https://mylabmastering.pearson.com"
             (WObject (status_update "msg_1700000004000_s" true [peer_B]))
             initial_world in
  (r.1.1 = Dispatched /\
   is_action "updateStatus" (status_update "msg_1700000004000_s" true [peer_B]) = true) /\
  state_enabled r.1.2 = Some true /\
  PostToParent
    (envelope frame 1700000004100 "msg_1700000004100_b"
       {| source := None; action := Some "updateStatus"; messageId := None;
          from := None; timestamp := None; path := Some [peer_B];
          replyTo := None; enabled := Some true; hasQuestions := None;
          fallback := false |}) ∈ r.2.
Proof.
  intros r.
  assert (Hv : r.1.1 = Dispatched) by (vm_compute; reflexivity).
  assert (Ha : is_action "updateStatus"
                 (status_update "msg_1700000004000_s" true [peer_B]) = true)
    by (vm_compute; reflexivity).
  assert (Hr : r = (Dispatched, r.1.2, r.2)) by (rewrite <- Hv; by destruct r as [[? ?] ?]).
  split; [by split|].
  split.
  - exact (proj1 (updateStatus_forwarding _ _ _ _ _ _ _ _ Hr Ha)).
  - vm_compute. apply list_elem_of_further, list_elem_of_here.
Defined.

(** ** The fallback channel *)

(** X5: how a call of the bus ends.  It returns [null] when the primary send
    suppresses the message.  When the primary send goes out, the call
    returns the messageId for every action but [analyzeQuestion],
    [updateStatus] and [requestQuestionCheck]; for these three it never
    returns: the wrapper's logging throws a ReferenceError, after the
    message has been posted. *)
Theorem send_outcome env now rand data opts w :
  let primary := originalSend env now rand data opts w in
  let r := sendCrossDomainMessage env now rand data opts w in
  r.1.1 = match primary.1.1 with
          | None => Normal None
          | Some id => if shouldUseFallback data then Abrupt ReferenceError
                       else Normal (Some id)
          end /\
  exists written, r.2 = primary.2 ++ written /\ Forall (fun e => posted e = None) written.
Proof.
  simpl. unfold sendCrossDomainMessage, debugLog_unbound.
  destruct (originalSend env now rand data opts w) as [[[id|] w0] out0]; simpl.
  2:{ split; [done|]. exists []. by rewrite app_nil_r. }
  destruct (shouldUseFallback data); simpl.
  2:{ split; [done|]. exists []. by rewrite app_nil_r. }
  destruct (now - _ <? 2000); simpl.
  - split; [done|]. exists []. by rewrite app_nil_r.
  - split; [done|]. eexists. split; [done|]. by repeat constructor.
Qed.

(** X6: the 'storage' listener never reaches its [switch].  An event whose
    key has the protocol's prefix and whose value is a message of the
    protocol ends in a ReferenceError of the logging; every other event is
    ignored or fails to parse.  The listener has no effect, sets no timer,
    and changes neither [state.enabled] nor [state.analyzing]: it only
    touches its own two tables. *)
Theorem storage_listener_inert env now rand key newValue w :
  let r := onStorage env now rand key newValue w in
  r.1.1 = match truthy_string key, newValue with
          | Some k, WObject data =>
              if startsWith PREFIX k && bool_decide (source data = Some "pearson_ai_solver")
              then SFailed ReferenceError else SIgnored
          | Some k, WGarbage =>
              if startsWith PREFIX k then SFailed SyntaxError else SIgnored
          | _, _ => SIgnored
          end /\
  r.2 = [] /\
  state_enabled r.1.2 = state_enabled w /\
  state_analyzing r.1.2 = state_analyzing w /\
  timers r.1.2 = timers w /\
  pendingPings r.1.2 = pendingPings w /\
  sentMessageIds r.1.2 = sentMessageIds w /\
  receivedMessageIds r.1.2 = receivedMessageIds w /\
  messageThrottleTimestamps r.1.2 = messageThrottleTimestamps w /\
  sentMessageHashes r.1.2 = sentMessageHashes w /\
  storageLastSentTimes r.1.2 = storageLastSentTimes w.
Proof.
  simpl. unfold onStorage, debugLog_unbound.
  destruct (truthy_string key) as [k|]; [|done].
  destruct (startsWith PREFIX k); simpl; [|by destruct newValue].
  destruct newValue as [| |data]; try done.
  destruct (bool_decide (source data = Some "pearson_ai_solver")); simpl; [|done].
  destruct (bool_decide (_ ∈ _)); [done|].
  by destruct (too_soon _ _ _ _).
Qed.

Lemma storage_writes_app out1 out2 :
  storage_writes (out1 ++ out2) = storage_writes out1 ++ storage_writes out2.
Proof. apply omap_app. Qed.

Lemma storage_writes_originalSend env now rand data opts w :
  storage_writes (originalSend env now rand data opts w).2 = [].
Proof.
  unfold originalSend.
  destruct (rate_limited now data opts w); [done|].
  destruct (duplicate_suppressed now data opts _); [done|].
  apply storage_writes_post_all.
Qed.

(** What the wrapper writes, and what it does to the state of the primary
    send. *)
Lemma sendCrossDomainMessage_write env now rand data opts w :
  let primary := originalSend env now rand data opts w in
  let r := sendCrossDomainMessage env now rand data opts w in
  let key := PREFIX +:+ pretty now +:+ "_" +:+ rand_key rand in
  if bool_decide (is_Some primary.1.1) && shouldUseFallback data
     && negb (now - default 0 (storageLastSentTimes w !! action_key data) <? 2000)
  then
    storage_writes r.2 =
      [(key, fallback_message env now (genMessageId now (rand_id rand)) data)] /\
    storageLastSentTimes r.1.2 = <[action_key data := now]> (storageLastSentTimes w) /\
    timers r.1.2 = timers primary.1.2 ++ [(now + 1000, RemoveStorageItem key)]
  else
    storage_writes r.2 = [] /\
    storageLastSentTimes r.1.2 = storageLastSentTimes w /\
    timers r.1.2 = timers primary.1.2.
Proof.
  simpl.
  pose proof (originalSend_frame env now rand data opts w) as (_ & Hst & _).
  pose proof (storage_writes_originalSend env now rand data opts w) as Hsw.
  pose proof (originalSend_result env now rand data opts w) as Hres.
  unfold sendCrossDomainMessage, debugLog_unbound, setTimeout.
  destruct (originalSend env now rand data opts w) as [[[id|] w0] out0];
    simpl in *; [|done].
  assert (id = genMessageId now (rand_id rand)) as ->.
  { repeat case_match; congruence. }
  destruct (shouldUseFallback data); simpl; [|done].
  rewrite Hst.
  destruct (now - _ <? 2000); simpl; [done|].
  rewrite storage_writes_app, Hsw. done.
Qed.

(** X7: every write to localStorage is tidied up and carries the id of the
    posted message.  When a send writes an entry, the action is one of the
    three fallback actions, the key is the prefix followed by the time and a
    random suffix, the stored object has the messageId the primary send
    returned and [fallback: true], a timer is set to remove that key 1000 ms
    later, and running that timer removes it. *)
Theorem fallback_write_cleanup env now rand data opts w key m :
  (key, m) ∈ storage_writes (sendCrossDomainMessage env now rand data opts w).2 ->
  let r := sendCrossDomainMessage env now rand data opts w in
  shouldUseFallback data = true /\
  key = PREFIX +:+ pretty now +:+ "_" +:+ rand_key rand /\
  (originalSend env now rand data opts w).1.1 = messageId m /\
  m = fallback_message env now (genMessageId now (rand_id rand)) data /\
  storage_writes r.2 = [(key, m)] /\
  (now + 1000, RemoveStorageItem key) ∈ timers r.1.2 /\
  forall now' rand' w', fire env now' rand' (RemoveStorageItem key) w'
                        = (w', [StorageRemoveItem key]).
Proof.
  intros Hin. simpl.
  pose proof (sendCrossDomainMessage_write env now rand data opts w) as Hw.
  simpl in Hw.
  destruct (bool_decide (is_Some (originalSend env now rand data opts w).1.1)) eqn:Hsome;
    simpl in Hw.
  2:{ destruct Hw as [Hw _]. rewrite Hw in Hin. by apply elem_of_nil in Hin. }
  destruct (shouldUseFallback data); simpl in Hw.
  2:{ destruct Hw as [Hw _]. rewrite Hw in Hin. by apply elem_of_nil in Hin. }
  destruct (now - _ <? 2000); simpl in Hw.
  { destruct Hw as [Hw _]. rewrite Hw in Hin. by apply elem_of_nil in Hin. }
  destruct Hw as (Hw & _ & Ht).
  rewrite Hw in Hin. apply list_elem_of_singleton in Hin. injection Hin as -> ->.
  apply bool_decide_eq_true in Hsome as [id Hid].
  pose proof (originalSend_result env now rand data opts w) as Hres.
  repeat split; auto.
  - rewrite Hres in *. repeat case_match; try done.
  - rewrite Ht. apply elem_of_app. right. apply list_elem_of_here.
Qed.

(** At a concrete input: the first [analyzeQuestion] of a fresh bus. *)
Lemma fallback_write_cleanup_witness :
  let r := sendCrossDomainMessage frame 1700000001000 (draw "a") analyze_request
             default_options initial_world in
  let key := "pearson_ai_solver_msg_1700000001000_a" in
  let m := fallback_message frame 1700000001000 "msg_1700000001000_a" analyze_request in
  (key, m) ∈ storage_writes r.2 /\
  (1700000001000 + 1000, RemoveStorageItem key) ∈ timers r.1.2.
Proof.
  intros r key m.
  assert (Hin : (key, m) ∈ storage_writes r.2).
  { vm_compute. apply list_elem_of_here. }
  split; [exact Hin|].
  destruct (fallback_write_cleanup _ _ _ _ _ _ _ _ Hin) as (_ & _ & _ & _ & _ & Ht & _).
  exact Ht.
Defined.

(** X8: localStorage is written at most once in 2000 ms for an action.
    After a send has written an entry, no send of a message with the same
    action key made less than 2000 ms later writes one, whatever its
    options; the next write for that key is possible from 2000 ms on. *)
Theorem fallback_write_rate env now1 now2 rand1 rand2 data1 data2 opts1 opts2 w key m :
  (key, m) ∈ storage_writes (sendCrossDomainMessage env now1 rand1 data1 opts1 w).2 ->
  action_key data2 = action_key data1 ->
  let w1 := (sendCrossDomainMessage env now1 rand1 data1 opts1 w).1.2 in
  (now2 - now1 < 2000 ->
   storage_writes (sendCrossDomainMessage env now2 rand2 data2 opts2 w1).2 = []) /\
  (2000 <= now2 - now1 ->
   rate_limited now2 data2 opts2 w1 = false ->
   duplicate_suppressed now2 data2 opts2 w1 = false ->
   storage_writes (sendCrossDomainMessage env now2 rand2 data2 opts2 w1).2 =
     [(PREFIX +:+ pretty now2 +:+ "_" +:+ rand_key rand2,
       fallback_message env now2 (genMessageId now2 (rand_id rand2)) data2)]).
Proof.
  intros Hin Hkey. simpl.
  assert (storageLastSentTimes (sendCrossDomainMessage env now1 rand1 data1 opts1 w).1.2
            !! action_key data1 = Some now1 /\ shouldUseFallback data1 = true)
    as [Hlast Hfb1].
  { pose proof (sendCrossDomainMessage_write env now1 rand1 data1 opts1 w) as Hw.
    simpl in Hw.
    destruct (bool_decide _ && shouldUseFallback data1 && _) eqn:Hc.
    - destruct Hw as (_ & -> & _). split; [apply lookup_insert_eq|].
      apply andb_true_iff in Hc as [Hc _]. by apply andb_true_iff in Hc as [_ Hc].
    - destruct Hw as [Hw _]. rewrite Hw in Hin. by apply elem_of_nil in Hin. }
  assert (shouldUseFallback data2 = true) as Hfb2.
  { revert Hfb1 Hkey. unfold shouldUseFallback, action_key, truthy_string.
    destruct (action data1) as [a1|]; [|done].
    destruct (action data2) as [a2|].
    - destruct (String.eqb_spec a1 ""); [by subst|].
      destruct (String.eqb_spec a2 ""); [|by intros ? ->].
      intros H <-. by vm_compute in H.
    - destruct (String.eqb_spec a1 ""); [by subst|].
      intros H <-. by vm_compute in H. }
  set (w1 := (sendCrossDomainMessage env now1 rand1 data1 opts1 w).1.2) in *.
  pose proof (sendCrossDomainMessage_write env now2 rand2 data2 opts2 w1) as Hw.
  simpl in Hw. rewrite Hkey, Hlast, Hfb2 in Hw. simpl in Hw.
  split.
  - intros Hsoon.
    replace (now2 - now1 <? 2000) with true in Hw by (symmetry; apply Z.ltb_lt; lia).
    rewrite andb_false_r in Hw. by destruct Hw.
  - intros Hlate Hrate Hdup.
    replace (now2 - now1 <? 2000) with false in Hw by (symmetry; apply Z.ltb_ge; lia).
    rewrite originalSend_result, Hrate, Hdup in Hw.
    rewrite bool_decide_eq_true_2 in Hw by eauto.
    by destruct Hw.
Qed.

(** At a concrete input: two status broadcasts 1500 ms apart. *)
Lemma fallback_write_rate_witness :
  let first := sendCrossDomainMessage frame 1700000001000 (draw "a") (status_broadcast true)
                 default_options initial_world in
  let second := sendCrossDomainMessage frame 1700000002500 (draw "b") (status_broadcast false)
                  default_options first.1.2 in
  (("pearson_ai_solver_msg_1700000001000_a",
    fallback_message frame 1700000001000 "msg_1700000001000_a" (status_broadcast true))
     ∈ storage_writes first.2 /\
   action_key (status_broadcast false) = action_key (status_broadcast true) /\
   1700000002500 - 1700000001000 < 2000) /\
  storage_writes second.2 = [].
Proof.
  intros first second.
  assert (Hin : ("pearson_ai_solver_msg_1700000001000_a",
                 fallback_message frame 1700000001000 "msg_1700000001000_a"
                   (status_broadcast true)) ∈ storage_writes first.2).
  { vm_compute. apply list_elem_of_here. }
  assert (Hkey : action_key (status_broadcast false) = action_key (status_broadcast true))
    by reflexivity.
  assert (Hsoon : 1700000002500 - 1700000001000 < 2000) by lia.
  split; [by repeat split|].
  exact (proj1 (fallback_write_rate frame 1700000001000 1700000002500 (draw "a") (draw "b")
                  (status_broadcast true) (status_broadcast false)
                  default_options default_options initial_world _ _ Hin Hkey) Hsoon).
Defined.

(** ** Echoes and the memory of the duplicate check *)

Lemma genMessageId_truthy now rnd :
  truthy_string (Some (genMessageId now rnd)) = Some (genMessageId now rnd).
Proof. reflexivity. Qed.

(** Only a dispatched message has effects. *)
Lemma onWindowMessage_undispatched env now rand origin data w :
  (onWindowMessage env now rand origin data w).1.1 <> Dispatched ->
  (onWindowMessage env now rand origin data w).2 = [].
Proof.
  unfold onWindowMessage.
  destruct (negb _); [done|].
  destruct data as [| |data]; try done.
  destruct (negb _); [done|].
  destruct (accept_message env now data w) as [v wa].
  destruct v; try done.
  by destruct (handle_action env now rand data wa).
Qed.

(** X9: a context's own message that comes back to it.  Once a send has gone
    out at a time other than 0, its envelope arriving at the sender (from a
    trusted origin, not yet received, not stopped by the loop rule) is
    dropped as an echo for the next 1000 ms, with no effect; from 1000 ms
    on it is dispatched like a message of any other peer. *)
Theorem own_message_echo env now now' rand rand' origin data opts w :
  now <> 0 ->
  rate_limited now data opts w = false ->
  duplicate_suppressed now data opts w = false ->
  isPearsonOrigin (locationOrigin env) origin = true ->
  let id := genMessageId now (rand_id rand) in
  let sent := sendCrossDomainMessage env now rand data opts w in
  id ∉ receivedMessageIds w ->
  loop_blocked env (envelope env now id data) = false ->
  let back := onWindowMessage env now' rand' origin
                (WObject (envelope env now id data)) sent.1.2 in
  (now' - now < 1000 -> back.1.1 = Echo /\ back.2 = []) /\
  (1000 <= now' - now -> back.1.1 = Dispatched).
Proof.
  intros Hnow Hrate Hdup Horigin id sent Hnew Hloop back.
  assert (back.1.1 = if now' - now <? 1000 then Echo else Dispatched) as Hv.
  { subst back. rewrite onWindowMessage_verdict by done.
    rewrite accept_message_verdict. simpl messageId.
    subst id. rewrite genMessageId_truthy.
    subst sent. rewrite sendCrossDomainMessage_received.
    rewrite bool_decide_eq_false_2 by done.
    rewrite Hloop. unfold is_echo. simpl from. simpl timestamp. simpl messageId.
    rewrite genMessageId_truthy.
    rewrite bool_decide_eq_true_2 by done.
    replace (now =? 0) with false by (symmetry; by apply Z.eqb_neq).
    destruct (sendCrossDomainMessage_bus env now rand data opts w)
      as (_ & _ & Hids & _).
    destruct (originalSend_accepted env now rand data opts w Hrate Hdup)
      as (_ & _ & Hids' & _).
    simpl sentMessageIds. rewrite Hids, Hids'.
    rewrite bool_decide_eq_true_2 by apply push_bounded_elem.
    simpl. by rewrite andb_true_r. }
  split.
  - intros Hsoon.
    replace (now' - now <? 1000) with true in Hv by (symmetry; apply Z.ltb_lt; lia).
    split; [done|].
    apply onWindowMessage_undispatched. fold back. by rewrite Hv.
  - intros Hlate.
    by replace (now' - now <? 1000) with false in Hv by (symmetry; apply Z.ltb_ge; lia).
Qed.

(** At a concrete input: a ping that comes back to its sender after 400 ms. *)
Lemma own_message_echo_witness :
  let sent := sendCrossDomainMessage frame 1700000001000 (draw "a") ping
                default_options initial_world in
  let back := onWindowMessage frame 1700000001400 (draw "b") "https://mylab.pearson.com"
                (WObject (envelope frame 1700000001000 "msg_1700000001000_a" ping))
                sent.1.2 in
  (1700000001000 <> 0 /\
   rate_limited 1700000001000 ping default_options initial_world = false /\
   duplicate_suppressed 1700000001000 ping default_options initial_world = false /\
   isPearsonOrigin (locationOrigin frame) "https://mylab.pearson.com" = true /\
   1700000001400 - 1700000001000 < 1000) /\
  back.1.1 = Echo /\ back.2 = [].
Proof.
  intros sent back.
  assert (H0 : 1700000001000 <> 0) by lia.
  assert (Hsoon : 1700000001400 - 1700000001000 < 1000) by lia.
  assert (Hrate : rate_limited 1700000001000 ping default_options initial_world = false)
    by reflexivity.
  assert (Hdup : duplicate_suppressed 1700000001000 ping default_options initial_world = false)
    by reflexivity.
  assert (Horigin : isPearsonOrigin (locationOrigin frame) "https://mylab.pearson.com" = true)
    by (vm_compute; reflexivity).
  assert (Hnew : genMessageId 1700000001000 (rand_id (draw "a"))
                 ∉ receivedMessageIds initial_world) by apply not_elem_of_nil.
  assert (Hloop : loop_blocked frame
                    (envelope frame 1700000001000
                       (genMessageId 1700000001000 (rand_id (draw "a"))) ping) = false)
    by reflexivity.
  split; [by repeat split|].
  exact (proj1 (own_message_echo frame 1700000001000 1700000001400 (draw "a") (draw "b")
                  "https://mylab.pearson.com" ping default_options initial_world
                  H0 Hrate Hdup Horigin Hnew Hloop) Hsoon).
Defined.

Lemma onWindowMessage_received_ids env now rand origin data w :
  isPearsonOrigin (locationOrigin env) origin = true ->
  source data = Some "pearson_ai_solver" ->
  receivedMessageIds (onWindowMessage env now rand origin (WObject data) w).1.2
  = receivedMessageIds (accept_message env now data w).2.
Proof.
  intros Horigin Hsrc. unfold onWindowMessage.
  rewrite Horigin, Hsrc. rewrite bool_decide_eq_true_2 by done. simpl.
  destruct (accept_message env now data w) as [v wa].
  destruct v; try done.
  pose proof (handle_action_received env now rand data wa).
  by destruct (handle_action env now rand data wa).
Qed.

Lemma push_bounded_spec {A} (x : A) (l : list A) :
  push_bounded x l = drop (S (length l) - 100) (l ++ [x]).
Proof.
  unfold push_bounded, slice_last.
  assert (length (l ++ [x]) = S (length l)) as Hl by (rewrite length_app; simpl; lia).
  rewrite Hl.
  destruct (100 <? S (length l))%nat eqn:Hlen; [done|].
  apply Nat.ltb_ge in Hlen.
  by replace (S (length l) - 100)%nat with 0%nat by lia.
Qed.

(** X10: the duplicate check of the 'message' listener remembers exactly the
    last hundred ids.  Below a hundred entries a new id is appended and
    nothing is forgotten.  At a hundred entries the arrival of a message
    with a new id drops the oldest one, and a message carrying that oldest
    id is then no longer taken for a duplicate.  The action of the arriving
    message is not a name inherited from [Object.prototype]: under such a
    name, on a page that has loaded the diagnostics collector, the log line
    of 1141 throws before the duplicate check and the id is not recorded. *)
Theorem dedup_remembers_hundred env now rand origin data id w :
  isPearsonOrigin (locationOrigin env) origin = true ->
  source data = Some "pearson_ai_solver" ->
  inherited (action_key data) = false ->
  truthy_string (messageId data) = Some id ->
  id ∉ receivedMessageIds w ->
  let w1 := (onWindowMessage env now rand origin (WObject data) w).1.2 in
  ((length (receivedMessageIds w) < 100)%nat ->
   receivedMessageIds w1 = receivedMessageIds w ++ [id]) /\
  (forall old rest,
     receivedMessageIds w = old :: rest -> length rest = 99%nat ->
     receivedMessageIds w1 = rest ++ [id] /\
     (old ∉ rest -> old <> id ->
      forall now' rand' origin' data',
        isPearsonOrigin (locationOrigin env) origin' = true ->
        source data' = Some "pearson_ai_solver" ->
        truthy_string (messageId data') = Some old ->
        (onWindowMessage env now' rand' origin' (WObject data') w1).1.1 <> Duplicate)).
Proof.
  intros Horigin Hsrc _ Hid Hnew w1.
  assert (receivedMessageIds w1 = push_bounded id (receivedMessageIds w)) as Hrec.
  { subst w1. rewrite onWindowMessage_received_ids by done.
    rewrite accept_message_world, Hid.
    by rewrite bool_decide_eq_false_2 by done. }
  rewrite push_bounded_spec in Hrec.
  split.
  - intros Hlen. rewrite Hrec.
    by replace (S (length (receivedMessageIds w)) - 100)%nat with 0%nat by lia.
  - intros old rest Hw Hlen.
    rewrite Hw in Hrec. simpl in Hrec. rewrite Hlen in Hrec. simpl in Hrec.
    rewrite drop_0 in Hrec.
    split; [done|].
    intros Hold Hne now' rand' origin' data' Horigin' Hsrc' Hid'.
    rewrite onWindowMessage_verdict by done.
    rewrite accept_message_verdict, Hid', Hrec.
    rewrite bool_decide_eq_false_2.
    + by repeat case_match.
    + rewrite elem_of_app, list_elem_of_singleton. intros [?|?]; done.
Qed.

(** At a concrete input: the 101st message of a frame. *)
Lemma dedup_remembers_hundred_witness :
  let data := routed "msg_1700000004000_n" [peer_B] in
  let w1 := (onWindowMessage frame 1700000004100 (draw "b")
               "https://mylabmastering.pearson.com" (WObject data) busy_world).1.2 in
  (isPearsonOrigin (locationOrigin frame) "https://mylabmastering.pearson.com" = true /\
   source data = Some "pearson_ai_solver" /\
   inherited (action_key data) = false /\
   truthy_string (messageId data) = Some "msg_1700000004000_n" /\
   ("msg_1700000004000_n" ∉ receivedMessageIds busy_world) /\
   receivedMessageIds busy_world = "msg_1700000000000_r" :: drop 1 hundred_ids /\
   length (drop 1 hundred_ids) = 99%nat) /\
  receivedMessageIds w1 = drop 1 hundred_ids ++ ["msg_1700000004000_n"].
Proof.
  intros data w1.
  assert (Horigin : isPearsonOrigin (locationOrigin frame)
                      "https://mylabmastering.pearson.com" = true)
    by (vm_compute; reflexivity).
  assert (Hsrc : source data = Some "pearson_ai_solver") by reflexivity.
  assert (Hname : inherited (action_key data) = false) by reflexivity.
  assert (Hid : truthy_string (messageId data) = Some "msg_1700000004000_n") by reflexivity.
  assert (Hnew : "msg_1700000004000_n" ∉ receivedMessageIds busy_world).
  { refine (proj1 (bool_decide_eq_false _) _). vm_compute. reflexivity. }
  assert (Hw : receivedMessageIds busy_world = "msg_1700000000000_r" :: drop 1 hundred_ids)
    by (vm_compute; reflexivity).
  assert (Hlen : length (drop 1 hundred_ids) = 99%nat) by (vm_compute; reflexivity).
  split; [by repeat split|].
  exact (proj1 (proj2 (dedup_remembers_hundred frame 1700000004100 (draw "b")
                         "https://mylabmastering.pearson.com" data "msg_1700000004000_n"
                         busy_world Horigin Hsrc Hname Hid Hnew)
                  "msg_1700000000000_r" (drop 1 hundred_ids) Hw Hlen)).
Defined.

(** ** Pending pings and their clean-up timers *)

Lemma elem_of_delete_ne {A} (x y : A) (i : nat) (l : list A) :
  x ∈ l -> l !! i = Some y -> x <> y -> x ∈ delete i l.
Proof.
  intros Hin Hi Hne.
  rewrite (delete_Permutation l i y Hi) in Hin.
  apply elem_of_cons in Hin as [?|?]; done.
Qed.

(** Timers may be added without harm. *)
Lemma pings_covered_grow w w1 added :
  pendingPings w1 = pendingPings w ->
  timers w1 = timers w ++ added ->
  pings_covered w -> pings_covered w1.
Proof.
  intros Hp Ht Hc id pending Hlook. rewrite Hp in Hlook.
  destruct (Hc id pending Hlook) as [Hcb [due Hin]].
  split; [done|]. exists due. rewrite Ht. apply elem_of_app. by left.
Qed.

(** Entries may be removed without harm. *)
Lemma pings_covered_delete w w1 id :
  pendingPings w1 = delete id (pendingPings w) ->
  timers w1 = timers w ->
  pings_covered w -> pings_covered w1.
Proof.
  intros Hp Ht Hc id' pending Hlook. rewrite Hp in Hlook.
  apply lookup_delete_Some in Hlook as [_ Hlook].
  rewrite Ht. by apply Hc.
Qed.

Lemma originalSend_pings env now rand data opts w :
  pings_covered w -> pings_covered (originalSend env now rand data opts w).1.2.
Proof.
  intros Hc.
  destruct (rate_limited now data opts w) eqn:Hrate.
  { by rewrite originalSend_limited. }
  destruct (duplicate_suppressed now data opts w) eqn:Hdup.
  { pose proof (originalSend_result env now rand data opts w) as Hr.
    rewrite Hrate, Hdup in Hr.
    apply originalSend_null in Hr as (_ & _ & Hp & Ht).
    apply (pings_covered_grow w _ []); [done|by rewrite app_nil_r|done]. }
  destruct (originalSend_frame env now rand data opts w)
    as (_ & _ & _ & _ & _ & _ & _ & added & Ht).
  destruct (callback opts) as [cb|] eqn:Hcb;
    [destruct (is_action "ping" data) eqn:Hping|].
  - destruct (originalSend_ping env now rand data opts cb w Hping Hcb Hrate Hdup)
      as [Hp [after Hta]].
    intros id pending Hlook. rewrite Hp in Hlook.
    apply lookup_insert_Some in Hlook as [[<- <-]|[_ Hlook]].
    + split; [by eexists|]. exists (now + 5000). rewrite Hta.
      apply elem_of_app. right. apply list_elem_of_here.
    + destruct (Hc id pending Hlook) as [? [due Hin]].
      split; [done|]. exists due. rewrite Ht. apply elem_of_app. by left.
  - apply (pings_covered_grow w _ added); [|done|done].
    unfold originalSend. rewrite Hrate, duplicate_suppressed_throttle, Hdup, Hcb, Hping.
    by destruct (retry opts && (0 <? retryCount opts)).
  - apply (pings_covered_grow w _ added); [|done|done].
    unfold originalSend. rewrite Hrate, duplicate_suppressed_throttle, Hdup, Hcb.
    by destruct (retry opts && (0 <? retryCount opts)).
Qed.

Lemma sendCrossDomainMessage_pings env now rand data opts w :
  pings_covered w -> pings_covered (sendCrossDomainMessage env now rand data opts w).1.2.
Proof.
  intros Hc. apply (originalSend_pings env now rand data opts) in Hc.
  destruct (sendCrossDomainMessage_bus env now rand data opts w) as (_ & _ & _ & Hp & _).
  pose proof (sendCrossDomainMessage_write env now rand data opts w) as Hw.
  simpl in Hw, Hp.
  destruct (_ && _ && _).
  - destruct Hw as (_ & _ & Ht). by eapply pings_covered_grow.
  - destruct Hw as (_ & _ & Ht).
    apply (pings_covered_grow (originalSend env now rand data opts w).1.2 _ []);
      [done|by rewrite app_nil_r|done].
Qed.

Lemma handle_action_pings env now rand data w :
  pings_covered w -> pings_covered (handle_action env now rand data w).1.
Proof.
  intros Hc. unfold handle_action.
  repeat match goal with
  | |- context [sendCrossDomainMessage ?e ?n ?r ?d ?o ?w'] =>
      let Hs := fresh "Hs" in
      assert (pings_covered (sendCrossDomainMessage e n r d o w').1.2) as Hs
        by (apply sendCrossDomainMessage_pings; exact Hc);
      destruct (sendCrossDomainMessage e n r d o w') as [[? ?] ?]
  | |- context [if ?b then _ else _] => destruct b
  | |- context [match ?o with Some _ => _ | None => _ end] => destruct o
  end; simpl in *; try done.
  - eapply pings_covered_grow; [| |exact Hc]; done.
  - eapply pings_covered_delete; [| |exact Hc]; done.
  - eapply pings_covered_delete; [| |exact Hc]; done.
Qed.

Lemma onWindowMessage_pings env now rand origin data w :
  pings_covered w -> pings_covered (onWindowMessage env now rand origin data w).1.2.
Proof.
  intros Hc. unfold onWindowMessage.
  destruct (negb _); [done|].
  destruct data as [| |data]; try done.
  destruct (negb _); [done|].
  pose proof (accept_message_frame env now data w) as Hf. simpl in Hf.
  destruct Hf as (_ & _ & _ & Hp & _ & _ & _ & _ & _ & Ht).
  assert (pings_covered (accept_message env now data w).2) as Ha.
  { apply (pings_covered_grow w _ []); [done|by rewrite app_nil_r|done]. }
  destruct (accept_message env now data w) as [v wa]. simpl in Ha.
  destruct v; try done.
  pose proof (handle_action_pings env now rand data wa Ha).
  by destruct (handle_action env now rand data wa).
Qed.

Lemma onStorage_pings env now rand key newValue w :
  pings_covered w -> pings_covered (onStorage env now rand key newValue w).1.2.
Proof.
  intros Hc. unfold onStorage, debugLog_unbound.
  repeat case_match; simpl; try done;
    (apply (pings_covered_grow w _ []); [done|by rewrite app_nil_r|done]).
Qed.

Lemma fire_pings env now rand task w :
  pings_covered w -> pings_covered (fire env now rand task w).1.
Proof.
  intros Hc. destruct task; simpl; try done.
  - destruct (pendingPings w !! id); [|done].
    by apply (pings_covered_delete w _ id).
  - pose proof (sendCrossDomainMessage_pings env now rand data opts w Hc).
    by destruct (sendCrossDomainMessage env now rand data opts w) as [[? ?] ?].
  - by destruct (state_analyzing w).
Qed.

Lemma step_pings env now rand ev w :
  pings_covered w -> pings_covered (step env now rand ev w).1.
Proof.
  intros Hc. destruct ev as [data opts|origin data|key newValue|i]; simpl.
  - pose proof (sendCrossDomainMessage_pings env now rand data opts w Hc).
    by destruct (sendCrossDomainMessage env now rand data opts w) as [[? ?] ?].
  - pose proof (onWindowMessage_pings env now rand origin data w Hc).
    by destruct (onWindowMessage env now rand origin data w) as [[? ?] ?].
  - pose proof (onStorage_pings env now rand key newValue w Hc).
    by destruct (onStorage env now rand key newValue w) as [[? ?] ?].
  - destruct (timers w !! i) as [[due task]|] eqn:Hi; [|done].
    destruct (due <=? now); [|done].
    assert (forall task',
              (forall id, task' <> PingCleanup id) ->
              timers w !! i = Some (due, task') ->
              pings_covered (set_timers (delete i (timers w)) w)) as Hkeep.
    { (* another timer runs: every clean-up timer stays in the queue *)
      intros task' Hother Hi' id pending Hlook. simpl in Hlook.
      destruct (Hc id pending Hlook) as [Hcb [due' Hin]].
      split; [done|]. exists due'. simpl.
      apply (elem_of_delete_ne _ (due, task') i); [done|done|].
      intros [= _ <-]. by apply (Hother id). }
    destruct task as [id0|data opts|key| |];
      [|apply fire_pings; (eapply Hkeep; [|exact Hi]); intros id; discriminate..].
    (* the clean-up timer of [id0] runs: the entry goes with it *)
    simpl.
    assert (forall id pending,
              pendingPings w !! id = Some pending -> id <> id0 ->
              is_Some (pp_callback pending) /\
              exists due', (due', PingCleanup id) ∈ delete i (timers w)) as Hrest.
    { intros id pending Hlook Hne.
      destruct (Hc id pending Hlook) as [Hcb [due' Hin]].
      split; [done|]. exists due'.
      apply (elem_of_delete_ne _ (due, PingCleanup id0) i); [done|done|].
      intros [= _ ?]. done. }
    destruct (pendingPings w !! id0) eqn:Hp; simpl.
    + intros id pending Hlook. simpl in Hlook.
      apply lookup_delete_Some in Hlook as [Hne Hlook].
      apply (Hrest id pending Hlook). done.
    + intros id pending Hlook. simpl in Hlook.
      apply (Hrest id pending Hlook). intros ->. congruence.
Qed.

(** X11: no pending ping is forgotten.  On a bus started from scratch, at
    every moment of every run, each entry of [pendingPings] has a callback
    and a clean-up timer for its id still waiting in the queue; so an entry
    that no reply removes is removed when its timer runs. *)
Theorem pending_pings_covered env trace w :
  pings_covered w -> pings_covered (run env trace w).1.
Proof.
  revert w. induction trace as [|[[now rand] ev] rest IH]; intros w Hc; [done|].
  simpl.
  pose proof (step_pings env now rand ev w Hc) as Hstep.
  destruct (step env now rand ev w) as [w1 out1]. simpl in Hstep.
  specialize (IH w1 Hstep).
  by destruct (run env rest w1).
Qed.

(** At a concrete input: a ping with a callback, and its timer run too early. *)
Lemma pending_pings_covered_witness :
  pings_covered initial_world /\
  pings_covered
    (run frame [(1700000001000, draw "a", SendCall ping ping_options);
                (1700000001150, draw "b", TimerFires 0)] initial_world).1.
Proof.
  assert (Hinit : pings_covered initial_world).
  { intros id pending Hlook. simpl in Hlook. by rewrite lookup_empty in Hlook. }
  split; [exact Hinit|].
  apply (pending_pings_covered frame _ initial_world Hinit).
Defined.

(** ** Retries come to an end *)

Lemma originalSend_budget env now rand data opts w :
  (retry_budget (originalSend env now rand data opts w).1.2
   <= retry_budget w + retry_allowance opts)%nat.
Proof.
  unfold retry_budget, retry_allowance.
  destruct (rate_limited now data opts w) eqn:Hrate.
  { rewrite originalSend_limited by done. simpl. lia. }
  destruct (duplicate_suppressed now data opts w) eqn:Hdup.
  { pose proof (originalSend_result env now rand data opts w) as Hr.
    rewrite Hrate, Hdup in Hr.
    apply originalSend_null in Hr as (_ & _ & _ & ->). lia. }
  unfold originalSend, setTimeout.
  rewrite Hrate, duplicate_suppressed_throttle, Hdup.
  destruct (retry opts); simpl andb.
  - destruct (0 <? retryCount opts) eqn:Hcount.
    + apply Z.ltb_lt in Hcount.
      destruct (callback opts) as [cb|]; [destruct (is_action "ping" data)|];
        simpl; rewrite ?sum_list_with_app; simpl; unfold retry_weight; simpl; lia.
    + destruct (callback opts) as [cb|]; [destruct (is_action "ping" data)|];
        simpl; rewrite ?sum_list_with_app; simpl; unfold retry_weight; simpl; lia.
  - destruct (callback opts) as [cb|]; [destruct (is_action "ping" data)|];
      simpl; rewrite ?sum_list_with_app; simpl; unfold retry_weight; simpl; lia.
Qed.

Lemma sendCrossDomainMessage_budget env now rand data opts w :
  (retry_budget (sendCrossDomainMessage env now rand data opts w).1.2
   <= retry_budget w + retry_allowance opts)%nat.
Proof.
  pose proof (originalSend_budget env now rand data opts w) as Hb.
  pose proof (sendCrossDomainMessage_write env now rand data opts w) as Hw.
  simpl in Hw. unfold retry_budget in *.
  destruct (_ && _ && _); destruct Hw as (_ & _ & ->); [|done].
  rewrite sum_list_with_app. simpl.
  change (retry_weight (now + Z.max 0 1000, RemoveStorageItem ?k)) with 0%nat. lia.
Qed.

Lemma handle_action_budget env now rand data w :
  (retry_budget (handle_action env now rand data w).1 <= retry_budget w)%nat.
Proof.
  unfold handle_action.
  repeat match goal with
  | |- context [sendCrossDomainMessage ?e ?n ?r ?d ?o ?w'] =>
      let Hs := fresh "Hs" in
      pose proof (sendCrossDomainMessage_budget e n r d o w') as Hs;
      destruct (sendCrossDomainMessage e n r d o w') as [[? ?] ?]
  | |- context [if ?b then _ else _] => destruct b
  | |- context [match ?o with Some _ => _ | None => _ end] => destruct o
  end; unfold retry_budget, retry_allowance, setTimeout in *; simpl in *;
    rewrite ?sum_list_with_app; simpl;
    try change (retry_weight (_, DeferredAnalyze)) with 0%nat; lia.
Qed.

Lemma onWindowMessage_budget env now rand origin data w :
  (retry_budget (onWindowMessage env now rand origin data w).1.2 <= retry_budget w)%nat.
Proof.
  unfold onWindowMessage.
  destruct (negb _); [done|].
  destruct data as [| |data]; try done.
  destruct (negb _); [done|].
  pose proof (accept_message_frame env now data w) as Hf. simpl in Hf.
  destruct Hf as (_ & _ & _ & _ & _ & _ & _ & _ & _ & Ht).
  destruct (accept_message env now data w) as [v wa]. simpl in Ht.
  assert (retry_budget wa = retry_budget w) as Hwa by (unfold retry_budget; by rewrite Ht).
  destruct v; simpl; try lia.
  pose proof (handle_action_budget env now rand data wa).
  destruct (handle_action env now rand data wa). simpl in *. lia.
Qed.

Lemma onStorage_budget env now rand key newValue w :
  retry_budget (onStorage env now rand key newValue w).1.2 = retry_budget w.
Proof.
  unfold onStorage, debugLog_unbound. by repeat case_match.
Qed.

Lemma retry_budget_delete w i t :
  timers w !! i = Some t ->
  retry_budget w = (retry_weight t + retry_budget (set_timers (delete i (timers w)) w))%nat.
Proof.
  intros Hi. unfold retry_budget. simpl.
  by rewrite (delete_Permutation (timers w) i t Hi) at 1.
Qed.

Lemma step_budget env now rand ev w :
  match ev with SendCall _ _ => False | _ => True end ->
  ((if is_retry_firing now ev w then 1 else 0) + retry_budget (step env now rand ev w).1
   <= retry_budget w)%nat.
Proof.
  destruct ev as [data opts|origin data|key newValue|i]; intros Hev; [done|..]; simpl.
  - pose proof (onWindowMessage_budget env now rand origin data w).
    destruct (onWindowMessage env now rand origin data w) as [[? ?] ?]. simpl in *. lia.
  - pose proof (onStorage_budget env now rand key newValue w).
    destruct (onStorage env now rand key newValue w) as [[? ?] ?]. simpl in *. lia.
  - destruct (timers w !! i) as [[due task]|] eqn:Hi; [|simpl; lia].
    pose proof (retry_budget_delete w i _ Hi) as Hd.
    destruct (due <=? now).
    2:{ destruct task; simpl; lia. }
    destruct task as [id|data opts|key| |]; unfold retry_weight in Hd; simpl in Hd; simpl.
    + by destruct (pendingPings w !! id); simpl; rewrite Hd.
    + pose proof (sendCrossDomainMessage_budget env now rand data opts
                    (set_timers (delete i (timers w)) w)) as Hb.
      destruct (sendCrossDomainMessage env now rand data opts _) as [[? ?] ?].
      unfold retry_allowance in Hb. simpl in *. destruct (retry opts); lia.
    + lia.
    + destruct (state_analyzing w); simpl; lia.
    + lia.
Qed.

Lemma run_budget env trace w :
  no_caller trace ->
  (retries_fired env trace w + retry_budget (run env trace w).1 <= retry_budget w)%nat.
Proof.
  revert w. induction trace as [|[[now rand] ev] rest IH]; intros w Hn; [simpl; lia|].
  apply Forall_cons in Hn as [Hev Hn]. simpl in Hev.
  pose proof (step_budget env now rand ev w Hev) as Hstep.
  simpl. destruct (step env now rand ev w) as [w1 out1]. simpl in *.
  specialize (IH w1 Hn).
  destruct (run env rest w1). simpl in *. lia.
Qed.

(** X12: retries come to an end.  After a call of the bus, as long as no
    caller sends again, the retry timers re-send at most [retryCount] times
    more than the queue already allowed (not at all when [retry] is off),
    in whatever order and at whatever times timers run and messages
    arrive: each run of a retry timer uses up one unit of the budget, and
    neither a listener nor another timer adds any. *)
Theorem retries_come_to_an_end env now rand data opts trace w :
  no_caller trace ->
  let w1 := (step env now rand (SendCall data opts) w).1 in
  (retries_fired env trace w1 + retry_budget (run env trace w1).1
   <= retry_budget w + if retry opts then Z.to_nat (retryCount opts) else 0)%nat.
Proof.
  intros Hn w1.
  pose proof (run_budget env trace w1 Hn) as Hrun.
  pose proof (sendCrossDomainMessage_budget env now rand data opts w) as Hsend.
  unfold retry_allowance in Hsend.
  subst w1. simpl in *.
  destruct (sendCrossDomainMessage env now rand data opts w) as [[? ?] ?].
  simpl in *. lia.
Qed.

(** At a concrete input: an [analyzeQuestion] with two retries is re-sent exactly twice. *)
Lemma retries_come_to_an_end_witness :
  let trace := [(1700000001500, draw "b", TimerFires 0);
                (1700000002000, draw "c", TimerFires 1);
                (1700000002500, draw "d", TimerFires 0)] in
  let w1 := (step frame 1700000001000 (draw "a")
               (SendCall analyze_request retry_twice) initial_world).1 in
  no_caller trace /\
  retries_fired frame trace w1 = 2%nat /\
  (retries_fired frame trace w1 + retry_budget (run frame trace w1).1 <= 0 + 2)%nat.
Proof.
  intros trace w1.
  assert (Hn : no_caller trace) by (by repeat constructor).
  split; [exact Hn|].
  split; [vm_compute; reflexivity|].
  exact (retries_come_to_an_end frame 1700000001000 (draw "a") analyze_request
           retry_twice trace initial_world Hn).
Defined.

(** ** The language of the origin validator *)

Lemma string_length_app (a b : string) :
  String.length (a +:+ b) = (String.length a + String.length b)%nat.
Proof. induction a as [|c a IH]; simpl; [done|by rewrite IH]. Qed.

Lemma string_app_cons (c : ascii) (a b : string) :
  String c a +:+ b = String c (a +:+ b).
Proof. reflexivity. Qed.

Lemma prefix_app (p r : string) : String.prefix p (p +:+ r) = true.
Proof.
  induction p as [|c p IH]; simpl; [by destruct r|].
  by destruct (ascii_dec c c).
Qed.

Lemma prefix_inv (p s : string) :
  String.prefix p s = true -> exists r, s = p +:+ r.
Proof.
  revert s. induction p as [|c p IH]; intros s H; [by exists s|].
  destruct s as [|d s]; [done|]. simpl in H.
  destruct (ascii_dec c d) as [->|]; [|done].
  destruct (IH s H) as [r ->]. by exists r.
Qed.

Lemma substring_all (s : string) : substring 0 (String.length s) s = s.
Proof. induction s as [|c s IH]; simpl; [done|by rewrite IH]. Qed.

Lemma take_string_app (a b : string) : take_string (String.length a) (a +:+ b) = a.
Proof.
  unfold take_string. induction a as [|c a IH]; simpl; [by destruct b|by rewrite IH].
Qed.

Lemma drop_string_app (a b : string) : drop_string (String.length a) (a +:+ b) = b.
Proof.
  unfold drop_string. rewrite string_length_app.
  replace (String.length a + String.length b - String.length a)%nat
    with (String.length b) by lia.
  induction a as [|c a IH]; simpl; [apply substring_all|done].
Qed.

Lemma take_drop_string (n : nat) (s : string) :
  (n <= String.length s)%nat -> take_string n s +:+ drop_string n s = s.
Proof.
  unfold take_string, drop_string. revert n.
  induction s as [|c s IH]; intros n Hn; simpl in *.
  - by replace n with 0%nat by lia.
  - destruct n as [|n]; simpl.
    + by rewrite substring_all.
    + rewrite string_app_cons, IH by lia. done.
Qed.

Lemma includes_cons (needle : string) (c : ascii) (hay : string) :
  includes needle (String c hay)
  = String.prefix needle (String c hay) || includes needle hay.
Proof. reflexivity. Qed.

Lemma includes_spec (needle hay : string) :
  includes needle hay = true <-> exists a b, hay = a +:+ needle +:+ b.
Proof.
  split.
  - induction hay as [|c hay IH]; intros H.
    + change (String.prefix needle "" || false = true) in H.
      rewrite orb_false_r in H. apply prefix_inv in H as [r ->]. by exists "", r.
    + rewrite includes_cons in H. apply orb_true_iff in H as [H|H].
      * apply prefix_inv in H as [r ->]. by exists "", r.
      * destruct (IH H) as (a & b & ->). by exists (String c a), b.
  - intros (a & b & ->). induction a as [|c a IH].
    + change ("" +:+ needle +:+ b) with (needle +:+ b).
      destruct (needle +:+ b) as [|c s] eqn:E.
      * change (String.prefix needle "" || false = true).
        by rewrite <- E, prefix_app.
      * rewrite includes_cons, <- E, prefix_app. done.
    + rewrite string_app_cons, includes_cons, IH. apply orb_true_r.
Qed.

Lemma drop_https (r : string) : drop_string 8 ("https://" +:+ r) = r.
Proof. apply (drop_string_app "https://" r). Qed.

Lemma drop_http (r : string) : drop_string 7 ("http://" +:+ r) = r.
Proof. apply (drop_string_app "http://" r). Qed.

Lemma strip_scheme_spec (origin rest : string) :
  strip_scheme origin = Some rest <->
  origin = "https://" +:+ rest \/ origin = "http://" +:+ rest.
Proof.
  unfold strip_scheme, startsWith. split.
  - destruct (String.prefix "https://" origin) eqn:Hs.
    { apply prefix_inv in Hs as [r ->]. intros [= <-]. left.
      by rewrite drop_https. }
    destruct (String.prefix "http://" origin) eqn:Hp; [|done].
    apply prefix_inv in Hp as [r ->]. intros [= <-]. right.
    by rewrite drop_http.
  - intros [-> | ->].
    + by rewrite prefix_app, drop_https.
    + replace (String.prefix "https://" ("http://" +:+ rest)) with false by done.
      by rewrite prefix_app, drop_http.
Qed.

Lemma endsWith_spec (suffix s : string) :
  endsWith suffix s = true <-> exists mid, s = mid +:+ suffix.
Proof.
  unfold endsWith. split.
  - intros H. apply andb_true_iff in H as [Hlen Heq].
    apply Nat.leb_le in Hlen. apply String.eqb_eq in Heq.
    exists (take_string (String.length s - String.length suffix) s).
    pose proof (take_drop_string (String.length s - String.length suffix) s) as E.
    rewrite Heq in E. symmetry. apply E. lia.
  - intros [mid ->]. rewrite string_length_app.
    apply andb_true_iff. split; [apply Nat.leb_le; lia|].
    replace (String.length mid + String.length suffix - String.length suffix)%nat
      with (String.length mid) by lia.
    rewrite drop_string_app. apply String.eqb_refl.
Qed.

Lemma pattern_test_spec (D origin : string) :
  pattern_test D origin = true <->
  exists scheme mid,
    (scheme = "https://" \/ scheme = "http://") /\
    origin = scheme +:+ mid +:+ D /\
    no_line_terminator mid = true.
Proof.
  unfold pattern_test. split.
  - destruct (strip_scheme origin) as [rest|] eqn:Hs; [|done].
    intros H. apply andb_true_iff in H as [Hend Hmid].
    pose proof Hend as Hend'. unfold endsWith in Hend'.
    apply andb_true_iff in Hend' as [Hlen Heq].
    apply Nat.leb_le in Hlen. apply String.eqb_eq in Heq.
    assert (rest = take_string (String.length rest - String.length D) rest +:+ D) as Hrest.
    { pose proof (take_drop_string (String.length rest - String.length D) rest) as E.
      rewrite Heq in E. symmetry. apply E. lia. }
    apply strip_scheme_spec in Hs as [-> | ->].
    + exists "https://", (take_string (String.length rest - String.length D) rest).
      split; [by left|]. split; [by rewrite <- Hrest|done].
    + exists "http://", (take_string (String.length rest - String.length D) rest).
      split; [by right|]. split; [by rewrite <- Hrest|done].
  - intros (scheme & mid & Hscheme & -> & Hmid).
    assert (strip_scheme (scheme +:+ mid +:+ D) = Some (mid +:+ D)) as ->.
    { apply strip_scheme_spec. destruct Hscheme as [-> | ->]; auto. }
    apply andb_true_iff. split.
    + apply endsWith_spec. by exists mid.
    + rewrite string_length_app.
      replace (String.length mid + String.length D - String.length D)%nat
        with (String.length mid) by lia.
      by rewrite take_string_app.
Qed.

(** X13: the origins the validator trusts.  [isPearsonOrigin] accepts an
    origin exactly when it contains ["mylab.pearson.com"] or
    ["mylabmastering.pearson.com"] anywhere, or equals the document's own
    origin, or consists of [http://] or [https://], any text without a line
    break, and one of the three listed domains at its very end.  Nothing
    requires a dot before the domain or the domain to be the end of the
    host name. *)
Theorem isPearsonOrigin_language own origin :
  isPearsonOrigin own origin = true <->
  (exists a b, origin = a +:+ "mylab.pearson.com" +:+ b) \/
  (exists a b, origin = a +:+ "mylabmastering.pearson.com" +:+ b) \/
  origin = own \/
  exists D scheme mid,
    D ∈ PEARSON_DOMAINS /\
    (scheme = "https://" \/ scheme = "http://") /\
    origin = scheme +:+ mid +:+ D /\
    no_line_terminator mid = true.
Proof.
  unfold isPearsonOrigin.
  rewrite <- !includes_spec.
  destruct (includes "mylab.pearson.com" origin); [by split; auto|].
  destruct (includes "mylabmastering.pearson.com" origin); [by split; auto|].
  destruct (String.eqb_spec origin own) as [->|Hne]; [by split; auto|].
  cbn [orb]. split.
  - intros H. right. right. right.
    apply existsb_exists in H as (D & HD & Ht).
    apply pattern_test_spec in Ht as (scheme & mid & ? & ? & ?).
    exists D, scheme, mid. split; [by apply list_elem_of_In|done].
  - intros [H|[H|[H|H]]]; try done.
    destruct H as (D & scheme & mid & HD & Hrest).
    apply existsb_exists. exists D. split; [by apply list_elem_of_In|].
    apply pattern_test_spec. by exists scheme, mid.
Qed.

(** ** The clean-up of the table of fingerprints *)

Lemma originalSend_hashes env now rand data opts w :
  rate_limited now data opts w = false ->
  duplicate_suppressed now data opts w = false ->
  sentMessageHashes (originalSend env now rand data opts w).1.2
  = filter (fun kt => now - kt.2 <= 10000)
           (<[messageHash data := now]> (sentMessageHashes w)).
Proof.
  intros Hrate Hdup. unfold originalSend, setTimeout.
  rewrite Hrate, duplicate_suppressed_throttle, Hdup.
  destruct (callback opts) as [cb|]; [destruct (is_action "ping" data)|];
    by destruct (retry opts && (0 <? retryCount opts)).
Qed.

(** Dropping the fingerprints older than 10000 ms does not change what the
    duplicate check answers from then on. *)
Lemma duplicate_check_cleanup (now now2 : Z) (data2 : Message) (opts2 : Options)
    (table : gmap Fingerprint Z) (w : World) :
  now <= now2 ->
  duplicate_suppressed now2 data2 opts2
    (set_sentMessageHashes (filter (fun kt => now - kt.2 <= 10000) table) w)
  = duplicate_suppressed now2 data2 opts2 (set_sentMessageHashes table w).
Proof.
  intros Hlater. unfold duplicate_suppressed. simpl.
  destruct (skipDuplicateCheck opts2); [done|]. simpl.
  destruct (table !! messageHash data2) as [t|] eqn:Hlook.
  - destruct (decide (now - t <= 10000)) as [Hage|Hage].
    + by rewrite (proj2 (map_lookup_filter_Some _ _ _ _) (conj Hlook Hage)).
    + rewrite (proj2 (map_lookup_filter_None _ _ _)).
      * replace (now2 - t <? 2000) with false by (symmetry; apply Z.ltb_ge; lia).
        by rewrite andb_false_r.
      * right. intros t' Ht'. rewrite Hlook in Ht'. injection Ht' as <-. done.
  - rewrite (proj2 (map_lookup_filter_None _ _ _)); [done|by left].
Qed.

(** X14: the clean-up of lines 1380-1385 bounds the table without changing
    what the duplicate check answers.  After a send that goes out, every
    fingerprint left in [sentMessageHashes] was last sent at most 10000 ms
    before; and, time not running backwards, the duplicate check of any
    later send answers exactly as it would if nothing had been removed. *)
Theorem hash_cleanup_unobservable env now now2 rand data opts data2 opts2 w :
  rate_limited now data opts w = false ->
  duplicate_suppressed now data opts w = false ->
  let w1 := (originalSend env now rand data opts w).1.2 in
  (forall h t, sentMessageHashes w1 !! h = Some t -> now - t <= 10000) /\
  (now <= now2 ->
   duplicate_suppressed now2 data2 opts2 w1 =
   duplicate_suppressed now2 data2 opts2
     (set_sentMessageHashes (<[messageHash data := now]> (sentMessageHashes w)) w)).
Proof.
  intros Hrate Hdup w1.
  pose proof (originalSend_hashes env now rand data opts w Hrate Hdup) as Hh.
  fold w1 in Hh. split.
  - intros h t Hlook. rewrite Hh in Hlook.
    by apply map_lookup_filter_Some in Hlook as [_ Hage].
  - intros Hlater.
    rewrite <- (duplicate_check_cleanup now now2 data2 opts2 _ w Hlater).
    unfold duplicate_suppressed. by rewrite Hh.
Qed.

(** At a concrete input: a second ping 600 ms after the first. *)
Lemma hash_cleanup_unobservable_witness :
  let w1 := (originalSend frame 1700000001000 (draw "a") ping default_options
               initial_world).1.2 in
  (rate_limited 1700000001000 ping default_options initial_world = false /\
   duplicate_suppressed 1700000001000 ping default_options initial_world = false /\
   1700000001000 <= 1700000001600) /\
  duplicate_suppressed 1700000001600 ping default_options w1 =
  duplicate_suppressed 1700000001600 ping default_options
    (set_sentMessageHashes (<[messageHash ping := 1700000001000]>
                              (sentMessageHashes initial_world)) initial_world).
Proof.
  intros w1.
  assert (Hrate : rate_limited 1700000001000 ping default_options initial_world = false)
    by reflexivity.
  assert (Hdup : duplicate_suppressed 1700000001000 ping default_options initial_world = false)
    by reflexivity.
  assert (Hlater : 1700000001000 <= 1700000001600) by lia.
  split; [by repeat split|].
  exact (proj2 (hash_cleanup_unobservable frame 1700000001000 1700000001600 (draw "a")
                  ping default_options ping default_options initial_world Hrate Hdup)
           Hlater).
Defined.

(** ** Actions do not limit each other *)

(** X15: sends of different actions do not interfere.  Whether a message
    goes out or is suppressed, and what is posted, does not depend on an
    earlier send of a message with another action: the rate limiter and
    the duplicate check look only at entries of the message's own action. *)
Theorem actions_do_not_interfere env now1 now2 rand1 rand2 data1 data2 opts1 opts2 w :
  action_key data1 <> action_key data2 ->
  now1 <= now2 ->
  let w1 := (originalSend env now1 rand1 data1 opts1 w).1.2 in
  (originalSend env now2 rand2 data2 opts2 w1).1.1
    = (originalSend env now2 rand2 data2 opts2 w).1.1 /\
  (originalSend env now2 rand2 data2 opts2 w1).2
    = (originalSend env now2 rand2 data2 opts2 w).2.
Proof.
  intros Hkey Hlater w1.
  assert (messageHash data1 <> messageHash data2) as Hhash.
  { intros Heq. apply Hkey. unfold action_key.
    injection Heq as Heq _ _. by rewrite Heq. }
  assert (rate_limited now2 data2 opts2 w1 = rate_limited now2 data2 opts2 w) as Hrate.
  { subst w1. unfold rate_limited.
    destruct (rate_limited now1 data1 opts1 w) eqn:Hr1.
    - by rewrite originalSend_limited.
    - rewrite originalSend_throttle by done.
      by rewrite too_soon_assign_ne. }
  assert (forall v, duplicate_suppressed now2 data2 opts2
                      (set_messageThrottleTimestamps v w1)
                    = duplicate_suppressed now2 data2 opts2 w) as Hdup.
  { intros v. rewrite duplicate_suppressed_throttle. subst w1.
    destruct (rate_limited now1 data1 opts1 w) eqn:Hr1.
    { by rewrite originalSend_limited. }
    destruct (duplicate_suppressed now1 data1 opts1 w) eqn:Hd1.
    { unfold originalSend. by rewrite Hr1, duplicate_suppressed_throttle, Hd1. }
    pose proof (originalSend_hashes env now1 rand1 data1 opts1 w Hr1 Hd1) as Hh.
    transitivity (duplicate_suppressed now2 data2 opts2
                    (set_sentMessageHashes
                       (<[messageHash data1 := now1]> (sentMessageHashes w)) w)).
    - rewrite <- (duplicate_check_cleanup now1 now2 data2 opts2 _ w Hlater).
      unfold duplicate_suppressed. by rewrite Hh.
    - unfold duplicate_suppressed. simpl. by rewrite lookup_insert_ne. }
  assert ((originalSend env now2 rand2 data2 opts2 w1).1.1
          = (originalSend env now2 rand2 data2 opts2 w).1.1) as Hres.
  { rewrite !originalSend_result, Hrate.
    rewrite <- (Hdup (messageThrottleTimestamps w1)).
    by rewrite duplicate_suppressed_throttle. }
  split; [done|].
  destruct (rate_limited now2 data2 opts2 w) eqn:Hr2.
  { by rewrite !originalSend_limited. }
  destruct (duplicate_suppressed now2 data2 opts2 w) eqn:Hd2.
  { pose proof (originalSend_result env now2 rand2 data2 opts2 w) as H2.
    rewrite Hr2, Hd2 in H2.
    pose proof H2 as H1. rewrite <- Hres in H1.
    apply originalSend_null in H1 as [-> _].
    by apply originalSend_null in H2 as [-> _]. }
  assert (duplicate_suppressed now2 data2 opts2 w1 = false) as Hd1'.
  { rewrite <- (duplicate_suppressed_throttle (messageThrottleTimestamps w1)).
    by rewrite Hdup. }
  destruct (originalSend_accepted env now2 rand2 data2 opts2 w Hr2 Hd2) as (_ & -> & _).
  by destruct (originalSend_accepted env now2 rand2 data2 opts2 w1 Hrate Hd1') as (_ & -> & _).
Qed.

(** At a concrete input: an [analyzeQuestion] 100 ms after a ping. *)
Lemma actions_do_not_interfere_witness :
  let w1 := (originalSend frame 1700000001000 (draw "a") ping default_options
               initial_world).1.2 in
  (action_key ping <> action_key analyze_request /\
   1700000001000 <= 1700000001100) /\
  (originalSend frame 1700000001100 (draw "b") analyze_request default_options w1).1.1
  = (originalSend frame 1700000001100 (draw "b") analyze_request default_options
       initial_world).1.1.
Proof.
  intros w1.
  assert (Hkey : action_key ping <> action_key analyze_request) by discriminate.
  assert (Hlater : 1700000001000 <= 1700000001100) by lia.
  split; [by split|].
  exact (proj1 (actions_do_not_interfere frame 1700000001000 1700000001100
                  (draw "a") (draw "b") ping analyze_request
                  default_options default_options initial_world Hkey Hlater)).
Defined.

(** ** The diagnostics collector keeps bounded histories *)

Lemma push_shift_length {A} (n : nat) (x : A) (l : list A) :
  (length l <= n -> length (Debug.push_shift n x l) <= n)%nat.
Proof.
  intros Hl. unfold Debug.push_shift.
  destruct (n <? length (l ++ [x]))%nat eqn:Hlen.
  - rewrite length_drop, length_app. simpl. lia.
  - by apply Nat.ltb_ge in Hlen.
Qed.

Lemma all_values_get_default {V} (P : V -> Prop) k o d :
  all_values P o -> P d -> P (default d (Debug.get k o)).
Proof.
  intros Ho Hd. destruct (Debug.get k o) as [v|] eqn:Hv; simpl; [|done].
  by apply (all_values_get P k o).
Qed.

Lemma recordMessageStat_bounded now category action sample s s' :
  stats_bounded s ->
  Debug.recordMessageStat now category action sample s = Some s' ->
  stats_bounded s'.
Proof.
  intros [Hs Hc]. unfold Debug.recordMessageStat.
  destruct (Debug.get category (Debug.messageStats s)) as [bucket|] eqn:Hb; [|done].
  assert (all_values stat_bounded bucket) as Hbucket
    by (by apply (all_values_get _ category (Debug.messageStats s))).
  destruct (Debug.get action bucket) as [[st|]|] eqn:Ha; [| done |].
  - assert (stat_bounded (Some st)) as [Ht Hd]
      by (by apply (all_values_get _ action bucket)).
    intros [= <-]. split; [|done]. simpl.
    apply all_values_set; [|done]. apply all_values_set; [|done].
    simpl. split; [by apply push_shift_length|].
    destruct sample; [done|by apply push_shift_length].
  - destruct (inherited action); [done|].
    intros [= <-]. split; [|done]. simpl.
    apply all_values_set; [|done]. apply all_values_set; [|done].
    destruct sample; simpl; lia.
Qed.

(** A call that throws leaves the statistics and the circular paths as they
    were. *)
Lemma recordMessageStat_throw_stats category action s :
  Debug.messageStats (Debug.recordMessageStat_throw category action s) = Debug.messageStats s /\
  Debug.circularPaths (Debug.recordMessageStat_throw category action s) = Debug.circularPaths s.
Proof. unfold Debug.recordMessageStat_throw. by repeat case_match. Qed.

Lemma debug_call_bounded now c s :
  stats_bounded s -> stats_bounded (debug_call now c s).
Proof.
  intros Hs. destruct c as [category action sample|path|]; simpl.
  - destruct (Debug.recordMessageStat now category action sample s) as [s'|] eqn:Hr;
      simpl.
    + by apply (recordMessageStat_bounded now category action sample s).
    + unfold stats_bounded.
      by destruct (recordMessageStat_throw_stats category action s) as [-> ->].
  - destruct Hs as [Hs Hc]. unfold Debug.detectMessageLoop.
    destruct path as [p|]; [|done].
    destruct (length p <? 3)%nat; [done|].
    destruct (existsb _ _); [|done].
    split; [done|]. simpl. by apply push_shift_length.
  - split; [|simpl; lia]. simpl.
    apply Forall_fmap, Forall_forall. intros [c b] _. simpl.
    apply Forall_fmap, Forall_forall. intros [a e] _. simpl. lia.
Qed.

(** X16: the collector's histories stay bounded.  From its initial state,
    after any sequence of [recordMessageStat], [detectMessageLoop] and
    [resetDebugStats] calls, every object of every category holds at most
    50 timestamps and at most 20 data samples, and at most 20 circular
    paths are kept. *)
Theorem collector_stays_bounded cs s :
  stats_bounded s -> stats_bounded (debug_calls cs s).
Proof.
  unfold debug_calls. revert s.
  induction cs as [|[now c] cs IH]; intros s Hs; [done|].
  simpl. apply IH. by apply debug_call_bounded.
Qed.

(** At a concrete input: a reset, a recorded send and a detected loop. *)
Lemma collector_stays_bounded_witness :
  stats_bounded Debug.initial /\
  stats_bounded
    (debug_calls [(1700000000500, ResetDebugStats);
                  (1700000001000, RecordMessageStat "sent" "ping" []);
                  (1700000001000, DetectMessageLoop (Some [peer_A; peer_B; peer_A; peer_B; peer_A]))]
       Debug.initial).
Proof.
  assert (Hinit : stats_bounded Debug.initial).
  { split; [|simpl; lia]. unfold all_values. simpl. by repeat constructor. }
  split; [exact Hinit|].
  apply (collector_stays_bounded _ Debug.initial Hinit).
Defined.

(** ** When the report can be produced *)

Lemma report_action_none now category acc e :
  Debug.report_action now category acc e = None <-> acc = None \/ is_bare e = true.
Proof.
  destruct acc as [r|], e as [a [st|]]; simpl; unfold is_bare; simpl; split;
    try done; auto; intros [?|?]; done.
Qed.

Lemma report_actions_none now category acc bucket :
  foldl (Debug.report_action now category) acc bucket = None <->
  acc = None \/ existsb is_bare bucket = true.
Proof.
  revert acc. induction bucket as [|e bucket IH]; intros acc.
  - simpl. split; [auto|]. by intros [?|?].
  - change (foldl (Debug.report_action now category) acc (e :: bucket))
      with (foldl (Debug.report_action now category)
              (Debug.report_action now category acc e) bucket).
    rewrite IH, report_action_none. simpl. rewrite orb_true_iff. tauto.
Qed.

Lemma report_category_none now p acc entry :
  Debug.report_category now p acc entry = None <->
  acc = None \/ existsb is_bare (Debug.for_in p None entry.2) = true.
Proof.
  unfold Debug.report_category. destruct acc as [r|].
  - rewrite report_actions_none. split; intros [?|?]; auto; done.
  - split; auto.
Qed.

Lemma report_categories_none now p acc stats :
  foldl (Debug.report_category now p) acc stats = None <->
  acc = None \/
  existsb (fun cb : string * Debug.Bucket =>
             existsb is_bare (Debug.for_in p None cb.2)) stats = true.
Proof.
  revert acc. induction stats as [|entry stats IH]; intros acc.
  - simpl. split; [auto|]. by intros [?|?].
  - change (foldl (Debug.report_category now p) acc (entry :: stats))
      with (foldl (Debug.report_category now p)
              (Debug.report_category now p acc entry) stats).
    rewrite IH, report_category_none. simpl. rewrite orb_true_iff. tauto.
Qed.

(** While [Object.prototype] is untouched, the report throws exactly when
    some object lacks the three fields. *)
Lemma getMessageStatsReport_none now s :
  Debug.prototype_count s = false ->
  Debug.getMessageStatsReport now s = None <-> has_bare s = true.
Proof.
  intros Hp. unfold Debug.getMessageStatsReport, has_bare. rewrite Hp.
  change (Debug.for_in false [] (Debug.messageStats s)) with (Debug.messageStats s).
  rewrite report_categories_none. split; [|auto]. by intros [?|?].
Qed.

Lemma get_missing_category {V} (stats : list (string * V)) c :
  c ∉ stats.*1 -> Debug.get c stats = None.
Proof.
  induction stats as [|[k v] stats IH]; simpl; intros Hc; [done|].
  destruct (String.eqb_spec c k) as [->|Hne].
  - destruct Hc. apply list_elem_of_here.
  - apply IH. intros Hin. apply Hc. by apply list_elem_of_further.
Qed.

Lemma get_present_category {V} (stats : list (string * V)) c :
  c ∈ stats.*1 -> is_Some (Debug.get c stats).
Proof.
  induction stats as [|[k v] stats IH]; simpl; intros Hc.
  - by apply elem_of_nil in Hc.
  - destruct (String.eqb_spec c k) as [->|Hne]; [by eexists|].
    apply IH. apply elem_of_cons in Hc as [Hc|Hc]; done.
Qed.

(** Once [Object.prototype] has the property [count], the loop over the
    categories ends on the inherited name, where the report throws. *)
Lemma getMessageStatsReport_polluted now s :
  Debug.prototype_count s = true ->
  "count" ∉ (Debug.messageStats s).*1 ->
  Debug.getMessageStatsReport now s = None.
Proof.
  intros Hp Hcount. unfold Debug.getMessageStatsReport. rewrite Hp.
  unfold Debug.for_in at 1. rewrite bool_decide_eq_false_2 by done.
  cbn [andb negb]. rewrite foldl_app. cbn [foldl].
  apply report_category_none. right. reflexivity.
Qed.

Lemma analyzeMessageFlow_none now s :
  Debug.analyzeMessageFlow now s = None <-> Debug.getMessageStatsReport now s = None.
Proof.
  unfold Debug.analyzeMessageFlow.
  destruct (Debug.getMessageStatsReport now s); [|done].
  split; intros; done.
Qed.

Lemma bare_set_action a st (bucket : Debug.Bucket) :
  Debug.get a bucket <> Some None ->
  existsb is_bare (Debug.set a (Some st) bucket) = existsb is_bare bucket.
Proof.
  induction bucket as [|[k e] bucket IH]; simpl; intros Hget; [done|].
  destruct (String.eqb a k); simpl.
  - destruct e; [done|]. by destruct Hget.
  - by rewrite IH.
Qed.

Lemma bare_set_category c (b b' : Debug.Bucket) stats :
  Debug.get c stats = Some b ->
  existsb is_bare b' = existsb is_bare b ->
  existsb (fun cb : string * Debug.Bucket => existsb is_bare cb.2) (Debug.set c b' stats)
  = existsb (fun cb : string * Debug.Bucket => existsb is_bare cb.2) stats.
Proof.
  intros Hget Hb. induction stats as [|[k b0] stats IH]; simpl in *; [done|].
  destruct (String.eqb c k); simpl.
  - injection Hget as ->. by rewrite Hb.
  - by rewrite IH.
Qed.

Lemma has_bare_call now c s :
  has_bare (debug_call now c s) = if is_reset (now, c) then false else has_bare s.
Proof.
  destruct c as [category action sample|path|]; unfold is_reset; simpl.
  - unfold Debug.recordMessageStat, Debug.recordMessageStat_throw.
    destruct (Debug.get category (Debug.messageStats s)) as [bucket|] eqn:Hb; [|done].
    destruct (Debug.get action bucket) as [[st|]|] eqn:Ha; [|done|].
    + unfold has_bare. simpl.
      apply (bare_set_category category bucket); [done|].
      apply bare_set_action. by rewrite Ha.
    + destruct (inherited action); simpl.
      { by destruct (String.eqb action "__proto__"). }
      unfold has_bare. simpl.
      apply (bare_set_category category bucket); [done|].
      apply bare_set_action. by rewrite Ha.
  - unfold Debug.detectMessageLoop. by repeat case_match.
  - unfold has_bare, Debug.resetDebugStats. simpl.
    induction (Debug.messageStats s) as [|[k b] stats IH]; simpl; [done|].
    rewrite IH, orb_false_r. clear IH.
    induction b as [|[a e] b IH]; simpl; [done|]. by rewrite IH.
Qed.

Lemma has_bare_calls cs s :
  has_bare (debug_calls cs s) = has_bare s && negb (existsb is_reset cs).
Proof.
  unfold debug_calls. revert s.
  induction cs as [|[now c] cs IH]; intros s; simpl; [by rewrite andb_true_r|].
  rewrite IH, has_bare_call.
  destruct (is_reset (now, c)); simpl; [by rewrite andb_false_r|done].
Qed.

Lemma set_keys {V} k (v : V) o :
  is_Some (Debug.get k o) -> (Debug.set k v o).*1 = o.*1.
Proof.
  induction o as [|[k' v'] o IH]; intros [x Hx]; [done|].
  simpl in Hx. cbn [Debug.set].
  destruct (String.eqb_spec k k') as [->|Hne]; [done|].
  rewrite !fmap_cons. f_equal. apply IH. by exists x.
Qed.

Lemma debug_call_categories now c s :
  categories_fixed s -> categories_fixed (debug_call now c s).
Proof.
  unfold categories_fixed. intros Hs.
  destruct c as [category action sample|path|]; simpl.
  - destruct (Debug.recordMessageStat now category action sample s) as [s'|] eqn:Hr;
      simpl.
    + unfold Debug.recordMessageStat in Hr.
      destruct (Debug.get category (Debug.messageStats s)) as [bucket|] eqn:Hb; [|done].
      destruct (match Debug.get action bucket with
                | Some e => e
                | None => _
                end) as [st|]; [|done].
      injection Hr as <-. simpl. rewrite set_keys; [done|]. by exists bucket.
    + by destruct (recordMessageStat_throw_stats category action s) as [-> _].
  - unfold Debug.detectMessageLoop. by repeat case_match.
  - rewrite <- Hs. unfold Debug.resetDebugStats. simpl.
    rewrite <- list_fmap_compose. by apply list_fmap_ext.
Qed.

Lemma debug_calls_categories cs s :
  categories_fixed s -> categories_fixed (debug_calls cs s).
Proof.
  unfold debug_calls. revert s.
  induction cs as [|[now c] cs IH]; intros s Hs; [done|].
  simpl. apply IH. by apply debug_call_categories.
Qed.

Lemma get_reset_None (bucket : Debug.Bucket) k :
  Debug.get k bucket = None ->
  Debug.get k (map (fun e : string * option Debug.Stat =>
                      (e.1, Some {| Debug.count := 0; Debug.timestamps := [];
                                    Debug.data := [] |})) bucket) = None.
Proof.
  induction bucket as [|[k' e] bucket IH]; simpl; [done|].
  by destruct (String.eqb k k').
Qed.

(** No call gives an object an own entry [__proto__]: where there is none,
    [recordMessageStat] finds [Object.prototype] under that name and creates
    nothing. *)
Lemma debug_call_proto_free now c s :
  proto_free s -> proto_free (debug_call now c s).
Proof.
  unfold proto_free. intros Hs.
  destruct c as [category action sample|path|]; simpl.
  - destruct (Debug.recordMessageStat now category action sample s) as [s'|] eqn:Hr;
      simpl.
    + unfold Debug.recordMessageStat in Hr.
      destruct (Debug.get category (Debug.messageStats s)) as [bucket|] eqn:Hb; [|done].
      assert (Debug.get "__proto__" bucket = None) as Hproto
        by (by apply (all_values_get
                        (fun b : Debug.Bucket => Debug.get "__proto__" b = None)
                        category (Debug.messageStats s))).
      assert (action <> "__proto__") as Hne.
      { intros ->. rewrite Hproto in Hr. discriminate Hr. }
      destruct (match Debug.get action bucket with
                | Some e => e
                | None => _
                end) as [st|]; [|done].
      injection Hr as <-. simpl.
      apply all_values_set; [|done]. by rewrite get_set_ne.
    + by destruct (recordMessageStat_throw_stats category action s) as [-> _].
  - unfold Debug.detectMessageLoop. by repeat case_match.
  - simpl. apply Forall_fmap, Forall_forall. intros [k bucket] Hin. simpl.
    apply get_reset_None.
    by apply (proj1 (Forall_forall _ _) Hs (k, bucket)).
Qed.

(** Which call touches [Object.prototype]. *)
Lemma debug_call_prototype_count now c s :
  categories_fixed s -> proto_free s ->
  Debug.prototype_count (debug_call now c s) = Debug.prototype_count s || pollutes (now, c).
Proof.
  unfold categories_fixed, proto_free, pollutes. intros Hcat Hfree.
  destruct c as [category action sample|path|]; simpl.
  - unfold Debug.recordMessageStat, Debug.recordMessageStat_throw. rewrite <- Hcat.
    destruct (decide (category ∈ (Debug.messageStats s).*1)) as [Hin|Hout].
    + rewrite bool_decide_eq_true_2, andb_true_r by done.
      destruct (get_present_category _ _ Hin) as [bucket Hb]. rewrite Hb.
      assert (Debug.get "__proto__" bucket = None) as Hproto
        by (by apply (all_values_get
                        (fun b : Debug.Bucket => Debug.get "__proto__" b = None)
                        category (Debug.messageStats s))).
      destruct (String.eqb_spec action "__proto__") as [->|Hne].
      * rewrite Hproto. change (inherited "__proto__") with true. simpl.
        by rewrite orb_true_r.
      * rewrite orb_false_r.
        destruct (Debug.get action bucket) as [[st|]|]; [done..|].
        by destruct (inherited action).
    + rewrite bool_decide_eq_false_2, andb_false_r, orb_false_r by done.
      by rewrite get_missing_category.
  - rewrite orb_false_r. unfold Debug.detectMessageLoop. by repeat case_match.
  - by rewrite orb_false_r.
Qed.

Lemma debug_calls_prototype_count cs s :
  categories_fixed s -> proto_free s ->
  Debug.prototype_count (debug_calls cs s) = Debug.prototype_count s || existsb pollutes cs.
Proof.
  unfold debug_calls. revert s.
  induction cs as [|[now c] cs IH]; intros s Hcat Hfree; simpl.
  - by rewrite orb_false_r.
  - rewrite IH by (by apply debug_call_categories || by apply debug_call_proto_free).
    rewrite debug_call_prototype_count by done. by rewrite orb_assoc.
Qed.

(** X17: the report needs a reset first, and is lost once
    [Object.prototype] has been touched.  The calls name no category that
    is itself inherited from [Object.prototype].  From the initial state,
    [Object.prototype] has the property [count] exactly after a sequence of
    calls that records, under one of the four categories, the action
    [__proto__]; and [getMessageStatsReport] and [analyzeMessageFlow] throw
    exactly after the sequences that hold such a call (a later
    [resetDebugStats] does not help) and after those in which
    [resetDebugStats] does not occur (the literal objects under
    [messageStats.localStorage] have no [timestamps]). *)
Theorem report_needs_reset now cs :
  Forall own_category cs ->
  let s := debug_calls cs Debug.initial in
  Debug.prototype_count s = existsb pollutes cs /\
  (Debug.getMessageStatsReport now s = None <->
     existsb is_reset cs = false \/ existsb pollutes cs = true) /\
  (Debug.analyzeMessageFlow now s = None <->
     existsb is_reset cs = false \/ existsb pollutes cs = true).
Proof.
  intros _ s.
  assert (categories_fixed Debug.initial) as Hcat0 by reflexivity.
  assert (proto_free Debug.initial) as Hfree0
    by (unfold proto_free, all_values; simpl; by repeat constructor).
  assert (Debug.prototype_count s = existsb pollutes cs) as Hcount
    by (subst s; by rewrite debug_calls_prototype_count).
  assert (Debug.getMessageStatsReport now s = None
          <-> existsb is_reset cs = false \/ existsb pollutes cs = true) as Hreport.
  { destruct (existsb pollutes cs) eqn:Hp.
    - split; [auto|]. intros _.
      apply getMessageStatsReport_polluted; [done|].
      assert (categories_fixed s) as -> by (by apply debug_calls_categories).
      intros Hin. repeat (apply elem_of_cons in Hin as [Hin|Hin]; [discriminate|]).
      by apply elem_of_nil in Hin.
    - rewrite getMessageStatsReport_none by done.
      subst s. rewrite has_bare_calls.
      change (has_bare Debug.initial) with true. simpl.
      rewrite negb_true_iff. split; [auto|]. by intros [?|?]. }
  split; [done|]. split; [done|].
  by rewrite analyzeMessageFlow_none.
Qed.

(** At a concrete input: a message with the action [__proto__] is
    received, and the statistics are reset afterwards. *)
Lemma report_needs_reset_witness :
  let cs := [(1700000001000,
              RecordMessageStat "received" "__proto__" [("action", "__proto__")]);
             (1700000002000, ResetDebugStats)] in
  Forall own_category cs /\
  existsb is_reset cs = true /\
  Debug.getMessageStatsReport 1700000003000 (debug_calls cs Debug.initial) = None.
Proof.
  intros cs.
  assert (Hcs : Forall own_category cs) by (by repeat constructor).
  split; [exact Hcs|]. split; [reflexivity|].
  apply (proj1 (proj2 (report_needs_reset 1700000003000 cs Hcs))).
  right. reflexivity.
Defined.

(** ** What the flow analysis can and cannot report *)

Lemma report_action_capped now category r e r' :
  stat_bounded e.2 -> rates_capped r ->
  Debug.report_action now category (Some r) e = Some r' -> rates_capped r'.
Proof.
  destruct e as [a [st|]]; simpl; [|done].
  intros [Ht _] Hr [= <-]. unfold rates_capped. simpl.
  apply all_values_set2; [|done].
  apply rate_at_most_ten.
  etransitivity; [apply length_filter|done].
Qed.

Lemma report_actions_capped now category bucket r r' :
  all_values stat_bounded bucket -> rates_capped r ->
  foldl (Debug.report_action now category) (Some r) bucket = Some r' -> rates_capped r'.
Proof.
  intros Hb. revert r. induction Hb as [|e bucket He _ IH]; intros r Hr.
  - by intros [= <-].
  - change (foldl (Debug.report_action now category) (Some r) (e :: bucket))
      with (foldl (Debug.report_action now category)
              (Debug.report_action now category (Some r) e) bucket).
    destruct (Debug.report_action now category (Some r) e) as [r1|] eqn:H1.
    + apply IH. by apply (report_action_capped now category r e).
    + intros H. by rewrite (proj2 (report_actions_none _ _ None _)) in H by auto.
Qed.

(** What [for ... in] adds under an inherited name has the property too. *)
Lemma for_in_all_values {V} (P : V -> Prop) p nan (o : list (string * V)) :
  P nan -> all_values P o -> all_values P (Debug.for_in p nan o).
Proof.
  intros Hnan Ho. unfold Debug.for_in.
  destruct (p && negb (bool_decide ("count" ∈ o.*1))); [|done].
  apply Forall_app. split; [done|]. by constructor.
Qed.

Lemma report_categories_capped now p stats r r' :
  all_values (all_values stat_bounded) stats -> rates_capped r ->
  foldl (Debug.report_category now p) (Some r) stats = Some r' -> rates_capped r'.
Proof.
  intros Hs. revert r. induction Hs as [|[c b] stats Hb _ IH]; intros r Hr.
  - by intros [= <-].
  - change (foldl (Debug.report_category now p) (Some r) ((c, b) :: stats))
      with (foldl (Debug.report_category now p)
              (Debug.report_category now p (Some r) (c, b)) stats).
    destruct (Debug.report_category now p (Some r) (c, b)) as [r1|] eqn:H1.
    + apply IH. unfold Debug.report_category in H1.
      assert (all_values stat_bounded (Debug.for_in p None (c, b).2)) as Hb'
        by (by apply for_in_all_values).
      by apply (report_actions_capped _ _ _ _ _ Hb') in H1.
    + intros H. by rewrite (proj2 (report_categories_none _ _ None _)) in H by auto.
Qed.

(** Rates that are not above 10 raise no urgent issue and never give the
    rating [problematic]. *)
Lemma check_rates_capped an rates :
  all_values (all_values (fun q => Debug.Qgtb q 10 = false)) rates ->
  let an' := foldl (fun an entry => foldl (Debug.check_rate entry.1) an entry.2) an rates in
  Debug.urgentIssues an' = Debug.urgentIssues an /\
  (Debug.flowRating an <> Debug.problematic -> Debug.flowRating an' <> Debug.problematic).
Proof.
  intros Hr. revert an. induction Hr as [|[action l] rates Hl _ IH]; intros an; [done|].
  simpl in Hl |- *.
  assert (Debug.urgentIssues (foldl (Debug.check_rate action) an l) = Debug.urgentIssues an /\
          (Debug.flowRating an <> Debug.problematic ->
           Debug.flowRating (foldl (Debug.check_rate action) an l) <> Debug.problematic))
    as [Hu Hf].
  { clear IH. revert an. induction Hl as [|[c q] l Hq _ IHl]; intros an; [done|].
    simpl in Hq.
    change (foldl (Debug.check_rate action) an ((c, q) :: l))
      with (foldl (Debug.check_rate action) (Debug.check_rate action an (c, q)) l).
    destruct (IHl (Debug.check_rate action an (c, q))) as [Hu Hf].
    assert (Debug.urgentIssues (Debug.check_rate action an (c, q)) = Debug.urgentIssues an /\
            (Debug.flowRating an <> Debug.problematic ->
             Debug.flowRating (Debug.check_rate action an (c, q)) <> Debug.problematic))
      as [Hu1 Hf1].
    { unfold Debug.check_rate. rewrite Hq.
      destruct (Debug.Qgtb q 5); simpl; split; auto; done. }
    rewrite Hu, Hu1. auto. }
  destruct (IH (foldl (Debug.check_rate action) an l)) as [Hu' Hf'].
  simpl in Hu', Hf'. rewrite Hu', Hu. auto.
Qed.

Lemma check_balance_urgent an counts :
  Debug.urgentIssues (foldl Debug.check_balance an counts) = Debug.urgentIssues an.
Proof.
  revert an. induction counts as [|[action l] counts IH]; intros an; simpl; [done|].
  rewrite IH. unfold Debug.check_balance.
  repeat case_match; done.
Qed.

(** X18: the rating [problematic] comes from loops only.  Since an object
    keeps at most 50 timestamps, no rate of a report exceeds 10 per second:
    the branch that reports a message storm is never taken.  Whenever the
    analysis is produced, its rating is [problematic] exactly when more
    than five circular paths are recorded, and its only possible urgent
    issue is the one about loops. *)
Theorem storm_branch_unreachable now s an :
  stats_bounded s ->
  Debug.analyzeMessageFlow now s = Some an ->
  (Debug.flowRating an = Debug.problematic <-> (5 < length (Debug.circularPaths s))%nat) /\
  Debug.urgentIssues an =
    (if (5 <? length (Debug.circularPaths s))%nat then [Debug.MultipleLoops] else []) /\
  exists r, Debug.getMessageStatsReport now s = Some r /\ rates_capped r.
Proof.
  intros [Hs Hc]. unfold Debug.analyzeMessageFlow.
  destruct (Debug.getMessageStatsReport now s) as [r|] eqn:Hreport; [|done].
  assert (rates_capped r) as Hcap.
  { unfold Debug.getMessageStatsReport in Hreport.
    assert (all_values (all_values stat_bounded)
              (Debug.for_in (Debug.prototype_count s) [] (Debug.messageStats s))) as Hs'
      by (apply for_in_all_values; [constructor|done]).
    apply (report_categories_capped _ _ _ _ _ Hs') in Hreport; [done|].
    unfold rates_capped. simpl. constructor. }
  intros [= <-].
  set (a0 := {| Debug.patterns := []; Debug.recommendations := [];
                Debug.urgentIssues := []; Debug.flowRating := Debug.normal |}).
  destruct (check_rates_capped a0 (Debug.messageRate r) Hcap) as [Hu Hf].
  simpl in Hu, Hf.
  set (a1 := foldl (fun an entry => foldl (Debug.check_rate entry.1) an entry.2)
                   a0 (Debug.messageRate r)) in *.
  pose proof (check_balance_rating a1 (Debug.byAction r)) as Hbr.
  pose proof (check_balance_urgent a1 (Debug.byAction r)) as Hbu.
  set (a2 := foldl Debug.check_balance a1 (Debug.byAction r)) in *.
  assert (Debug.flowRating a2 <> Debug.problematic) as Hnot
    by (rewrite Hbr; by apply Hf).
  assert (Debug.urgentIssues a2 = []) as Hnone by (by rewrite Hbu, Hu).
  unfold Debug.check_loops.
  destruct (length (Debug.circularPaths s)) as [|[|[|[|[|[|n]]]]]] eqn:Hn; simpl;
    (split; [split; [try done; lia | try done; lia] |
             split; [by rewrite ?Hnone | eauto]]).
Qed.

(** At a concrete input: ten pings in half a second are rated [normal]. *)
Lemma storm_branch_unreachable_witness :
  let s := debug_calls ten_pings Debug.initial in
  (stats_bounded s /\
   Debug.analyzeMessageFlow 1700000001500 s
   = Some {| Debug.patterns := [Debug.SentNoneReceived "ping"];
             Debug.recommendations := [Debug.CheckProcessed "ping"];
             Debug.urgentIssues := []; Debug.flowRating := Debug.normal |}) /\
  exists r, Debug.getMessageStatsReport 1700000001500 s = Some r /\ rates_capped r.
Proof.
  intros s.
  assert (Hb : stats_bounded s).
  { split; [|vm_compute; lia]. unfold all_values. vm_compute.
    repeat constructor; lia. }
  assert (Ha : Debug.analyzeMessageFlow 1700000001500 s
               = Some {| Debug.patterns := [Debug.SentNoneReceived "ping"];
                         Debug.recommendations := [Debug.CheckProcessed "ping"];
                         Debug.urgentIssues := []; Debug.flowRating := Debug.normal |})
    by (vm_compute; reflexivity).
  split; [by split|].
  exact (proj2 (proj2 (storm_branch_unreachable 1700000001500 s _ Hb Ha))).
Defined.

(** ** After a reset *)

Lemma report_action_empty now category r a :
  report_empty r ->
  exists r',
    Debug.report_action now category (Some r)
      (a, Some {| Debug.count := 0; Debug.timestamps := []; Debug.data := [] |}) = Some r' /\
    report_empty r'.
Proof.
  intros (Hs & Hb & Hr & Hl & Hp). eexists. split; [reflexivity|].
  repeat split; simpl; try done.
  - apply all_values_set; [|done].
    rewrite Nat.add_0_r. by apply all_values_get_default.
  - by apply all_values_set2.
  - by apply all_values_set2.
Qed.

Lemma report_actions_empty now category (bucket : Debug.Bucket) r :
  report_empty r ->
  exists r',
    foldl (Debug.report_action now category) (Some r)
      ((fun e : string * option Debug.Stat =>
          (e.1, Some {| Debug.count := 0; Debug.timestamps := []; Debug.data := [] |}))
         <$> bucket) = Some r' /\
    report_empty r'.
Proof.
  revert r. induction bucket as [|[a e] bucket IH]; intros r Hr; [by exists r|].
  destruct (report_action_empty now category r a Hr) as (r1 & H1 & Hr1).
  destruct (IH r1 Hr1) as (r2 & H2 & Hr2).
  exists r2. split; [|done].
  rewrite fmap_cons.
  change (foldl ?f ?acc (?x :: ?l)) with (foldl f (f acc x) l).
  simpl fst. by rewrite H1.
Qed.

Lemma report_categories_empty now (stats : list (string * Debug.Bucket)) r :
  report_empty r ->
  exists r',
    foldl (Debug.report_category now false) (Some r)
      ((fun cb : string * Debug.Bucket =>
          (cb.1, (fun e : string * option Debug.Stat =>
                    (e.1, Some {| Debug.count := 0; Debug.timestamps := [];
                                  Debug.data := [] |})) <$> cb.2))
         <$> stats) = Some r' /\
    report_empty r'.
Proof.
  revert r. induction stats as [|[c b] stats IH]; intros r Hr; [by exists r|].
  rewrite fmap_cons.
  change (foldl ?f ?acc (?x :: ?l)) with (foldl f (f acc x) l).
  unfold Debug.report_category at 2. simpl fst. simpl snd.
  change (Debug.for_in false None ?o) with o.
  destruct (report_actions_empty now c b
              {| Debug.summary := Debug.set c 0%nat (Debug.summary r);
                 Debug.byAction := Debug.byAction r;
                 Debug.messageRate := Debug.messageRate r;
                 Debug.loops := Debug.loops r;
                 Debug.lastCircularPath := Debug.lastCircularPath r |})
    as (r1 & H1 & Hr1).
  { destruct Hr as (Hs & Hb & Hq & Hl & Hp). repeat split; simpl; try done.
    by apply all_values_set. }
  rewrite H1. by apply IH.
Qed.

Lemma check_balance_zero an counts :
  all_values (all_values (fun n => n = 0%nat)) counts ->
  foldl Debug.check_balance an counts = an.
Proof.
  induction 1 as [|[action l] counts Hl _ IH]; [done|].
  change (foldl Debug.check_balance an ((action, l) :: counts))
    with (foldl Debug.check_balance (Debug.check_balance an (action, l)) counts).
  replace (Debug.check_balance an (action, l)) with an; [done|].
  unfold Debug.check_balance. simpl in Hl.
  rewrite (all_values_get_default (fun n => n = 0%nat) "sent" l 0%nat Hl eq_refl).
  rewrite (all_values_get_default (fun n => n = 0%nat) "received" l 0%nat Hl eq_refl).
  reflexivity.
Qed.

(** X19: a reset wipes the slate, unless [Object.prototype] has been
    touched.  While [Object.prototype] has no property [count], after
    [resetDebugStats] the report is produced, whatever was recorded before;
    it counts no message and no loop, and the flow analysis finds nothing:
    no pattern, no recommendation, no urgent issue, rating [normal].  Once
    [Object.prototype] has the property (a record with the action
    [__proto__] has made it), the report and the analysis of a collector
    with the four categories throw also after [resetDebugStats]. *)
Theorem reset_wipes_the_slate now s :
  (Debug.prototype_count s = false ->
   Debug.analyzeMessageFlow now (Debug.resetDebugStats s) = Some clean_analysis /\
   exists r,
     Debug.getMessageStatsReport now (Debug.resetDebugStats s) = Some r /\
     report_empty r) /\
  (Debug.prototype_count s = true -> categories_fixed s ->
   Debug.getMessageStatsReport now (Debug.resetDebugStats s) = None /\
   Debug.analyzeMessageFlow now (Debug.resetDebugStats s) = None).
Proof.
  split.
  - intros Hp.
    destruct (report_categories_empty now (Debug.messageStats s)
                {| Debug.summary := []; Debug.byAction := []; Debug.messageRate := [];
                   Debug.loops := 0; Debug.lastCircularPath := None |})
      as (r & Hreport & Hr).
    { repeat split; constructor. }
    assert (Debug.getMessageStatsReport now (Debug.resetDebugStats s) = Some r) as Hget.
    { unfold Debug.getMessageStatsReport.
      cbn [Debug.resetDebugStats Debug.prototype_count Debug.messageStats
           Debug.circularPaths]. rewrite Hp.
      exact Hreport. }
    split; [|by exists r].
    unfold Debug.analyzeMessageFlow. rewrite Hget.
    destruct Hr as (_ & Hb & Hq & _ & _).
    cbn [Debug.resetDebugStats Debug.circularPaths length].
    rewrite check_rates_low by done.
    rewrite check_balance_zero by done.
    reflexivity.
  - intros Hp Hcat.
    assert (Debug.getMessageStatsReport now (Debug.resetDebugStats s) = None) as Hget.
    { apply getMessageStatsReport_polluted; [done|].
      assert (categories_fixed (Debug.resetDebugStats s)) as Hcat'
        by exact (debug_call_categories now ResetDebugStats s Hcat).
      unfold categories_fixed in Hcat'. rewrite Hcat'.
      intros Hin. repeat (apply elem_of_cons in Hin as [Hin|Hin]; [discriminate|]).
      by apply elem_of_nil in Hin. }
    split; [done|]. by apply analyzeMessageFlow_none.
Qed.

(** At concrete inputs: a reset after ten recorded pings; and a reset after
    a message with the action [__proto__] was recorded. *)
Lemma reset_wipes_the_slate_witness :
  let s := debug_calls ten_pings Debug.initial in
  let s' := debug_calls [(1700000001000, RecordMessageStat "received" "__proto__" [])]
              Debug.initial in
  (Debug.prototype_count s = false /\
   Debug.analyzeMessageFlow 1700000003000 (Debug.resetDebugStats s) = Some clean_analysis) /\
  (Debug.prototype_count s' = true /\ categories_fixed s' /\
   Debug.getMessageStatsReport 1700000003000 (Debug.resetDebugStats s') = None).
Proof.
  intros s s'.
  assert (Hs : Debug.prototype_count s = false) by (vm_compute; reflexivity).
  assert (Hs' : Debug.prototype_count s' = true) by (vm_compute; reflexivity).
  assert (Hcat : categories_fixed s') by (vm_compute; reflexivity).
  split.
  - split; [exact Hs|].
    exact (proj1 (proj1 (reset_wipes_the_slate 1700000003000 s) Hs)).
  - split; [exact Hs'|]. split; [exact Hcat|].
    exact (proj1 (proj2 (reset_wipes_the_slate 1700000003000 s') Hs' Hcat)).
Defined.

(** ** Counts are exact, histories are capped *)

Lemma push_shift_last50 (t : Z) (l : list Z) :
  Debug.push_shift 50 t (drop (length l - 50) l)
  = drop (length (l ++ [t]) - 50) (l ++ [t]).
Proof.
  unfold Debug.push_shift.
  rewrite !length_app, length_drop. simpl.
  destruct (decide (length l < 50)%nat) as [Hlt|Hge].
  - replace (length l - 50)%nat with 0%nat by lia.
    replace (length l + 1 - 50)%nat with 0%nat by lia.
    rewrite !drop_0.
    replace (50 <? length l - 0 + 1)%nat with false; [done|].
    symmetry. apply Nat.ltb_ge. lia.
  - replace (50 <? length l - (length l - 50) + 1)%nat with true
      by (symmetry; apply Nat.ltb_lt; lia).
    rewrite <- drop_app_le by lia.
    rewrite drop_drop. f_equal. lia.
Qed.

Lemma record_all_from c a ts s bucket st :
  Debug.get c (Debug.messageStats s) = Some bucket ->
  stat_entry a bucket = Some st ->
  ts <> [] ->
  exists s',
    Debug.record_all c a ts s = Some s' /\
    stat_of c a s' =
      Some (Some {| Debug.count := Debug.count st + length ts;
                    Debug.timestamps :=
                      foldl (fun l t => Debug.push_shift 50 t l) (Debug.timestamps st) ts;
                    Debug.data := Debug.data st |}) /\
    Debug.circularPaths s' = Debug.circularPaths s.
Proof.
  unfold Debug.record_all. revert s bucket st.
  induction ts as [|t ts IH]; intros s bucket st Hb Hst Hne; [done|].
  clear Hne.
  change (foldl ?f ?acc (?x :: ?l)) with (foldl f (f acc x) l).
  assert (Debug.recordMessageStat t c a [] s =
          Some {| Debug.messageStats :=
                    Debug.set c
                      (Debug.set a
                         (Some {| Debug.count := S (Debug.count st);
                                  Debug.timestamps := Debug.push_shift 50 t (Debug.timestamps st);
                                  Debug.data := Debug.data st |}) bucket)
                      (Debug.messageStats s);
                  Debug.circularPaths := Debug.circularPaths s;
                  Debug.prototype_count := Debug.prototype_count s |}) as Hstep.
  { unfold Debug.recordMessageStat. rewrite Hb.
    unfold stat_entry in Hst. by rewrite Hst. }
  cbn [mbind option_bind]. rewrite Hstep.
  set (st1 := {| Debug.count := S (Debug.count st);
                 Debug.timestamps := Debug.push_shift 50 t (Debug.timestamps st);
                 Debug.data := Debug.data st |}).
  set (s1 := {| Debug.messageStats := _; Debug.circularPaths := _;
                Debug.prototype_count := _ |}).
  destruct ts as [|t' ts].
  - exists s1. split; [done|]. split; [|done].
    unfold stat_of, s1. cbn [Debug.messageStats].
    rewrite get_set_eq. cbn [mbind option_bind]. rewrite get_set_eq.
    unfold st1. do 3 f_equal. simpl. lia.
  - destruct (IH s1 (Debug.set a (Some st1) bucket) st1) as (s' & Hrun & Hstat & Hcirc);
      [apply get_set_eq | unfold stat_entry; by rewrite get_set_eq | done |].
    exists s'. split; [exact Hrun|]. split; [|done].
    rewrite Hstat. unfold st1. cbn [Debug.count Debug.timestamps Debug.data].
    do 3 f_equal. simpl. lia.
Qed.

Lemma push_all_last50 (T ts : list Z) :
  foldl (fun l t => Debug.push_shift 50 t l) (drop (length T - 50) T) ts
  = drop (length (T ++ ts) - 50) (T ++ ts).
Proof.
  revert T. induction ts as [|t ts IH]; intros T.
  - by rewrite app_nil_r.
  - change (foldl ?f ?acc (?x :: ?l)) with (foldl f (f acc x) l). cbv beta.
    rewrite push_shift_last50, IH, <- app_assoc. done.
Qed.

(** Under a name every object inherits, an action without an own entry has
    no object to update, and the call throws. *)
Lemma recordMessageStat_inherited now category action sample s bucket :
  Debug.get category (Debug.messageStats s) = Some bucket ->
  Debug.get action bucket = None ->
  inherited action = true ->
  stat_entry action bucket = None /\
  Debug.recordMessageStat now category action sample s = None.
Proof.
  intros Hb Ha Hname. unfold stat_entry, Debug.recordMessageStat.
  by rewrite Hb, Ha, Hname.
Qed.

(** X20: counts are exact while histories are capped.  Recording an action
    once at each of the times [ts], on an object that has the three fields,
    or on none yet when the action is not a name inherited from
    [Object.prototype] (see [stat_entry]), adds the number of calls to the
    count, however large, and leaves as timestamps the last 50 of the old
    timestamps followed by [ts]; the data samples are untouched. *)
Theorem count_exact_history_capped c a ts s bucket st :
  Debug.get c (Debug.messageStats s) = Some bucket ->
  stat_entry a bucket = Some st ->
  (length (Debug.timestamps st) <= 50)%nat ->
  ts <> [] ->
  exists s',
    Debug.record_all c a ts s = Some s' /\
    stat_of c a s' =
      Some (Some {| Debug.count := Debug.count st + length ts;
                    Debug.timestamps :=
                      drop (length (Debug.timestamps st ++ ts) - 50)
                           (Debug.timestamps st ++ ts);
                    Debug.data := Debug.data st |}).
Proof.
  intros Hb Hst Hlen Hne.
  destruct (record_all_from c a ts s bucket st Hb Hst Hne) as (s' & Hrun & Hstat & _).
  exists s'. split; [done|]. rewrite Hstat. do 3 f_equal.
  rewrite <- push_all_last50.
  by replace (length (Debug.timestamps st) - 50)%nat with 0%nat by lia.
Qed.

(** At a concrete input: sixty sends leave the count 60 and the last 50 timestamps. *)
Lemma count_exact_history_capped_witness :
  let s := Debug.resetDebugStats Debug.initial in
  (Debug.get "sent" (Debug.messageStats s) = Some [] /\
   stat_entry "ping" [] = Some {| Debug.count := 0; Debug.timestamps := []; Debug.data := [] |} /\
   times60 <> []) /\
  exists s',
    Debug.record_all "sent" "ping" times60 s = Some s' /\
    stat_of "sent" "ping" s' =
      Some (Some {| Debug.count := 60;
                    Debug.timestamps := drop 10 times60;
                    Debug.data := [] |}).
Proof.
  intros s.
  assert (Hb : Debug.get "sent" (Debug.messageStats s) = Some []) by reflexivity.
  assert (Hst : stat_entry "ping" []
                = Some {| Debug.count := 0; Debug.timestamps := []; Debug.data := [] |})
    by reflexivity.
  assert (Hne : times60 <> []) by discriminate.
  split; [by repeat split|].
  exact (count_exact_history_capped "sent" "ping" times60 s [] _ Hb Hst
           ltac:(simpl; lia) Hne).
Defined.

(** ** Retried pings *)

(** X21: every retry of a ping with a callback is tracked on its own.  When
    the retry timer of such a ping runs, the ping is always sent again (no
    limiter applies to a retry), the retry's own messageId is entered in
    [pendingPings] with the same callback, and another clean-up is set for
    5000 ms later; while attempts are left, the next retry is scheduled as
    well.  A ping of [discoverFrames] can so leave three pending entries. *)
Theorem retried_ping_tracked env now rand data opts cb w :
  is_action "ping" data = true ->
  callback opts = Some cb ->
  let id := genMessageId now (rand_id rand) in
  let r := fire env now rand (RetrySend data (retry_options opts)) w in
  r.2 = post_all env (envelope env now id data) /\
  pendingPings r.1 =
    <[id := {| pp_timestamp := now; pp_callback := Some cb |}]> (pendingPings w) /\
  (now + 5000, PingCleanup id) ∈ timers r.1 /\
  (1 < retryCount opts ->
   (now + Z.max 0 (retryDelay opts), RetrySend data (retry_options (retry_options opts)))
     ∈ timers r.1).
Proof.
  intros Hping Hcb id r.
  assert (r = ((originalSend env now rand data (retry_options opts) w).1.2,
               (originalSend env now rand data (retry_options opts) w).2)) as ->.
  { subst r. simpl.
    by rewrite sendCrossDomainMessage_primary by (by apply ping_not_fallback). }
  destruct (originalSend_skipping now data (retry_options opts) w eq_refl eq_refl)
    as [Hrate Hdup].
  destruct (originalSend_accepted env now rand data (retry_options opts) w Hrate Hdup)
    as (_ & Hout & _).
  destruct (originalSend_ping env now rand data (retry_options opts) cb w
              Hping Hcb Hrate Hdup) as [Hp [after Ht]].
  cbn [fst snd]. split; [done|]. split; [done|]. split.
  - rewrite Ht. apply elem_of_app. right. apply list_elem_of_here.
  - intros Hleft.
    apply (originalSend_retry_timer env now rand data (retry_options opts) w);
      simpl; try done. lia.
Qed.

(** At a concrete input: the ping of [discoverFrames] and its first retry are both pending. *)
Lemma retried_ping_tracked_witness :
  let first := sendCrossDomainMessage frame 1700000001000 (draw "a") ping
                 discovery_options initial_world in
  let r := fire frame 1700000001500 (draw "b")
             (RetrySend ping (retry_options discovery_options)) first.1.2 in
  (is_action "ping" ping = true /\ callback discovery_options = Some 7%nat) /\
  pendingPings r.1 !! "msg_1700000001000_a"
    = Some {| pp_timestamp := 1700000001000; pp_callback := Some 7%nat |} /\
  pendingPings r.1 !! "msg_1700000001500_b"
    = Some {| pp_timestamp := 1700000001500; pp_callback := Some 7%nat |}.
Proof.
  intros first r.
  assert (Hping : is_action "ping" ping = true) by reflexivity.
  assert (Hcb : callback discovery_options = Some 7%nat) by reflexivity.
  split; [by split|].
  destruct (retried_ping_tracked frame 1700000001500 (draw "b") ping discovery_options
              7%nat first.1.2 Hping Hcb) as (_ & Hp & _).
  fold r in Hp. rewrite Hp. split.
  - rewrite lookup_insert_ne by (vm_compute; discriminate).
    vm_compute. reflexivity.
  - apply lookup_insert_eq.
Defined.

(** ** What the log lines of the bus record *)

(** A text without ['] cannot begin before a ['] and end after it. *)
Lemma prefix_before_quote (n a b : string) :
  unquoted n = true -> n <> "" ->
  String.prefix n (a +:+ String "'" b) = String.prefix n a.
Proof.
  revert a. induction n as [|x n IH]; intros a Hn Hne; [done|].
  simpl in Hn. apply andb_true_iff in Hn as [Hx Hn].
  apply negb_true_iff, Ascii.eqb_neq in Hx.
  destruct a as [|c a].
  - change ("" +:+ String "'" b) with (String "'" b). simpl.
    by destruct (ascii_dec x "'").
  - rewrite string_app_cons. simpl.
    destruct (ascii_dec x c); [|done].
    destruct n as [|y n]; [by destruct a|].
    by apply IH.
Qed.

Lemma includes_across_quote (n a b : string) :
  unquoted n = true -> n <> "" ->
  includes n (a +:+ String "'" b) = includes n a || includes n b.
Proof.
  intros Hn Hne. induction a as [|c a IH].
  - change ("" +:+ String "'" b) with (String "'" b).
    destruct n as [|x n]; [done|].
    simpl in Hn. apply andb_true_iff in Hn as [Hx _].
    apply negb_true_iff, Ascii.eqb_neq in Hx.
    rewrite includes_cons.
    change (includes (String x n) "") with false.
    simpl String.prefix. by destruct (ascii_dec x "'").
  - rewrite string_app_cons, !includes_cons, IH.
    rewrite <- string_app_cons, (prefix_before_quote n (String c a) b Hn Hne).
    by rewrite orb_assoc.
Qed.

Lemma span_unquoted_app (k r : string) :
  unquoted k = true -> span_unquoted (k +:+ String "'" r) = (k, String "'" r).
Proof.
  induction k as [|c k IH]; intros Hk; [done|].
  simpl in Hk. apply andb_true_iff in Hk as [Hc Hk].
  rewrite string_app_cons. simpl.
  apply negb_true_iff in Hc. rewrite Hc. by rewrite IH.
Qed.

Lemma action_match_here (s g : string) :
  match_here s = Some g -> action_match s = Some g.
Proof.
  intros H. destruct s as [|c s]; [by vm_compute in H|].
  change (action_match (String c s))
    with (match match_here (String c s) with
          | Some group => Some group
          | None => action_match s
          end).
  by rewrite H.
Qed.

Lemma action_match_rate_limit_log (k : string) :
  unquoted k = true -> k <> "" -> action_match (rate_limit_log k) = Some k.
Proof.
  intros Hk Hne. apply action_match_here.
  unfold match_here, rate_limit_log, startsWith.
  rewrite prefix_app.
  change 23%nat with (String.length "Rate limiting message '").
  rewrite drop_string_app.
  change (k +:+ "', too many sent recently")
    with (k +:+ String "'" ", too many sent recently").
  rewrite (span_unquoted_app k ", too many sent recently" Hk).
  by destruct k.
Qed.

Lemma includes_rate_limit_log (n k : string) :
  unquoted n = true -> n <> "" ->
  includes n (rate_limit_log k) =
  includes n "Rate limiting message " || (includes n k || includes n ", too many sent recently").
Proof.
  intros Hn Hne. unfold rate_limit_log.
  change ("Rate limiting message '" +:+ k +:+ "', too many sent recently")
    with ("Rate limiting message " +:+
          String "'" (k +:+ String "'" ", too many sent recently")).
  by rewrite !includes_across_quote.
Qed.

Lemma classify_rate_limit_log (k : string) (data : LogData) :
  unquoted k = true -> k <> "" ->
  includes "Sending" k = false -> includes "Received" k = false ->
  classify (rate_limit_log k) data = (Some "throttled", Some k).
Proof.
  intros Hk Hne Hs Hr. unfold classify.
  rewrite (includes_rate_limit_log "Sending" k) by done.
  rewrite (includes_rate_limit_log "Received" k) by done.
  rewrite Hs, Hr.
  replace (includes "Sending" "Rate limiting message ") with false by (vm_compute; done).
  replace (includes "Sending" ", too many sent recently") with false by (vm_compute; done).
  replace (includes "Received" "Rate limiting message ") with false by (vm_compute; done).
  replace (includes "Received" ", too many sent recently") with false by (vm_compute; done).
  cbn [orb andb].
  replace (includes "Rate limiting" (rate_limit_log k)) with true.
  - by rewrite action_match_rate_limit_log.
  - symmetry. apply includes_spec.
    by exists "", (" message '" +:+ k +:+ "', too many sent recently").
Qed.

(** X22: the log line of the rate limiter carries the action key to the
    collector.  For an action key that is not empty, has no quote and
    contains neither "Sending" nor "Received", the line written at line 1337
    is classified as [throttled] with exactly that key, recovered from the
    text by the regular expression; logging it does what
    [recordMessageStat('throttled', key, {message})] does, and never looks
    for a loop. *)
Theorem throttle_log_round_trip now k s :
  unquoted k = true -> k <> "" ->
  includes "Sending" k = false -> includes "Received" k = false ->
  action_match (rate_limit_log k) = Some k /\
  classify (rate_limit_log k) LUndefined = (Some "throttled", Some k) /\
  debugLog now (rate_limit_log k) LUndefined s =
    Debug.recordMessageStat now "throttled" k [("message", rate_limit_log k)] s.
Proof.
  intros Hk Hne Hs Hr.
  split; [by apply action_match_rate_limit_log|].
  split; [by apply classify_rate_limit_log|].
  unfold debugLog. rewrite classify_rate_limit_log by done.
  unfold truthy_string. destruct (String.eqb_spec k ""); [done|].
  simpl. by destruct (Debug.recordMessageStat _ _ _ _ _).
Qed.

(** At a concrete input: the action key [updateStatus]. *)
Lemma throttle_log_round_trip_witness :
  (unquoted "updateStatus" = true /\ "updateStatus" <> "" /\
   includes "Sending" "updateStatus" = false /\
   includes "Received" "updateStatus" = false) /\
  action_match "Rate limiting message 'updateStatus', too many sent recently"
  = Some "updateStatus".
Proof.
  assert (H1 : unquoted "updateStatus" = true) by reflexivity.
  assert (H2 : "updateStatus" <> "") by discriminate.
  assert (H3 : includes "Sending" "updateStatus" = false) by (vm_compute; reflexivity).
  assert (H4 : includes "Received" "updateStatus" = false) by (vm_compute; reflexivity).
  split; [by repeat split|].
  exact (proj1 (throttle_log_round_trip 0 "updateStatus" Debug.initial H1 H2 H3 H4)).
Defined.

(** ** The log lines of the fallback channel *)

(** X23: the statistics of the fallback channel cannot be recorded.  The
    line "Sent fallback message via localStorage:" is classified as
    ['localStorage.sent'], which names no object of [messageStats]: after
    any sequence of collector calls, logging it with an action makes
    [recordMessageStat] throw.  The line "[Fallback] Received message via
    localStorage:" is taken for a [received] line without an action and
    records nothing; and no line at all is ever classified as
    ['localStorage.received']. *)
Theorem fallback_statistics_unrecordable now cs a :
  a <> "" ->
  let s := debug_calls cs Debug.initial in
  classify "Sent fallback message via localStorage:" (LString a)
    = (Some "localStorage.sent", Some a) /\
  debugLog now "Sent fallback message via localStorage:" (LString a) s = None /\
  debugLog now "[Fallback] Received message via localStorage:" (LString a) s = Some s /\
  forall message data, (classify message data).1 <> Some "localStorage.received".
Proof.
  intros Ha s.
  assert (classify "Sent fallback message via localStorage:" (LString a)
          = (Some "localStorage.sent", Some a)) as Hsent by (vm_compute; reflexivity).
  split; [done|]. split; [|split].
  - unfold debugLog. rewrite Hsent.
    unfold truthy_string. destruct (String.eqb_spec a ""); [done|].
    unfold Debug.recordMessageStat.
    rewrite (get_missing_category (Debug.messageStats s) "localStorage.sent"); [done|].
    assert (categories_fixed s) as ->.
    { apply debug_calls_categories. reflexivity. }
    intros Hin. repeat (apply elem_of_cons in Hin as [Hin|Hin]; [discriminate|]).
    by apply elem_of_nil in Hin.
  - unfold debugLog.
    by replace (classify "[Fallback] Received message via localStorage:" (LString a))
      with (Some "received", @None string) by (vm_compute; reflexivity).
  - intros message data. unfold classify.
    destruct (includes "Sending" message); destruct (includes "message" message);
      destruct (includes "Received" message); destruct (includes "Rate limiting" message);
      destruct (includes "localStorage" message); destruct (includes "Sent" message);
      simpl; discriminate.
Qed.

(** At a concrete input: the log line of an [analyzeQuestion], after a reset. *)
Lemma fallback_statistics_unrecordable_witness :
  "analyzeQuestion" <> "" /\
  debugLog 1700000001000 "Sent fallback message via localStorage:"
    (LString "analyzeQuestion")
    (debug_calls [(1700000000500, ResetDebugStats)] Debug.initial) = None.
Proof.
  assert (Ha : "analyzeQuestion" <> "") by discriminate.
  split; [exact Ha|].
  exact (proj1 (proj2 (fallback_statistics_unrecordable 1700000001000
                         [(1700000000500, ResetDebugStats)] "analyzeQuestion" Ha))).
Defined.

(** ** Text normalisation *)

Lemma collapse_single_spaced b s : single_spaced b (collapse b s) = true.
Proof.
  revert b. induction s as [|c s IH]; intros b; [done|].
  simpl. destruct (is_space c) eqn:Hc.
  - destruct b; [apply IH|]. simpl. by rewrite IH.
  - simpl. by rewrite Hc.
Qed.

Lemma single_spaced_weaken s : single_spaced true s = true -> single_spaced false s = true.
Proof.
  destruct s as [|c s]; [done|]. simpl.
  destruct (is_space c); [|done]. by rewrite andb_false_r.
Qed.

Lemma trimStart_fixed s : single_spaced true s = true -> trimStart s = s.
Proof.
  destruct s as [|c s]; [done|]. simpl.
  destruct (is_space c); [|done]. by rewrite andb_false_r.
Qed.

Lemma trimStart_single_spaced s :
  single_spaced false s = true -> single_spaced true (trimStart s) = true.
Proof.
  destruct s as [|c s]; [done|]. simpl.
  destruct (is_space c) eqn:Hc.
  - intros H. apply andb_true_iff in H as [_ H].
    by rewrite trimStart_fixed.
  - intros H. simpl. by rewrite Hc.
Qed.

Lemma trimEnd_single_spaced b s :
  single_spaced b s = true -> single_spaced b (trimEnd s) = true.
Proof.
  revert b. induction s as [|c s IH]; intros b; [done|].
  simpl. destruct (is_space c) eqn:Hc.
  - intros H. apply andb_true_iff in H as [H1 H2].
    specialize (IH true H2).
    destruct (trimEnd s) as [|c' s']; [done|].
    simpl in *. by rewrite Hc, H1.
  - intros H. specialize (IH false H).
    destruct (trimEnd s) as [|c' s']; simpl in *; by rewrite Hc.
Qed.

Lemma trimEnd_ends s : ends_in_space (trimEnd s) = false.
Proof.
  induction s as [|c s IH]; [done|].
  simpl. destruct (trimEnd s) as [|c' s'] eqn:Ht.
  - destruct (is_space c) eqn:Hc; [done|]. simpl. exact Hc.
  - exact IH.
Qed.

Lemma trimEnd_fixed s : ends_in_space s = false -> trimEnd s = s.
Proof.
  induction s as [|c s IH]; [done|].
  simpl. destruct s as [|c' s'].
  - intros ->. done.
  - intros H. by rewrite (IH H).
Qed.

Lemma collapse_fixed b s : single_spaced b s = true -> collapse b s = s.
Proof.
  revert b. induction s as [|c s IH]; intros b; [done|].
  simpl. destruct (is_space c) eqn:Hc.
  - intros H. apply andb_true_iff in H as [H1 H2].
    apply andb_true_iff in H1 as [Heq Hb].
    apply Ascii.eqb_eq in Heq as ->. apply negb_true_iff in Hb as ->.
    by rewrite (IH true H2).
  - intros H. by rewrite (IH false H).
Qed.

Lemma visible_collapse b s : visible (collapse b s) = visible s.
Proof.
  revert b. induction s as [|c s IH]; intros b; [done|].
  simpl. destruct (is_space c) eqn:Hc.
  - destruct b; [apply IH|]. simpl. apply IH.
  - simpl. by rewrite Hc, IH.
Qed.

Lemma visible_trimStart s : visible (trimStart s) = visible s.
Proof.
  induction s as [|c s IH]; [done|].
  simpl. destruct (is_space c) eqn:Hc; [done|]. simpl. by rewrite Hc.
Qed.

Lemma visible_trimEnd s : visible (trimEnd s) = visible s.
Proof.
  induction s as [|c s IH]; [done|].
  simpl. destruct (trimEnd s) as [|c' s'] eqn:Ht.
  - simpl in IH. destruct (is_space c) eqn:Hc; simpl; by rewrite ?Hc, <- IH.
  - change (visible (String c (String c' s'))
            = if is_space c then visible s else String c (visible s)).
    rewrite <- IH. simpl. done.
Qed.

(** X24: what [cleanText] returns.  The result is in normal form: its only
    white space is single spaces, each between two other characters, so it
    neither starts nor ends with one.  The characters that are not white
    space are those of the input, in order.  A text already in normal form
    is returned unchanged, and only such a text is; hence cleaning twice is
    cleaning once. *)
Theorem cleanText_normal_form text :
  tidy (cleanText text) = true /\
  visible (cleanText text) = visible (default "" text) /\
  (forall s, cleanText (Some s) = s <-> tidy s = true) /\
  cleanText (Some (cleanText text)) = cleanText text.
Proof.
  assert (forall t, tidy (cleanText t) = true) as Htidy.
  { intros t. unfold cleanText. destruct (truthy_string t) as [s|]; [|done].
    unfold tidy, trim. rewrite trimEnd_ends, andb_true_r.
    apply trimEnd_single_spaced, trimStart_single_spaced, collapse_single_spaced. }
  assert (forall s, tidy s = true -> cleanText (Some s) = s) as Hfixed.
  { intros s Hs. unfold cleanText, truthy_string.
    destruct (String.eqb_spec s "") as [->|_]; [done|].
    unfold tidy in Hs. apply andb_true_iff in Hs as [Hs He].
    apply negb_true_iff in He. unfold trim.
    rewrite collapse_fixed by (by apply single_spaced_weaken).
    by rewrite trimStart_fixed, trimEnd_fixed. }
  split; [apply Htidy|]. split; [|split].
  - unfold cleanText, truthy_string. destruct text as [s|]; [|done].
    destruct (String.eqb_spec s "") as [->|_]; [done|].
    unfold trim. by rewrite visible_trimEnd, visible_trimStart, visible_collapse.
  - intros s. split; [|apply Hfixed].
    intros <-. apply Htidy.
  - apply Hfixed, Htidy.
Qed.

(** ** The peer identifier and the origin validator agree *)

Lemma lowercase_app (a b : string) : lowercase (a +:+ b) = lowercase a +:+ lowercase b.
Proof.
  induction a as [|c a IH]; [done|].
  rewrite string_app_cons. simpl. by rewrite IH.
Qed.

Lemma string_app_assoc (a b c : string) : (a +:+ b) +:+ c = a +:+ b +:+ c.
Proof.
  induction a as [|x a IH]; [done|].
  rewrite !string_app_cons. by rewrite IH.
Qed.

Lemma string_app_nil_r (a : string) : a +:+ "" = a.
Proof.
  induction a as [|x a IH]; [done|].
  by rewrite string_app_cons, IH.
Qed.

(** A text in lower case that occurs in the origin is found in the URL by
    the pattern that ignores case. *)
Lemma test_i_origin (literal origin path : string) :
  lowercase literal = literal ->
  includes literal origin = true ->
  test_i literal (origin +:+ path) = true.
Proof.
  intros Hlit Hin. apply includes_spec in Hin as (a & b & ->).
  unfold test_i. apply includes_spec.
  exists (lowercase a), (lowercase (b +:+ path)).
  rewrite !string_app_assoc, !lowercase_app. by rewrite Hlit.
Qed.

Lemma detectPearsonDomain_found (literal url hostname : string) :
  literal ∈ domainPatterns.*1 ->
  test_i literal url = true ->
  detectPearsonDomain url hostname ∈ domainPatterns.*2.
Proof.
  intros Hlit Htest. unfold detectPearsonDomain.
  destruct (find _ domainPatterns) as [p|] eqn:Hfind.
  - apply find_some in Hfind as [Hin _].
    apply list_elem_of_fmap. exists p. split; [done|]. by apply list_elem_of_In.
  - apply list_elem_of_fmap in Hlit as (p & -> & Hp).
    apply list_elem_of_In in Hp.
    pose proof (find_none _ _ Hfind p Hp) as Hnone. simpl in Hnone.
    by rewrite Htest in Hnone.
Qed.

(** X25: the peer identifier and the origin validator agree on what is a
    Pearson page.  A document whose origin [isPearsonOrigin] accepts
    (otherwise than as the receiver's own origin) identifies itself, on
    any URL of that origin, with one of the six specific identifiers of
    [domainPatterns]: never as ['unknown'] or ['pearson-other']. *)
Theorem trusted_origin_is_identified own origin path hostname :
  isPearsonOrigin own origin = true ->
  origin <> own ->
  detectPearsonDomain (origin +:+ path) hostname
    ∈ ["mylab"; "mylabmastering"; "mylabandmastering"; "mathxl"; "pearsoncmg"; "pearson"].
Proof.
  intros Htrust Hown.
  change ["mylab"; "mylabmastering"; "mylabandmastering"; "mathxl"; "pearsoncmg"; "pearson"]
    with (domainPatterns.*2).
  unfold isPearsonOrigin in Htrust.
  destruct (includes "mylab.pearson.com" origin) eqn:H1.
  { apply (detectPearsonDomain_found "mylab.pearson.com");
      [apply list_elem_of_here|].
    by apply test_i_origin. }
  destruct (includes "mylabmastering.pearson.com" origin) eqn:H2.
  { apply (detectPearsonDomain_found "mylabmastering.pearson.com");
      [apply list_elem_of_further, list_elem_of_here|].
    by apply test_i_origin. }
  destruct (String.eqb_spec origin own) as [|_]; [done|].
  cbn [orb] in Htrust.
  apply existsb_exists in Htrust as (D & HD & Htest).
  apply pattern_test_spec in Htest as (scheme & mid & _ & -> & _).
  assert (D ∈ domainPatterns.*1 /\ lowercase D = D) as [Hlit Hlow].
  { change (domainPatterns.*1)
      with ["mylab.pearson.com"; "mylabmastering.pearson.com";
            "pearsonmylabandmastering.com"; "mathxl.com"; "pearsoncmg.com"; "pearson.com"].
    unfold PEARSON_DOMAINS in HD. simpl in HD.
    destruct HD as [<-|[<-|[<-|[]]]];
      (split; [|vm_compute; reflexivity]);
      repeat first [apply list_elem_of_here | apply list_elem_of_further]. }
  apply (detectPearsonDomain_found D); [exact Hlit|].
  apply test_i_origin; [done|].
  apply includes_spec. exists (scheme +:+ mid), "".
  by rewrite string_app_assoc, string_app_nil_r.
Qed.

(** At a concrete input: a player page of media.pearsoncmg.com. *)
Lemma trusted_origin_is_identified_witness :
  (isPearsonOrigin "https://mylab.pearson.com" "https://media.pearsoncmg.com" = true /\
   "https://media.pearsoncmg.com" <> "https://mylab.pearson.com") /\
  detectPearsonDomain ("https://media.pearsoncmg.com" +:+ "/player/index.html")
    "media.pearsoncmg.com"
    ∈ ["mylab"; "mylabmastering"; "mylabandmastering"; "mathxl"; "pearsoncmg"; "pearson"].
Proof.
  assert (H1 : isPearsonOrigin "https://mylab.pearson.com" "https://media.pearsoncmg.com"
               = true) by (vm_compute; reflexivity).
  assert (H2 : "https://media.pearsoncmg.com" <> "https://mylab.pearson.com")
    by discriminate.
  split; [by split|].
  exact (trusted_origin_is_identified "https://mylab.pearson.com"
           "https://media.pearsoncmg.com" "/player/index.html" "media.pearsoncmg.com"
           H1 H2).
Defined.

(** ** How far a message travels *)

(** The retry timers after a primary send: those that were there, and
    possibly one for the object just sent, when [retry] is on. *)
Lemma originalSend_retries env now rand data opts w due d o :
  (due, RetrySend d o) ∈ timers (originalSend env now rand data opts w).1.2 ->
  (due, RetrySend d o) ∈ timers w \/ (d = data /\ retry opts = true).
Proof.
  unfold originalSend, setTimeout.
  destruct (rate_limited now data opts w); [by left|].
  destruct (duplicate_suppressed now data opts _); [by left|].
  destruct (retry opts); simpl andb;
    [destruct (0 <? retryCount opts)|];
    (destruct (callback opts) as [cb|]; [destruct (is_action "ping" data)|]);
    simpl; intros Hin; set_unfold in Hin;
    repeat match goal with H : _ \/ _ |- _ => destruct H end;
    first [ by left
          | discriminate
          | match goal with H : (_, _) = (_, _) |- _ => injection H as _ -> _ end;
            by right ].
Qed.

Lemma sendCrossDomainMessage_retries env now rand data opts w due d o :
  (due, RetrySend d o) ∈ timers (sendCrossDomainMessage env now rand data opts w).1.2 ->
  (due, RetrySend d o) ∈ timers w \/ (d = data /\ retry opts = true).
Proof.
  pose proof (sendCrossDomainMessage_write env now rand data opts w) as Hw.
  simpl in Hw. intros Hin.
  apply (originalSend_retries env now rand data opts w).
  destruct (_ && _ && _); destruct Hw as (_ & _ & Ht); rewrite Ht in Hin; [|done].
  apply elem_of_app in Hin as [Hin|Hin]; [done|].
  by apply list_elem_of_singleton in Hin.
Qed.

Lemma sendCrossDomainMessage_pathless env now rand data opts w :
  (forall p, path data = Some p -> (length p < 3)%nat /\ retry opts = false) ->
  pathless_retries w ->
  pathless_retries (sendCrossDomainMessage env now rand data opts w).1.2 /\
  short_paths (sendCrossDomainMessage env now rand data opts w).2.
Proof.
  intros Hdata Hw. split.
  - intros due d o Hin.
    apply sendCrossDomainMessage_retries in Hin as [Hin|[-> Hretry]]; [by eapply Hw|].
    destruct (path data) as [p|] eqn:Hp; [|done].
    destruct (Hdata p eq_refl) as [_ Hoff]. congruence.
  - intros e m Hin Hm.
    destruct (sendCrossDomainMessage_posted env now rand data opts w e m Hin Hm) as [-> _].
    simpl. destruct (path data) as [p|] eqn:Hp.
    + destruct (Hdata p eq_refl) as [Hlen _].
      eexists. split; [done|]. rewrite length_app. simpl. lia.
    + eexists. split; [done|]. simpl. lia.
Qed.

Lemma short_paths_nil : short_paths [].
Proof. intros e m Hin. by apply elem_of_nil in Hin. Qed.

Lemma short_paths_silent e : posted e = None -> short_paths [e].
Proof. intros He e' m Hin Hm. apply list_elem_of_singleton in Hin as ->. congruence. Qed.

Lemma handle_action_pathless env now rand data w :
  pathless_retries w ->
  pathless_retries (handle_action env now rand data w).1 /\
  short_paths (handle_action env now rand data w).2.
Proof.
  intros Hw.
  pose proof short_paths_nil as Hnil.
  unfold handle_action.
  destruct (is_action "analyzeQuestion" data).
  { destruct (state_analyzing w); (split; [done|]);
      [done | by apply short_paths_silent]. }
  destruct (is_action "updateStatus" data).
  { destruct (bool_decide (state_enabled w = enabled data)); [by split|].
    destruct (bool_decide (from data ≠ Some (currentDomain env))); simpl;
      [|split; [done | by apply short_paths_silent]].
    destruct (path data) as [p|] eqn:Hp;
      [|split; [done | by apply short_paths_silent]].
    destruct (length p <? 3)%nat eqn:Hlen;
      [|split; [done | by apply short_paths_silent]].
    apply Nat.ltb_lt in Hlen.
    match goal with
    | |- context [sendCrossDomainMessage ?e ?n ?r ?d ?o ?w'] =>
        destruct (sendCrossDomainMessage_pathless e n r d o w') as [Hr Hs];
        [ intros p' [= <-]; by split | exact Hw | ];
        destruct (sendCrossDomainMessage e n r d o w') as [[c w1] out1]
    end.
    simpl in *. split; [done|].
    intros e m Hin Hm. apply elem_of_cons in Hin as [->|Hin]; [done|].
    by apply (Hs e m). }
  destruct (is_action "requestQuestionCheck" data).
  { destruct (pageHasQuestions env && _); [|by split].
    split; [|done]. intros due d o Hin. simpl in Hin.
    apply elem_of_app in Hin as [Hin|Hin]; [by eapply Hw|].
    by apply list_elem_of_singleton in Hin. }
  destruct (is_action "questionAnalyzed" data).
  { destruct (state_analyzing w); (split; [done|]);
      [by apply short_paths_silent | done]. }
  destruct (is_action "ping" data).
  { match goal with
    | |- context [sendCrossDomainMessage ?e ?n ?r ?d ?o ?w'] =>
        destruct (sendCrossDomainMessage_pathless e n r d o w') as [Hr Hs];
        [ intros p' [=] | exact Hw | ];
        destruct (sendCrossDomainMessage e n r d o w') as [[c w1] out1]
    end.
    by split. }
  destruct (is_action "pong" data); [|by split].
  destruct (truthy_string (replyTo data)) as [r|]; [|by split].
  destruct (pendingPings w !! r) as [pending|]; [|by split].
  split; [done|].
  destruct (pp_callback pending); [by apply short_paths_silent | done].
Qed.

Lemma step_pathless env now rand ev w :
  match ev with SendCall data _ => path data = None | _ => True end ->
  pathless_retries w ->
  pathless_retries (step env now rand ev w).1 /\
  short_paths (step env now rand ev w).2.
Proof.
  intros Hev Hw.
  pose proof short_paths_nil as Hnil.
  destruct ev as [data opts|origin data|key newValue|i]; simpl.
  - destruct (sendCrossDomainMessage_pathless env now rand data opts w) as [Hr Hs];
      [intros p Hp; congruence | done |].
    by destruct (sendCrossDomainMessage env now rand data opts w) as [[? ?] ?].
  - unfold onWindowMessage.
    destruct (negb _); [done|].
    destruct data as [| |data]; try done.
    destruct (negb _); [done|].
    pose proof (accept_message_frame env now data w) as Hf. simpl in Hf.
    destruct Hf as (_ & _ & _ & _ & _ & _ & _ & _ & _ & Ht).
    destruct (accept_message env now data w) as [v wa]. simpl in Ht.
    assert (pathless_retries wa) as Hwa.
    { intros due d o Hin. rewrite Ht in Hin. by eapply Hw. }
    destruct v; try done.
    destruct (handle_action_pathless env now rand data wa Hwa) as [Hr Hs].
    by destruct (handle_action env now rand data wa).
  - destruct (onStorage_frame env now rand key newValue w) as (_ & Ht & Hout).
    destruct (onStorage env now rand key newValue w) as [[v w1] out1].
    simpl in *. subst out1. split; [|done].
    intros due d o Hin. rewrite Ht in Hin. by eapply Hw.
  - destruct (timers w !! i) as [[due task]|] eqn:Hi; [|done].
    destruct (due <=? now); [|done].
    assert (pathless_retries (set_timers (delete i (timers w)) w)) as Hdel.
    { intros due' d o Hin. simpl in Hin.
      apply list_elem_of_delete_inv in Hin. by eapply Hw. }
    destruct task as [id|data opts|key| |]; simpl.
    + by destruct (pendingPings w !! id).
    + assert (path data = None) as Hnone.
      { apply (Hw due data opts). by eapply list_elem_of_lookup_2. }
      destruct (sendCrossDomainMessage_pathless env now rand data opts
                  (set_timers (delete i (timers w)) w)) as [Hr Hs];
        [intros p Hp; congruence | done |].
      by destruct (sendCrossDomainMessage env now rand data opts _) as [[? ?] ?].
    + split; [done|]. intros e m Hin Hm.
      apply list_elem_of_singleton in Hin as ->. done.
    + destruct (state_analyzing w); split; try done.
      intros e m Hin Hm. apply list_elem_of_singleton in Hin as ->. done.
    + split; [done|]. intros e m Hin Hm.
      apply list_elem_of_singleton in Hin as ->. done.
Qed.

(** X26: a message of the extension travels at most three hops.  In a run
    in which callers send objects without a [path] (as every call site
    outside the listener does), every message the bus posts (first sends,
    retries, forwarded status updates, replies to pings) has a path of at
    most three entries, whatever arrives from other frames; so the loop
    rule of the listener, which looks only at paths longer than five,
    never stops a message that such a bus has posted. *)
Theorem posted_paths_stay_short env trace w :
  pathless_callers trace ->
  pathless_retries w ->
  short_paths (run env trace w).2 /\
  forall receiver e m,
    e ∈ (run env trace w).2 -> posted e = Some m -> loop_blocked receiver m = false.
Proof.
  intros Hc Hw.
  assert (short_paths (run env trace w).2) as Hshort.
  { revert w Hw. induction Hc as [|[[now rand] ev] rest Hev _ IH]; intros w Hw.
    - intros e m Hin. by apply elem_of_nil in Hin.
    - simpl in Hev |- *.
      destruct (step_pathless env now rand ev w Hev Hw) as [Hr Hs].
      destruct (step env now rand ev w) as [w1 out1]. simpl in Hr, Hs.
      specialize (IH w1 Hr).
      destruct (run env rest w1) as [w2 out2]. simpl in *.
      intros e m Hin Hm. apply elem_of_app in Hin as [Hin|Hin]; eauto. }
  split; [done|].
  intros receiver e m Hin Hm.
  destruct (Hshort e m Hin Hm) as (p & Hp & Hlen).
  unfold loop_blocked. rewrite Hp.
  replace (5 <? length p)%nat with false; [done|].
  symmetry. apply Nat.ltb_ge. lia.
Qed.

(** At a concrete input: a status update posted on, then a request that is retried. *)
Lemma posted_paths_stay_short_witness :
  let trace :=
    [(1700000004100, draw "b",
      WindowMessage "https://mylabmastering.pearson.com"
        (WObject (status_update "msg_1700000004000_s" true [peer_B; peer_C])));
     (1700000005000, draw "c", SendCall analyze_request retry_twice);
     (1700000005500, draw "d", TimerFires 0)] in
  (pathless_callers trace /\ pathless_retries initial_world) /\
  short_paths (run frame trace initial_world).2 /\
  PostToParent
    (envelope frame 1700000004100 "msg_1700000004100_b"
       {| source := None; action := Some "updateStatus"; messageId := None;
          from := None; timestamp := None; path := Some [peer_B; peer_C];
          replyTo := None; enabled := Some true; hasQuestions := None;
          fallback := false |}) ∈ (run frame trace initial_world).2.
Proof.
  intros trace.
  assert (Hc : pathless_callers trace) by (by repeat constructor).
  assert (Hw : pathless_retries initial_world).
  { intros due d o Hin. by apply elem_of_nil in Hin. }
  split; [by split|]. split.
  - exact (proj1 (posted_paths_stay_short frame trace initial_world Hc Hw)).
  - vm_compute. apply list_elem_of_further, list_elem_of_here.
Defined.
